(** * Weather tool servers: a shallow embedding of the JSON-RPC dispatchers

    The repository ships two line-oriented tool servers,
    [mock_weather_server.py] and [weather_mcp_server.py].  Each one reads a
    request per line from standard input, dispatches it by method and tool
    name, and prints one JSON response per line.

    The development is organised like the Python it models:
    - [py]: the Python values, exceptions and built-in operations the servers
      use ([dict.get], [str.lower], f-strings, float arithmetic, ...);
    - [json]: Python's [json.loads] and [json.dumps] on text;
    - [random], [datetime]: the library calls of the tool implementations;
    - [dispatcher]: the [main] loop, which is the same text in both files;
    - [mock_weather_server], [weather_mcp_server]: the tool implementations,
      [handle_tool_call] and [list_tools] of each file.

    Text is a list of Unicode code points, so that [json] escapes (the
    \uXXXX form, surrogate pairs) mean what they mean in Python.  Floats are
    the kernel's binary64 floats, which is what a Python [float] is. *)

From Stdlib Require Import ZArith NArith List Bool String Ascii Lia.
From Stdlib Require Import DecimalPos DecimalZ DecimalFacts.
From Stdlib Require Import PrimFloat SpecFloat FloatOps FloatAxioms.
From Equations Require Import Equations.
From Equations.Prop Require Import Logic.
Import ListNotations.

Open Scope string_scope.
Open Scope list_scope.
Set Warnings "-register-all,-inexact-float".

(** * Python built-ins *)

Module py.

(** A [str] is a sequence of code points. *)
Definition str := list N.

(** An ASCII literal of the source as a [str]. *)
Definition lit (s : string) : str := map N_of_ascii (list_ascii_of_string s).

Fixpoint str_eqb (a b : str) : bool :=
  match a, b with
  | [], [] => true
  | x :: a', y :: b' => N.eqb x y && str_eqb a' b'
  | _, _ => false
  end.

(** The values that reach the servers: what [json.loads] builds and what the
    tools return.  A [dict] keeps its insertion order, as Python's does; its
    keys are always [str] here. *)
Inductive value : Type :=
| PyNone : value
| PyBool : bool -> value
| PyInt : Z -> value
| PyFloat : float -> value
| PyStr : str -> value
| PyList : list value -> value
| PyDict : list (str * value) -> value.

(** Exceptions.  The servers tell [json.JSONDecodeError] from every other
    [Exception]; beyond the class only [str(e)] is ever read. *)
Inductive exn : Type :=
| JSONDecodeError : str -> exn
| Exception : str -> exn.

Definition exn_str (e : exn) : str :=
  match e with JSONDecodeError m => m | Exception m => m end.

(** Code that may raise. *)
Definition result (A : Type) : Type := (exn + A)%type.

Definition type_name (v : value) : str :=
  match v with
  | PyNone => lit "NoneType"
  | PyBool _ => lit "bool"
  | PyInt _ => lit "int"
  | PyFloat _ => lit "float"
  | PyStr _ => lit "str"
  | PyList _ => lit "list"
  | PyDict _ => lit "dict"
  end.

(** [AttributeError] for [v.attr] on a value without that attribute. *)
Definition AttributeError (v : value) (attr : string) : exn :=
  Exception (lit "'" ++ type_name v ++ lit "' object has no attribute '"
             ++ lit attr ++ lit "'").

Definition TypeError (msg : str) : exn := Exception msg.

(** ** dict *)

Fixpoint dict_lookup (d : list (str * value)) (k : str) : option value :=
  match d with
  | [] => None
  | (k', v) :: d' => if str_eqb k' k then Some v else dict_lookup d' k
  end.

(** [d[k] = v]: an existing key keeps its place, a new one goes last. *)
Fixpoint dict_set (d : list (str * value)) (k : str) (v : value)
  : list (str * value) :=
  match d with
  | [] => [(k, v)]
  | (k', v') :: d' =>
      if str_eqb k' k then (k', v) :: d' else (k', v') :: dict_set d' k v
  end.

(** [x.get(k, default)]: only a [dict] has [get]. *)
Definition get (x : value) (k : string) (default : value) : result value :=
  match x with
  | PyDict d =>
      inr (match dict_lookup d (lit k) with Some v => v | None => default end)
  | _ => inl (AttributeError x "get")
  end.

(** [x[k]] where it is there: the field [k] of a [dict]. *)
Definition field (x : value) (k : string) : option value :=
  match x with
  | PyDict d => dict_lookup d (lit k)
  | _ => None
  end.

(** [x == "literal"]. *)
Definition eq_lit (x : value) (s : string) : bool :=
  match x with
  | PyStr t => str_eqb t (lit s)
  | _ => false
  end.

(** Truth value of an object, as [if x] and [not x] test it. *)
Definition truthy (v : value) : bool :=
  match v with
  | PyNone => false
  | PyBool b => b
  | PyInt z => negb (Z.eqb z 0)
  | PyFloat f => negb (PrimFloat.eqb f 0%float)
  | PyStr s => match s with [] => false | _ => true end
  | PyList l => match l with [] => false | _ => true end
  | PyDict d => match d with [] => false | _ => true end
  end.

(** ** Decimal digits *)

Fixpoint uint_digits (u : Decimal.uint) : str :=
  match u with
  | Decimal.Nil => []
  | Decimal.D0 u => 48%N :: uint_digits u
  | Decimal.D1 u => 49%N :: uint_digits u
  | Decimal.D2 u => 50%N :: uint_digits u
  | Decimal.D3 u => 51%N :: uint_digits u
  | Decimal.D4 u => 52%N :: uint_digits u
  | Decimal.D5 u => 53%N :: uint_digits u
  | Decimal.D6 u => 54%N :: uint_digits u
  | Decimal.D7 u => 55%N :: uint_digits u
  | Decimal.D8 u => 56%N :: uint_digits u
  | Decimal.D9 u => 57%N :: uint_digits u
  end.

Definition is_digit (c : N) : bool := (48 <=? c)%N && (c <=? 57)%N.

(** The digit characters of [s] as a decimal number; other characters are
    not expected (callers pass digit runs) and count as 0. *)
Fixpoint digits_uint (s : str) : Decimal.uint :=
  match s with
  | [] => Decimal.Nil
  | c :: s' =>
      let u := digits_uint s' in
      if (c =? 49)%N then Decimal.D1 u
      else if (c =? 50)%N then Decimal.D2 u
      else if (c =? 51)%N then Decimal.D3 u
      else if (c =? 52)%N then Decimal.D4 u
      else if (c =? 53)%N then Decimal.D5 u
      else if (c =? 54)%N then Decimal.D6 u
      else if (c =? 55)%N then Decimal.D7 u
      else if (c =? 56)%N then Decimal.D8 u
      else if (c =? 57)%N then Decimal.D9 u
      else Decimal.D0 u
  end.

(** [int(s)] on a run of digits. *)
Definition digits_Z (s : str) : Z := Z.of_uint (digits_uint s).

(** [str(z)] for an [int]. *)
Definition int_str (z : Z) : str :=
  match z with
  | Z0 => [48%N]
  | Zpos p => uint_digits (Pos.to_uint p)
  | Zneg p => 45%N :: uint_digits (Pos.to_uint p)
  end.

(** ** float *)

(** [float(z)] for an [int]: the nearest binary64 value. *)
Definition float_of_Z (z : Z) : float :=
  SF2Prim (binary_normalize prec emax z 0 false).

(** The binary64 value nearest to [m * 10 ^ e10], signed by [neg]: what
    [float("...")] computes from a decimal literal.  Both branches round
    once, to nearest with ties to even. *)
Definition float_of_dec (neg : bool) (m : Z) (e10 : Z) : float :=
  match m with
  | Zpos p =>
      if (0 <=? e10)%Z
      then SF2Prim (binary_normalize prec emax
                      ((if neg then Zneg p else Zpos p) * 10 ^ e10) 0 false)
      else SF2Prim (SFdiv prec emax (S754_finite neg p 0)
                      (S754_finite false (Z.to_pos (10 ^ (- e10))) 0))
  | _ => if neg then (-0)%float else 0%float
  end.

(** *** [repr] of a float: the shortest digits that read back

    [x = m * 2 ^ e] as the fraction [num / den]. *)
Definition frac_num (m : positive) (e : Z) : Z := Zpos m * 2 ^ (Z.max e 0).
Definition frac_den (e : Z) : Z := 2 ^ (Z.max (- e) 0).

(** [10 ^ k <= num / den], for any sign of [k]. *)
Definition pow10_le (k : Z) (num den : Z) : bool :=
  if (0 <=? k)%Z then (10 ^ k * den <=? num)%Z
  else (den <=? num * 10 ^ (- k))%Z.

(** The decimal exponent [k] with [10 ^ k <= x < 10 ^ (k + 1)], found from
    an estimate off by a few units at most. *)
Fixpoint adjust_up (fuel : nat) (k : Z) (num den : Z) : Z :=
  match fuel with
  | O => k
  | S f => if pow10_le (k + 1) num den then adjust_up f (k + 1) num den else k
  end.

Fixpoint adjust_down (fuel : nat) (k : Z) (num den : Z) : Z :=
  match fuel with
  | O => k
  | S f => if pow10_le k num den then k else adjust_down f (k - 1) num den
  end.

Definition decimal_exponent (m : positive) (e : Z) : Z :=
  let num := frac_num m e in
  let den := frac_den e in
  let est := ((Z.log2 (Zpos m) + e) * 30103 / 100000)%Z in
  adjust_up 4 (adjust_down 4 (est + 1) num den) num den.

(** [floor (x / 10 ^ p)]. *)
Definition scaled_floor (m : positive) (e p : Z) : Z :=
  let num := frac_num m e in
  let den := frac_den e in
  if (0 <=? p)%Z then (num / (den * 10 ^ p))%Z
  else (num * 10 ^ (- p) / den)%Z.

(** Sign of [(lo + hi) * 10 ^ p / 2 - x]: which of the two neighbours [lo]
    and [hi = lo + 1] is nearer to [x]. *)
Definition midpoint_cmp (m : positive) (e p lo : Z) : comparison :=
  let num := frac_num m e in
  let den := frac_den e in
  if (0 <=? p)%Z then ((2 * lo + 1) * 10 ^ p * den ?= 2 * num)%Z
  else ((2 * lo + 1) * den ?= 2 * num * 10 ^ (- p))%Z.

(** With [n] significant digits: the [n]-digit neighbour of [x] that reads
    back as [x], the nearer one when both do. *)
Definition try_digits (x : float) (m : positive) (e k : Z) (n : Z)
  : option (Z * Z) :=
  let p := (k - (n - 1))%Z in
  let lo := scaled_floor m e p in
  let hi := (lo + 1)%Z in
  let ok_lo := PrimFloat.Leibniz.eqb (float_of_dec false lo p) x in
  let ok_hi := PrimFloat.Leibniz.eqb (float_of_dec false hi p) x in
  let pick_lo :=
    match midpoint_cmp m e p lo with
    | Gt => true
    | Lt => false
    | Eq => Z.even lo
    end in
  if ok_lo && ok_hi then Some (if pick_lo then lo else hi, p)
  else if ok_lo then Some (lo, p)
  else if ok_hi then Some (hi, p)
  else None.

Fixpoint shortest_from (fuel : nat) (x : float) (m : positive) (e k : Z)
  (n : Z) : Z * Z :=
  match fuel with
  | O => (scaled_floor m e (k - 16), (k - 16)%Z)
  | S f =>
      match try_digits x m e k n with
      | Some r => r
      | None => shortest_from f x m e k (n + 1)
      end
  end.

(** Trailing zeros of the digit string move into the exponent. *)
Fixpoint strip_zeros (fuel : nat) (d p : Z) : Z * Z :=
  match fuel with
  | O => (d, p)
  | S f => if (d mod 10 =? 0)%Z then strip_zeros f (d / 10) (p + 1) else (d, p)
  end.

(** The digits and the position of the decimal point ([decpt]): the value is
    [0.d1d2...dn * 10 ^ decpt]. *)
Definition shortest_digits (x : float) (m : positive) (e : Z) : str * Z :=
  let k := decimal_exponent m e in
  let '(d, p) := shortest_from 17 x m e k 1 in
  let '(d, p) := strip_zeros 17 d p in
  let ds := int_str d in
  (ds, (p + Z.of_nat (List.length ds))%Z).

Definition zeros (n : Z) : str := repeat 48%N (Z.to_nat n).

(** The exponent of the scientific form: a sign and at least two digits. *)
Definition exp_str (x : Z) : str :=
  let a := Z.abs x in
  (if (x <? 0)%Z then [45%N] else [43%N])
    ++ (if (a <? 10)%Z then [48%N] else []) ++ int_str a.

(** [repr] lays the digits out in fixed notation unless the decimal point
    falls further than 16 digits right or 4 digits left of them. *)
Definition format_repr (ds : str) (decpt : Z) : str :=
  let n := Z.of_nat (List.length ds) in
  if ((decpt <=? -4) || (16 <? decpt))%Z then
    match ds with
    | [] => []
    | d :: rest =>
        d :: (match rest with [] => [] | _ => 46%N :: rest end)
          ++ [101%N] ++ exp_str (decpt - 1)
    end
  else if (decpt <=? 0)%Z then
    [48%N; 46%N] ++ zeros (- decpt) ++ ds
  else if (n <=? decpt)%Z then
    ds ++ zeros (decpt - n) ++ [46%N; 48%N]
  else
    firstn (Z.to_nat decpt) ds ++ [46%N] ++ skipn (Z.to_nat decpt) ds.

(** [repr(x)] for a [float]. *)
Definition float_repr (x : float) : str :=
  match Prim2SF x with
  | S754_zero s => if s then lit "-0.0" else lit "0.0"
  | S754_infinity s => if s then lit "-inf" else lit "inf"
  | S754_nan => lit "nan"
  | S754_finite s m e =>
      let '(ds, decpt) := shortest_digits (abs x) m e in
      (if s then [45%N] else []) ++ format_repr ds decpt
  end.

(** ** What the interpreter and its surroundings decide

    The servers read a clock, a random generator, the process environment
    and the Unicode database.  A [Runtime] gives each of them; every theorem
    below holds for any runtime.  Limits of the interpreter and its libraries
    (recursion depth, the digit limit of [int]/[str] conversion, the year
    range of [datetime], memory) are not modelled. *)
Class Runtime : Type := {
  (** [str.isprintable] of one non-ASCII code point (Unicode database) *)
  isprintable : N -> bool;
  (** [str.lower] of a text with non-ASCII code points (Unicode database) *)
  unicode_lower : str -> str;
  (** [str(e)] of the [JSONDecodeError] that [json.loads] raises on a text *)
  decode_error : str -> str;
  (** [os.getenv name] *)
  getenv : str -> option str;
  (** the state the tools read and advance: random generator and clock *)
  world : Type;
  (** [random.random()]: a float of the interval from 0 to 1 *)
  stdlib_random : world -> float * world;
  (** the integer [random] draws for [randint] and [choice] below a bound *)
  stdlib_randbelow : Z -> world -> Z * world;
  (** [datetime.now()], in microseconds on an unbounded calendar *)
  stdlib_now : world -> Z * world;
  (** [dt.isoformat()] *)
  isoformat : Z -> str;
  (** [dt.strftime(fmt)] *)
  strftime : Z -> str -> str
}.

(** ** Computations of the tools: they may raise, and they advance the
    world whether they raise or not. *)
Definition M {rt : Runtime} (A : Type) : Type := world -> result A * world.

Definition ret {rt : Runtime} {A} (a : A) : M A := fun w => (inr a, w).

Definition raise {rt : Runtime} {A} (e : exn) : M A := fun w => (inl e, w).

Definition bind {rt : Runtime} {A B} (m : M A) (k : A -> M B) : M B :=
  fun w =>
    match m w with
    | (inr a, w') => k a w'
    | (inl e, w') => (inl e, w')
    end.

(** A pure step that may raise, run inside [M]. *)
Definition lift {rt : Runtime} {A} (r : result A) : M A := fun w => (r, w).

(** [try: body except Exception as e: handler(e)]. *)
Definition try_except {rt : Runtime} {A} (body : M A) (handler : exn -> M A)
  : M A :=
  fun w =>
    match body w with
    | (inr a, w') => (inr a, w')
    | (inl e, w') => handler e w'
    end.

Declare Scope py_scope.
Delimit Scope py_scope with py.
Notation "x <- m ;; k" := (bind m (fun x => k))
  (at level 61, m at next level, right associativity) : py_scope.

(** ** repr and str *)

Definition hex_digit (d : N) : N :=
  (if d <? 10 then 48 + d else 87 + d)%N.

Definition hex2 (c : N) : str :=
  [hex_digit (c / 16 mod 16); hex_digit (c mod 16)]%N.

Definition hex4 (c : N) : str :=
  [hex_digit (c / 4096 mod 16); hex_digit (c / 256 mod 16);
   hex_digit (c / 16 mod 16); hex_digit (c mod 16)]%N.

Definition hex8 (c : N) : str := hex4 (c / 65536) ++ hex4 (c mod 65536).

Definition mem_char (c : N) (s : str) : bool := existsb (N.eqb c) s.

Section Repr.
Context {rt : Runtime}.

(** One character of [repr(s)], inside quotes [quote]. *)
Definition repr_char (quote c : N) : str :=
  if ((c =? quote) || (c =? 92))%N then [92%N; c]
  else if (c =? 9)%N then lit "\t"
  else if (c =? 10)%N then lit "\n"
  else if (c =? 13)%N then lit "\r"
  else if ((c <? 32) || (c =? 127))%N then lit "\x" ++ hex2 c
  else if (c <? 127)%N then [c]
  else if isprintable c then [c]
  else if (c <=? 255)%N then lit "\x" ++ hex2 c
  else if (c <=? 65535)%N then lit "\u" ++ hex4 c
  else lit "\U" ++ hex8 c.

(** [repr(s)] of a [str]: single quotes unless the text has one and has no
    double quote. *)
Definition str_repr (s : str) : str :=
  let quote := if mem_char 39 s && negb (mem_char 34 s) then 34%N else 39%N in
  quote :: flat_map (repr_char quote) s ++ [quote].

Fixpoint join (sep : str) (parts : list str) : str :=
  match parts with
  | [] => []
  | [p] => p
  | p :: rest => p ++ sep ++ join sep rest
  end.

Fixpoint repr (v : value) : str :=
  match v with
  | PyNone => lit "None"
  | PyBool true => lit "True"
  | PyBool false => lit "False"
  | PyInt z => int_str z
  | PyFloat f => float_repr f
  | PyStr s => str_repr s
  | PyList l => lit "[" ++ join (lit ", ") (map repr l) ++ lit "]"
  | PyDict d =>
      lit "{"
        ++ join (lit ", ")
             (map (fun kv => str_repr (fst kv) ++ lit ": " ++ repr (snd kv)) d)
        ++ lit "}"
  end.

(** [str(v)], which is also what an f-string puts for [{v}]. *)
Definition to_str (v : value) : str :=
  match v with
  | PyStr s => s
  | _ => repr v
  end.

(** ** str methods *)

Definition is_ascii (s : str) : bool := forallb (fun c => (c <? 128)%N) s.

Definition ascii_lower (c : N) : N :=
  if ((65 <=? c) && (c <=? 90))%N then (c + 32)%N else c.

Definition str_lower (s : str) : str :=
  if is_ascii s then map ascii_lower s else unicode_lower s.

(** [x.lower()] *)
Definition lower (x : value) : result str :=
  match x with
  | PyStr s => inr (str_lower s)
  | _ => inl (AttributeError x "lower")
  end.

(** [s.replace(c, "")] for a one-character [c]. *)
Definition remove_char (c : N) (s : str) : str :=
  filter (fun x => negb (x =? c)%N) s.

End Repr.

(** ** Numbers: the arithmetic and comparisons the tools use *)

Definition is_infinite (f : float) : bool :=
  PrimFloat.eqb (abs f) infinity.

(** [float(z)] where the interpreter converts an [int] operand. *)
Definition int_to_float (z : Z) : result float :=
  let f := float_of_Z z in
  if is_infinite f
  then inl (Exception (lit "int too large to convert to float"))
  else inr f.

Inductive number : Type :=
| NInt : Z -> number
| NFloat : float -> number.

(** A [bool] is an [int] in arithmetic. *)
Definition as_number (v : value) : option number :=
  match v with
  | PyBool b => Some (NInt (if b then 1 else 0))
  | PyInt z => Some (NInt z)
  | PyFloat f => Some (NFloat f)
  | _ => None
  end.

Definition unsupported (op : string) (a b : value) : exn :=
  TypeError (lit "unsupported operand type(s) for " ++ lit op ++ lit ": '"
             ++ type_name a ++ lit "' and '" ++ type_name b ++ lit "'").

(** An [int] and a [float] meet as floats. *)
Definition to_float (x : number) : result float :=
  match x with
  | NInt z => int_to_float z
  | NFloat f => inr f
  end.

Definition float_op (f : float -> float -> float) (x y : number)
  : result value :=
  match to_float x, to_float y with
  | inr a, inr b => inr (PyFloat (f a b))
  | inl e, _ => inl e
  | _, inl e => inl e
  end.

Definition arith (op : string) (fz : Z -> Z -> Z)
  (ff : float -> float -> float) (a b : value) : result value :=
  match as_number a, as_number b with
  | Some (NInt x), Some (NInt y) => inr (PyInt (fz x y))
  | Some x, Some y => float_op ff x y
  | _, _ => inl (unsupported op a b)
  end.

(** [a + b] *)
Definition add (a b : value) : result value :=
  match a, b with
  | PyStr s, PyStr t => inr (PyStr (s ++ t))
  | PyStr s, _ =>
      inl (TypeError (lit "can only concatenate str (not "
                      ++ [34%N] ++ type_name b ++ [34%N] ++ lit ") to str"))
  | PyList l, PyList m => inr (PyList (l ++ m))
  | PyList l, _ =>
      inl (TypeError (lit "can only concatenate list (not "
                      ++ [34%N] ++ type_name b ++ [34%N] ++ lit ") to list"))
  | _, _ => arith "+" Z.add PrimFloat.add a b
  end.

(** [a - b] *)
Definition sub (a b : value) : result value :=
  arith "-" Z.sub PrimFloat.sub a b.

Fixpoint repeat_list {A} (n : nat) (l : list A) : list A :=
  match n with
  | O => []
  | S n' => l ++ repeat_list n' l
  end.

(** The count of a sequence repetition: a [bool] or an [int]. *)
Definition as_index (v : value) : option Z :=
  match v with
  | PyBool b => Some (if b then 1 else 0)%Z
  | PyInt z => Some z
  | _ => None
  end.

(** [a * b]: numbers multiply, a sequence is repeated by an [int]. *)
Definition mul (a b : value) : result value :=
  match a, b with
  | PyStr s, _ =>
      match as_index b with
      | Some n => inr (PyStr (repeat_list (Z.to_nat n) s))
      | None =>
          inl (TypeError (lit "can't multiply sequence by non-int of type '"
                          ++ type_name b ++ lit "'"))
      end
  | PyList l, _ =>
      match as_index b with
      | Some n => inr (PyList (repeat_list (Z.to_nat n) l))
      | None =>
          inl (TypeError (lit "can't multiply sequence by non-int of type '"
                          ++ type_name b ++ lit "'"))
      end
  | _, PyStr s =>
      match as_index a with
      | Some n => inr (PyStr (repeat_list (Z.to_nat n) s))
      | None =>
          inl (TypeError (lit "can't multiply sequence by non-int of type '"
                          ++ type_name a ++ lit "'"))
      end
  | _, PyList l =>
      match as_index a with
      | Some n => inr (PyList (repeat_list (Z.to_nat n) l))
      | None =>
          inl (TypeError (lit "can't multiply sequence by non-int of type '"
                          ++ type_name a ++ lit "'"))
      end
  | _, _ => arith "*" Z.mul PrimFloat.mul a b
  end.

(** The quotient of two [int]s, rounded once. *)
Definition int_truediv (x y : Z) : result value :=
  match x, y with
  | _, Z0 => inl (Exception (lit "division by zero"))
  | Z0, _ => inr (PyFloat (if (y <? 0)%Z then (-0)%float else 0%float))
  | Zpos p, Zpos q =>
      inr (PyFloat (SF2Prim (SFdiv prec emax (S754_finite false p 0)
                               (S754_finite false q 0))))
  | Zpos p, Zneg q =>
      inr (PyFloat (SF2Prim (SFdiv prec emax (S754_finite false p 0)
                               (S754_finite true q 0))))
  | Zneg p, Zpos q =>
      inr (PyFloat (SF2Prim (SFdiv prec emax (S754_finite true p 0)
                               (S754_finite false q 0))))
  | Zneg p, Zneg q =>
      inr (PyFloat (SF2Prim (SFdiv prec emax (S754_finite true p 0)
                               (S754_finite true q 0))))
  end.

Definition is_zero_number (n : number) : bool :=
  match n with
  | NInt z => (z =? 0)%Z
  | NFloat f => PrimFloat.eqb f 0%float
  end.

(** [a / b] *)
Definition truediv (a b : value) : result value :=
  match as_number a, as_number b with
  | Some (NInt x), Some (NInt y) =>
      match int_truediv x y with
      | inr (PyFloat f) =>
          if is_infinite f
          then inl (Exception (lit "integer division result too large for a float"))
          else inr (PyFloat f)
      | r => r
      end
  | Some x, Some y =>
      if is_zero_number y
      then inl (Exception (lit "float division by zero"))
      else float_op PrimFloat.div x y
  | _, _ => inl (unsupported "/" a b)
  end.

(** Exact order between an [int] and a [float]. *)
Definition Z_compare_float (z : Z) (f : float) : option comparison :=
  match Prim2SF f with
  | S754_nan => None
  | S754_infinity s => Some (if s then Gt else Lt)
  | S754_zero _ => Some (z ?= 0)%Z
  | S754_finite s m e =>
      let fm := if s then Zneg m else Zpos m in
      Some (if (0 <=? e)%Z then (z ?= fm * 2 ^ e)%Z
            else (z * 2 ^ (- e) ?= fm)%Z)
  end.

Definition number_lt (x y : number) : bool :=
  match x, y with
  | NInt a, NInt b => (a <? b)%Z
  | NFloat a, NFloat b => PrimFloat.ltb a b
  | NInt a, NFloat b =>
      match Z_compare_float a b with Some Lt => true | _ => false end
  | NFloat a, NInt b =>
      match Z_compare_float b a with Some Gt => true | _ => false end
  end.

Definition not_supported (op : string) (a b : value) : exn :=
  TypeError (lit "'" ++ lit op ++ lit "' not supported between instances of '"
             ++ type_name a ++ lit "' and '" ++ type_name b ++ lit "'").

(** [a < b] where one side is a number.  (Two texts or two lists compare
    too in Python; the servers never compare such a pair.) *)
Definition lt_number (a b : value) : result bool :=
  match as_number a, as_number b with
  | Some x, Some y => inr (number_lt x y)
  | _, _ => inl (not_supported "<" a b)
  end.

(** [a > b], likewise. *)
Definition gt_number (a b : value) : result bool :=
  match as_number a, as_number b with
  | Some x, Some y => inr (number_lt y x)
  | _, _ => inl (not_supported ">" a b)
  end.

(** [min(a, b)] for a number [b]: [b] when [b < a], else [a]. *)
Definition min2 (a b : value) : result value :=
  match lt_number b a with
  | inr c => inr (if c then b else a)
  | inl e => inl e
  end.

(** [max(a, b)] for a number [a]: [b] when [b > a], else [a]. *)
Definition max2 (a b : value) : result value :=
  match gt_number b a with
  | inr c => inr (if c then b else a)
  | inl e => inl e
  end.

(** [range(n)]: the count of its items, for the [int] it needs. *)
Definition range (n : value) : result nat :=
  match as_index n with
  | Some z => inr (Z.to_nat z)
  | None =>
      inl (TypeError (lit "'" ++ type_name n
                      ++ lit "' object cannot be interpreted as an integer"))
  end.

(** [d[k]] on a [dict]: [KeyError], whose [str] is the [repr] of the key. *)
Definition getitem {rt : Runtime} (d : list (str * value)) (k : string)
  : result value :=
  match dict_lookup d (lit k) with
  | Some v => inr v
  | None => inl (Exception (str_repr (lit k)))
  end.

End py.

(** * The [random] and [datetime] calls of the tools *)

Module random.
Import py.
Local Open Scope py_scope.

Section Random.
Context {rt : Runtime}.

(** [random.random()] *)
Definition random : M float :=
  fun w => let (r, w') := stdlib_random w in (inr r, w').

(** [random.uniform(a, b)], which is [a + (b - a) * random()]. *)
Definition uniform (a b : float) : M float :=
  r <- random ;;
  ret (a + (b - a) * r)%float.

(** The draw below [n] behind [randint] and [choice]. *)
Definition randbelow (n : Z) : M Z :=
  fun w => let (r, w') := stdlib_randbelow n w in (inr (r mod n)%Z, w').

(** [random.randint(a, b)] *)
Definition randint (a b : Z) : M Z :=
  r <- randbelow (b - a + 1) ;;
  ret (a + r)%Z.

(** [random.choice(seq)] *)
Definition choice (seq : list value) : M value :=
  match seq with
  | [] => raise (Exception (lit "Cannot choose from an empty sequence"))
  | x :: _ =>
      i <- randbelow (Z.of_nat (List.length seq)) ;;
      ret (nth (Z.to_nat i) seq x)
  end.

End Random.
End random.

Module datetime.
Import py.

Section Datetime.
Context {rt : Runtime}.

(** [datetime.now()] *)
Definition now : M Z :=
  fun w => let (t, w') := stdlib_now w in (inr t, w').

End Datetime.

(** [timedelta(days=d)] and [timedelta(hours=h)], in microseconds. *)
Definition timedelta_days (d : Z) : Z := (d * 86400000000)%Z.
Definition timedelta_hours (h : Z) : Z := (h * 3600000000)%Z.

End datetime.

(** * Python's [json] module, on text *)

Module json.
Import py.
Local Open Scope N_scope.

(** ** Decoding: [json.loads]

    The scanner follows the C scanner of CPython ([scan_once],
    [scanstring], [_match_number], [_parse_object], [_parse_array]): same
    tokens, same whitespace, same leniencies ([NaN], [Infinity]) and the
    same strictness (no control character inside a string, no trailing
    comma).  A result of [None] stands for [JSONDecodeError]. *)

Definition is_ws (c : N) : bool :=
  (c =? 32) || (c =? 9) || (c =? 10) || (c =? 13).

Fixpoint skip_ws (s : str) : str :=
  match s with
  | c :: s' => if is_ws c then skip_ws s' else s
  | [] => []
  end.

Definition hex_val (c : N) : option N :=
  if (48 <=? c) && (c <=? 57) then Some (c - 48)
  else if (97 <=? c) && (c <=? 102) then Some (c - 87)
  else if (65 <=? c) && (c <=? 70) then Some (c - 55)
  else None.

Definition hex4_val (a b c d : N) : option N :=
  match hex_val a, hex_val b, hex_val c, hex_val d with
  | Some x, Some y, Some z, Some t => Some (((x * 16 + y) * 16 + z) * 16 + t)
  | _, _, _, _ => None
  end.

(** The character a backslash escape stands for (all but the u form). *)
Definition unescape (c : N) : option N :=
  if c =? 34 then Some 34
  else if c =? 92 then Some 92
  else if c =? 47 then Some 47
  else if c =? 98 then Some 8
  else if c =? 102 then Some 12
  else if c =? 110 then Some 10
  else if c =? 114 then Some 13
  else if c =? 116 then Some 9
  else None.

(** The body of a string, up to and including its closing quote: its
    characters, each marked when it was written as a u escape. *)
Fixpoint scan_units (s : str) : option (list (N * bool) * str) :=
  match s with
  | [] => None
  | c :: s1 =>
      if c =? 34 then Some ([], s1)
      else if c =? 92 then
        match s1 with
        | [] => None
        | e :: s2 =>
            if e =? 117 then
              match s2 with
              | h1 :: h2 :: h3 :: h4 :: s6 =>
                  match hex4_val h1 h2 h3 h4, scan_units s6 with
                  | Some u, Some (us, r) => Some ((u, true) :: us, r)
                  | _, _ => None
                  end
              | _ => None
              end
            else
              match unescape e, scan_units s2 with
              | Some u, Some (us, r) => Some ((u, false) :: us, r)
              | _, _ => None
              end
        end
      else if c <? 32 then None
      else
        match scan_units s1 with
        | Some (us, r) => Some ((c, false) :: us, r)
        | None => None
        end
  end.

Definition is_high_surrogate (c : N) : bool := (55296 <=? c) && (c <=? 56319).
Definition is_low_surrogate (c : N) : bool := (56320 <=? c) && (c <=? 57343).

(** A high surrogate escape directly followed by a low surrogate escape is
    one character. *)
Fixpoint join_surrogates (us : list (N * bool)) : str :=
  match us with
  | [] => []
  | (c, esc) :: rest =>
      match rest with
      | (c2, true) :: rest2 =>
          if esc && is_high_surrogate c && is_low_surrogate c2
          then (65536 + (c - 55296) * 1024 + (c2 - 56320)) :: join_surrogates rest2
          else c :: join_surrogates rest
      | _ => c :: join_surrogates rest
      end
  end.

(** [scanstring]: from just after the opening quote. *)
Definition scanstring (s : str) : option (str * str) :=
  match scan_units s with
  | Some (us, r) => Some (join_surrogates us, r)
  | None => None
  end.

Fixpoint span_digits (s : str) : str * str :=
  match s with
  | c :: s' =>
      if is_digit c then let (ds, r) := span_digits s' in (c :: ds, r)
      else ([], s)
  | [] => ([], [])
  end.

(** The optional fraction: a dot and at least one digit. *)
Definition scan_fraction (s : str) : str * str :=
  match s with
  | c :: r =>
      if c =? 46 then
        match span_digits r with
        | ([], _) => ([], s)
        | (fs, r') => (fs, r')
        end
      else ([], s)
  | [] => ([], s)
  end.

(** The optional exponent: e or E, an optional sign, at least one digit. *)
Definition scan_exponent (s : str) : option Z * str :=
  match s with
  | c :: r =>
      if (c =? 101) || (c =? 69) then
        let '(neg, r1) :=
          match r with
          | g :: r' =>
              if g =? 45 then (true, r')
              else if g =? 43 then (false, r')
              else (false, r)
          | [] => (false, r)
          end in
        match span_digits r1 with
        | ([], _) => (None, s)
        | (ds, r2) => (Some (if neg then - digits_Z ds else digits_Z ds)%Z, r2)
        end
      else (None, s)
  | [] => (None, s)
  end.

(** The digits of a number, after its sign: an [int] when the literal has
    neither fraction nor exponent, a [float] otherwise. *)
Definition match_digits (neg : bool) (s : str) : option (value * str) :=
  match s with
  | [] => None
  | c :: r =>
      if is_digit c then
        let '(ip, s1) :=
          if c =? 48 then ([c], r)
          else let (ds, r') := span_digits r in (c :: ds, r') in
        let '(frac, s2) := scan_fraction s1 in
        let '(ex, s3) := scan_exponent s2 in
        match frac, ex with
        | [], None =>
            Some (PyInt (if neg then - digits_Z ip else digits_Z ip)%Z, s3)
        | _, _ =>
            let e := match ex with Some e => e | None => 0%Z end in
            Some (PyFloat (float_of_dec neg (digits_Z (ip ++ frac))
                             (e - Z.of_nat (List.length frac))), s3)
        end
      else None
  end.

(** [_match_number] *)
Definition match_number (s : str) : option (value * str) :=
  match s with
  | c :: r => if c =? 45 then match_digits true r else match_digits false s
  | [] => None
  end.

(** [s] without the prefix [p], when it starts with it. *)
Fixpoint strip_prefix (p s : str) : option str :=
  match p, s with
  | [], _ => Some s
  | a :: p', b :: s' => if a =? b then strip_prefix p' s' else None
  | _ :: _, [] => None
  end.

(** The word constants, tried in the scanner's order. *)
Definition match_constant (s : str) : option (value * str) :=
  match strip_prefix (lit "null") s with
  | Some r => Some (PyNone, r)
  | None =>
  match strip_prefix (lit "true") s with
  | Some r => Some (PyBool true, r)
  | None =>
  match strip_prefix (lit "false") s with
  | Some r => Some (PyBool false, r)
  | None =>
  match strip_prefix (lit "NaN") s with
  | Some r => Some (PyFloat nan, r)
  | None =>
  match strip_prefix (lit "Infinity") s with
  | Some r => Some (PyFloat infinity, r)
  | None =>
  match strip_prefix (lit "-Infinity") s with
  | Some r => Some (PyFloat neg_infinity, r)
  | None => None
  end end end end end end.

(** What [scan_once] tries on a text that opens neither a string nor an
    object nor an array. *)
Definition scan_atom (s : str) : option (value * str) :=
  match match_constant s with
  | Some r => Some r
  | None => match_number s
  end.

(** [scan_once] and the two loops it calls.  [fuel] bounds the depth of the
    calls; [loads] gives enough of it for any text. *)
Fixpoint scan_once (fuel : nat) (s : str) : option (value * str) :=
  match fuel with
  | O => None
  | S f =>
      match s with
      | [] => None
      | c :: s1 =>
          if c =? 34 then
            match scanstring s1 with
            | Some (t, r) => Some (PyStr t, r)
            | None => None
            end
          else if c =? 123 then
            match skip_ws s1 with
            | c' :: r =>
                if c' =? 125 then Some (PyDict [], r)
                else parse_object f (c' :: r) []
            | [] => None
            end
          else if c =? 91 then
            match skip_ws s1 with
            | c' :: r =>
                if c' =? 93 then Some (PyList [], r)
                else parse_array f (c' :: r) []
            | [] => None
            end
          else scan_atom s
      end
  end

with parse_array (fuel : nat) (s : str) (acc : list value)
  : option (value * str) :=
  match fuel with
  | O => None
  | S f =>
      match scan_once f s with
      | Some (v, s') =>
          match skip_ws s' with
          | c :: r =>
              if c =? 93 then Some (PyList (acc ++ [v]), r)
              else if c =? 44 then parse_array f (skip_ws r) (acc ++ [v])
              else None
          | [] => None
          end
      | None => None
      end
  end

with parse_object (fuel : nat) (s : str) (acc : list (str * value))
  : option (value * str) :=
  match fuel with
  | O => None
  | S f =>
      match s with
      | c :: s1 =>
          if c =? 34 then
            match scanstring s1 with
            | Some (k, s2) =>
                match skip_ws s2 with
                | c2 :: s3 =>
                    if c2 =? 58 then
                      match scan_once f (skip_ws s3) with
                      | Some (v, s4) =>
                          match skip_ws s4 with
                          | c3 :: r =>
                              if c3 =? 125
                              then Some (PyDict (dict_set acc k v), r)
                              else if c3 =? 44
                              then parse_object f (skip_ws r) (dict_set acc k v)
                              else None
                          | [] => None
                          end
                      | None => None
                      end
                    else None
                | [] => None
                end
            | None => None
            end
          else None
      | [] => None
      end
  end.

(** [json.loads(s)]: one value, with whitespace around it and nothing else. *)
Definition loads (s : str) : option value :=
  match scan_once (2 * List.length s + 2) (skip_ws s) with
  | Some (v, r) =>
      match skip_ws r with
      | [] => Some v
      | _ :: _ => None
      end
  | None => None
  end.

(** ** Encoding: [json.dumps], with its defaults ([ensure_ascii], the
    separators ", " and ": ", [allow_nan]). *)

Definition escape_char (c : N) : str :=
  if c =? 34 then [92; 34]
  else if c =? 92 then [92; 92]
  else if c =? 10 then [92; 110]
  else if c =? 13 then [92; 114]
  else if c =? 9 then [92; 116]
  else if c =? 8 then [92; 98]
  else if c =? 12 then [92; 102]
  else if (32 <=? c) && (c <=? 126) then [c]
  else if c <? 65536 then 92 :: 117 :: hex4 c
  else
    let v := c - 65536 in
    92 :: 117 :: hex4 (55296 + v / 1024 mod 1024)
      ++ 92 :: 117 :: hex4 (56320 + v mod 1024).

Definition encode_str (s : str) : str :=
  34 :: flat_map escape_char s ++ [34].

Definition float_str (f : float) : str :=
  if is_nan f then lit "NaN"
  else if PrimFloat.eqb f infinity then lit "Infinity"
  else if PrimFloat.eqb f neg_infinity then lit "-Infinity"
  else float_repr f.

Fixpoint dumps (v : value) : str :=
  match v with
  | PyNone => lit "null"
  | PyBool true => lit "true"
  | PyBool false => lit "false"
  | PyInt z => int_str z
  | PyFloat f => float_str f
  | PyStr s => encode_str s
  | PyList l => lit "[" ++ join (lit ", ") (map dumps l) ++ lit "]"
  | PyDict d =>
      lit "{"
        ++ join (lit ", ")
             (map (fun kv => encode_str (fst kv) ++ lit ": " ++ dumps (snd kv)) d)
        ++ lit "}"
  end.

End json.

(** * The server loop

    [main] is the same text in [mock_weather_server.py] and in
    [weather_mcp_server.py] (apart from the banner each prints on standard
    error); it is modelled once, over the [handle_tool_call] and the
    [list_tools] of the file it belongs to.

    Standard input is the text of the stream, already decoded, and standard
    output is the list of the texts printed, each on a line of its own: a
    stream that is not valid UTF-8 and a reader that closes the pipe are
    not modelled. *)

Module dispatcher.
Import py.
Local Open Scope py_scope.

(** [sys.stdin.readline()] on the text still to be read: the next line with
    its newline, the empty text at end of stream. *)
Fixpoint readline (stdin : str) : str * str :=
  match stdin with
  | [] => ([], [])
  | c :: rest =>
      if (c =? 10)%N then ([c], rest)
      else let (line, rest') := readline rest in (c :: line, rest')
  end.

Lemma readline_shorter stdin line rest :
  readline stdin = (line, rest) -> line <> [] ->
  (List.length rest < List.length stdin)%nat.
Proof.
  revert line rest; induction stdin as [|c s IH]; simpl; intros line rest H Hne.
  - inversion H; subst; congruence.
  - destruct (c =? 10)%N.
    + inversion H; subst; simpl; lia.
    + destruct (readline s) as [l r] eqn:E. inversion H; subst.
      destruct l as [|c' l'].
      * destruct s; simpl in E.
        -- inversion E; simpl; lia.
        -- destruct (n =? 10)%N; [inversion E|].
           destruct (readline s); inversion E.
      * specialize (IH (c' :: l') rest eq_refl ltac:(discriminate)). simpl; lia.
Qed.

(** The lines [main] reads: what the successive calls of [readline] return
    before the empty one. *)
Equations? request_lines (stdin : str) : list str
  by wf (List.length stdin) lt :=
  request_lines stdin with inspect (readline stdin) := {
    | exist _ ([], _) _ => []
    | exist _ (c :: line, rest) e => (c :: line) :: request_lines rest }.
Proof.
  eapply readline_shorter; [exact e | discriminate].
Qed.

Section Main.
Context {rt : Runtime}.
Variable handle_tool_call : value -> value -> M value.
Variable list_tools : value.

(** [json.loads(line)] as the statement of [main] that may raise. *)
Definition loads (line : str) : result value :=
  match json.loads line with
  | Some v => inr v
  | None => inl (JSONDecodeError (decode_error line))
  end.

Definition success_response (result request_id : value) : value :=
  PyDict [(lit "jsonrpc", PyStr (lit "2.0"));
          (lit "result", result);
          (lit "id", request_id)].

Definition error_response (code : Z) (message : str) : value :=
  PyDict [(lit "jsonrpc", PyStr (lit "2.0"));
          (lit "error", PyDict [(lit "code", PyInt code);
                                (lit "message", PyStr message)]);
          (lit "id", PyNone)].

(** The [try] block of the loop, from [json.loads] to the response it
    builds. *)
Definition serve (line : str) : M value :=
  request <- lift (loads line) ;;
  method <- lift (get request "method" PyNone) ;;
  params <- lift (get request "params" (PyDict [])) ;;
  request_id <- lift (get request "id" (PyInt 1)) ;;
  result <-
    (if eq_lit method "tools/call" then
       tool_name <- lift (get params "name" PyNone) ;;
       arguments <- lift (get params "arguments" (PyDict [])) ;;
       handle_tool_call tool_name arguments
     else if eq_lit method "tools/list" then
       ret (PyDict [(lit "tools", list_tools)])
     else
       ret (PyDict [(lit "error",
                     PyStr (lit "Unknown method: " ++ to_str method))])) ;;
  ret (success_response result request_id).

(** The response one line is answered with: the [try] block with its two
    [except] clauses. *)
Definition respond (line : str) (w : world) : value * world :=
  match serve line w with
  | (inr response, w') => (response, w')
  | (inl (JSONDecodeError _), w') =>
      (error_response (-32700) (lit "Parse error"), w')
  | (inl (Exception message), w') =>
      (error_response (-32603) message, w')
  end.

(** One iteration that found a line: what it prints. *)
Definition answer (line : str) (w : world) : str * world :=
  let (response, w') := respond line w in (json.dumps response, w').

(** The answers to a sequence of lines, one after the other. *)
Fixpoint answers (lines : list str) (w : world) : list str * world :=
  match lines with
  | [] => ([], w)
  | line :: lines' =>
      let (text, w1) := answer line w in
      let (texts, w2) := answers lines' w1 in
      (text :: texts, w2)
  end.

(** The loop.  It stops at the first empty [readline], that is at end of
    stream; nothing outside the [try] block can raise, so [main] returns,
    and the interpreter exits with status 0. *)
Equations? main_loop (stdin : str) (stdout : list str) (w : world)
  : list str * world by wf (List.length stdin) lt :=
  main_loop stdin stdout w with inspect (readline stdin) := {
    | exist _ ([], _) _ => (stdout, w)
    | exist _ (c :: line, rest) e =>
        main_loop rest (stdout ++ [fst (answer (c :: line) w)])
          (snd (answer (c :: line) w)) }.
Proof.
  eapply readline_shorter; [exact e | discriminate].
Qed.

(** [main()]: how it ends (it returns: every exception of the loop body is
    caught there, and [readline] raises none) and the lines it printed on
    standard output, in order. *)
Definition main (stdin : str) (w : world) : result unit * list str * world :=
  let (stdout, w') := main_loop stdin [] w in (inr tt, stdout, w').

End Main.

(** Exit status of the interpreter for a script whose last statement is
    [main()]: 0 when it returns, 1 when an exception escapes. *)
Definition exit_status (outcome : result unit) : Z :=
  match outcome with
  | inr _ => 0%Z
  | inl _ => 1%Z
  end.

End dispatcher.

(** * What the two server files share

    Statements that are the same text in [mock_weather_server.py] and in
    [weather_mcp_server.py]: the shape of a row of [MOCK_WEATHER_DATA],
    [celsius_to_fahrenheit], the unit conversion chain, the forecast loop,
    the error dictionary and the shape of a tool descriptor. *)

Module shared.
Import py.
Local Open Scope py_scope.

Definition row (location : string) (temperature feels_like : float)
  (humidity : Z) (wind_speed : float) (condition description : string)
  : list (str * value) :=
  [(lit "location", PyStr (lit location));
   (lit "temperature", PyFloat temperature);
   (lit "feels_like", PyFloat feels_like);
   (lit "humidity", PyInt humidity);
   (lit "wind_speed", PyFloat wind_speed);
   (lit "condition", PyStr (lit condition));
   (lit "description", PyStr (lit description))].

(** [(celsius * 9/5) + 32] *)
Definition celsius_to_fahrenheit (celsius : value) : result value :=
  match mul celsius (PyInt 9) with
  | inl e => inl e
  | inr a =>
      match truediv a (PyInt 5) with
      | inl e => inl e
      | inr b => add b (PyInt 32)
      end
  end.

Section Shared.
Context {rt : Runtime}.

(** [weather[k] = f(weather[k])] *)
Definition update (weather : list (str * value)) (k : string)
  (f : value -> result value) : result (list (str * value)) :=
  match getitem weather k with
  | inl e => inl e
  | inr v =>
      match f v with
      | inl e => inl e
      | inr v' => inr (dict_set weather (lit k) v')
      end
  end.

(** The unit conversion shared by the tools: the [if units == ...] chain. *)
Definition convert_units (weather : list (str * value)) (units : value)
  : result (list (str * value)) :=
  if eq_lit units "imperial" then
    match update weather "temperature" celsius_to_fahrenheit with
    | inl e => inl e
    | inr w1 =>
        match update w1 "feels_like" celsius_to_fahrenheit with
        | inl e => inl e
        | inr w2 =>
            update w2 "wind_speed" (fun x => mul x (PyFloat 0.621371))
        end
    end
  else if eq_lit units "standard" then
    match update weather "temperature" (fun x => add x (PyFloat 273.15)) with
    | inl e => inl e
    | inr w1 =>
        match update w1 "feels_like" (fun x => add x (PyFloat 273.15)) with
        | inl e => inl e
        | inr w2 =>
            update w2 "wind_speed" (fun x => truediv x (PyFloat 3.6))
        end
    end
  else inr weather.

Definition strs (l : list string) : list value :=
  map (fun s => PyStr (lit s)) l.

(** [for i in range(n): forecast.append(body(i))], from [i] on. *)
Fixpoint for_range (n : nat) (i : Z) (body : Z -> M value) : M (list value) :=
  match n with
  | O => ret []
  | S n' =>
      x <- body i ;;
      rest <- for_range n' (i + 1) body ;;
      ret (x :: rest)
  end.

End Shared.

Definition error_dict (message : str) : value :=
  PyDict [(lit "error", PyStr message)].

Definition string_schema : value :=
  PyDict [(lit "type", PyStr (lit "string"))].

Definition tool (name description : string) (properties : list (str * value))
  : value :=
  PyDict [(lit "name", PyStr (lit name));
          (lit "description", PyStr (lit description));
          (lit "inputSchema",
           PyDict [(lit "type", PyStr (lit "object"));
                   (lit "properties", PyDict properties);
                   (lit "required", PyList [PyStr (lit "location")])])].

End shared.

(** * mock_weather_server.py *)

Module mock_weather_server.
Import py shared.
Local Open Scope py_scope.

Definition MOCK_WEATHER_DATA : list (str * list (str * value)) :=
  [(lit "london",
    row "London, UK" 12.5 11.2 72 15.3 "Partly Cloudy"
      "Partly cloudy skies with occasional sun");
   (lit "new york",
    row "New York, USA" 5.2 2.8 65 18.5 "Cold & Clear"
      "Clear skies with cold temperatures");
   (lit "tokyo",
    row "Tokyo, Japan" 8.3 6.5 58 12.1 "Overcast"
      "Overcast conditions throughout the day");
   (lit "sydney",
    row "Sydney, Australia" 26.7 25.1 60 8.5 "Sunny"
      "Sunny and warm with light breeze");
   (lit "dunedin, fl",
    row "Dunedin, FL USA" 21.1 20.5 65 12.9 "Sunny"
      "Sunny skies with pleasant weather");
   (lit "washington dc",
    row "Washington DC, USA" 9.4 8.0 60 14.5 "Partly Cloudy"
      "Mix of clouds and sun");
   (lit "los angeles",
    row "Los Angeles, CA USA" 20.0 19.5 55 10.2 "Sunny"
      "Clear sunny skies");
   (lit "miami",
    row "Miami, FL USA" 24.4 23.8 70 11.3 "Mostly Sunny"
      "Warm and pleasant weather")].

Fixpoint table_lookup (t : list (str * list (str * value))) (k : str)
  : option (list (str * value)) :=
  match t with
  | [] => None
  | (k', r) :: t' => if str_eqb k' k then Some r else table_lookup t' k
  end.

Section Tools.
Context {rt : Runtime}.

Definition get_current_weather (location units : value) : M value :=
  loc_key <- lift (lower location) ;;
  weather <-
    match table_lookup MOCK_WEATHER_DATA loc_key with
    | Some r => ret r
    | None =>
        base_temp <- random.uniform 10 28 ;;
        d <- random.uniform 0.5 2.0 ;;
        humidity <- random.randint 50 85 ;;
        wind_speed <- random.uniform 5 20 ;;
        condition <-
          random.choice
            (strs ["Sunny"; "Cloudy"; "Rainy"; "Overcast"; "Partly Cloudy"]) ;;
        ret [(lit "location", location);
             (lit "temperature", PyFloat base_temp);
             (lit "feels_like", PyFloat (base_temp - d)%float);
             (lit "humidity", PyInt humidity);
             (lit "wind_speed", PyFloat wind_speed);
             (lit "condition", condition);
             (lit "description",
              PyStr (lit "Weather conditions for the location"))]
    end ;;
  weather <- lift (convert_units weather units) ;;
  t <- datetime.now ;;
  ret (PyDict (dict_set weather (lit "timestamp") (PyStr (isoformat t)))).

Definition forecast_day (base_temp base_wind : value) (i : Z) : M value :=
  t <- datetime.now ;;
  let date := strftime (t + datetime.timedelta_days i) (lit "%Y-%m-%d") in
  a <- random.uniform (-3) 5 ;;
  temp_max <- lift (add base_temp (PyFloat a)) ;;
  b <- random.uniform 2 8 ;;
  temp_min <- lift (sub base_temp (PyFloat b)) ;;
  c <- random.uniform (-3) 7 ;;
  x <- lift (add base_wind (PyFloat c)) ;;
  wind <- lift (max2 (PyFloat 0) x) ;;
  condition <-
    random.choice (strs ["Sunny"; "Cloudy"; "Rainy"; "Partly Cloudy"]) ;;
  precipitation <- random.uniform 0 30 ;;
  ret (PyDict [(lit "date", PyStr date);
               (lit "temp_max", temp_max);
               (lit "temp_min", temp_min);
               (lit "condition", condition);
               (lit "precipitation", PyFloat precipitation);
               (lit "wind_speed", wind)]).

Definition get_forecast (location days units : value) : M value :=
  base_weather <- get_current_weather location units ;;
  base_temp <- lift (get base_weather "temperature" (PyInt 0)) ;;
  base_wind <- lift (get base_weather "wind_speed" (PyInt 0)) ;;
  n <- lift (range days) ;;
  forecast <- for_range n 0 (forecast_day base_temp base_wind) ;;
  ret (PyList forecast).

Definition get_alerts (location : value) : M value :=
  r <- random.random ;;
  if PrimFloat.ltb 0.7 r then
    severity <- random.choice (strs ["Low"; "Medium"; "High"]) ;;
    low <- lift (lower severity) ;;
    t1 <- datetime.now ;;
    t2 <- datetime.now ;;
    ret (PyList
           [PyDict
              [(lit "title", PyStr (lit "Weather Alert for " ++ to_str location));
               (lit "severity", severity);
               (lit "description",
                PyStr (lit "A " ++ low
                       ++ lit " severity weather alert is in effect."));
               (lit "effective_from", PyStr (isoformat t1));
               (lit "expires",
                PyStr (isoformat (t2 + datetime.timedelta_hours 6)))]])
  else ret (PyList []).

Definition get_air_quality (location : value) : M value :=
  aqi <- random.randint 20 150 ;;
  pm25 <- random.uniform 5 100 ;;
  pm10 <- random.uniform 10 150 ;;
  no2 <- random.uniform 5 50 ;;
  so2 <- random.uniform 2 30 ;;
  o3 <- random.uniform 20 150 ;;
  quality <-
    random.choice
      (strs ["Good"; "Moderate"; "Unhealthy for Sensitive Groups";
             "Unhealthy"]) ;;
  t <- datetime.now ;;
  ret (PyDict [(lit "location", location);
               (lit "aqi", PyInt aqi);
               (lit "pm25", PyFloat pm25);
               (lit "pm10", PyFloat pm10);
               (lit "no2", PyFloat no2);
               (lit "so2", PyFloat so2);
               (lit "o3", PyFloat o3);
               (lit "quality", quality);
               (lit "timestamp", PyStr (isoformat t))]).

(** [os.getenv("WEATHER_UNITS", "metric")] *)
Definition WEATHER_UNITS : value :=
  PyStr (match getenv (lit "WEATHER_UNITS") with
         | Some u => u
         | None => lit "metric"
         end).

(** The [try] block of [handle_tool_call]. *)
Definition try_body (tool_name arguments units : value) : M value :=
  if eq_lit tool_name "get_current_weather" then
    location <- lift (get arguments "location" (PyStr (lit "London"))) ;;
    get_current_weather location units
  else if eq_lit tool_name "get_forecast" then
    location <- lift (get arguments "location" (PyStr (lit "London"))) ;;
    days <- lift (get arguments "days" (PyInt 5)) ;;
    units <- lift (get arguments "units" WEATHER_UNITS) ;;
    get_forecast location days units
  else if eq_lit tool_name "get_alerts" then
    location <- lift (get arguments "location" (PyStr (lit "London"))) ;;
    get_alerts location
  else if eq_lit tool_name "get_air_quality" then
    location <- lift (get arguments "location" (PyStr (lit "London"))) ;;
    get_air_quality location
  else ret (error_dict (lit "Unknown tool: " ++ to_str tool_name)).

(** [handle_tool_call]: the first [arguments.get] stands before the [try]. *)
Definition handle_tool_call (tool_name arguments : value) : M value :=
  units <- lift (get arguments "units" WEATHER_UNITS) ;;
  try_except (try_body tool_name arguments units)
    (fun e => ret (error_dict (exn_str e))).

Definition list_tools : value :=
  PyList
    [tool "get_current_weather" "Get current weather for a location"
       [(lit "location",
         PyDict [(lit "type", PyStr (lit "string"));
                 (lit "description", PyStr (lit "City name or coordinates"))])];
     tool "get_forecast" "Get weather forecast"
       [(lit "location", string_schema);
        (lit "days",
         PyDict [(lit "type", PyStr (lit "integer"));
                 (lit "default", PyInt 5)])];
     tool "get_alerts" "Get weather alerts"
       [(lit "location", string_schema)];
     tool "get_air_quality" "Get air quality information"
       [(lit "location", string_schema)]].

(** The dispatch chain of [handle_tool_call] knows these names. *)
Definition registered (tool_name : value) : bool :=
  eq_lit tool_name "get_current_weather" || eq_lit tool_name "get_forecast"
  || eq_lit tool_name "get_alerts" || eq_lit tool_name "get_air_quality".

Definition main : str -> world -> result unit * list str * world :=
  dispatcher.main handle_tool_call list_tools.

(** The response of this server to one line. *)
Definition respond : str -> world -> value * world :=
  dispatcher.respond handle_tool_call list_tools.

End Tools.
End mock_weather_server.

(** * weather_mcp_server.py *)

Module weather_mcp_server.
Import py shared.
Local Open Scope py_scope.

Definition MOCK_WEATHER_DATA : list (str * list (str * value)) :=
  [(lit "dunedin, fl",
    row "Dunedin, FL USA" 21.1 20.5 65 12.9 "Sunny" "Sunny skies");
   (lit "washington dc",
    row "Washington DC, USA" 9.4 8.0 60 14.5 "Partly Cloudy" "Mix of clouds");
   (lit "london",
    row "London, UK" 12.5 11.2 72 15.3 "Partly Cloudy" "Partly cloudy")].

(** [s.replace(" ", "").replace(",", "")] *)
Definition squeeze (s : str) : str := remove_char 44 (remove_char 32 s).

(** The [for ... else] over the table: the first row whose squeezed key is
    [loc_key]. *)
Fixpoint find_row (t : list (str * list (str * value))) (loc_key : str)
  : option (list (str * value)) :=
  match t with
  | [] => None
  | (key, value) :: t' =>
      if str_eqb (squeeze key) loc_key then Some value else find_row t' loc_key
  end.

Section Tools.
Context {rt : Runtime}.

(** [HAS_REQUESTS]: whether [import requests] succeeded. *)
Variable HAS_REQUESTS : bool.

(** The OpenWeatherMap halves of the four tools: the [try ... except]
    statement each one ends with.  They talk to the network, so each is any
    computation of its arguments. *)
Variable api_current_weather : value -> value -> M value.
Variable api_forecast : value -> value -> value -> M value.
Variable api_alerts : value -> M value.
Variable api_air_quality : value -> M value.

(** [os.getenv("OPENWEATHER_API_KEY", "")] *)
Definition OPENWEATHER_API_KEY : str :=
  match getenv (lit "OPENWEATHER_API_KEY") with
  | Some k => k
  | None => []
  end.

Definition FALLBACK_MODE : bool :=
  negb (truthy (PyStr OPENWEATHER_API_KEY)) || negb HAS_REQUESTS.

Definition get_fallback_weather (location units : value)
  : result (list (str * value)) :=
  match lower location with
  | inl e => inl e
  | inr l =>
      let loc_key := squeeze l in
      let weather :=
        match find_row MOCK_WEATHER_DATA loc_key with
        | Some value => value
        | None =>
            [(lit "location", location);
             (lit "temperature", PyFloat 21.1);
             (lit "feels_like", PyFloat 20.5);
             (lit "humidity", PyInt 65);
             (lit "wind_speed", PyFloat 12.9);
             (lit "condition", PyStr (lit "Sunny"));
             (lit "description",
              PyStr (lit "Sunny skies with pleasant weather"))]
        end in
      convert_units weather units
  end.

Definition get_current_weather (location units : value) : M value :=
  if FALLBACK_MODE then
    weather <- lift (get_fallback_weather location units) ;;
    t <- datetime.now ;;
    ret (PyDict (dict_set weather (lit "timestamp") (PyStr (isoformat t))))
  else if negb HAS_REQUESTS then
    ret (PyDict
           [(lit "error",
             PyStr (lit "requests library not installed. Install with: pip install requests"))])
  else api_current_weather location units.

Definition forecast_day (base_temp base_wind : value) (i : Z) : M value :=
  t <- datetime.now ;;
  let date := strftime (t + datetime.timedelta_days i) (lit "%Y-%m-%d") in
  a <- random.uniform (-3) 5 ;;
  temp_max <- lift (add base_temp (PyFloat a)) ;;
  b <- random.uniform 2 8 ;;
  temp_min <- lift (sub base_temp (PyFloat b)) ;;
  c <- random.uniform (-3) 7 ;;
  x <- lift (add base_wind (PyFloat c)) ;;
  wind <- lift (max2 (PyFloat 0) x) ;;
  ret (PyDict [(lit "date", PyStr date);
               (lit "condition", PyStr (lit "Sunny"));
               (lit "temp_max", temp_max);
               (lit "temp_min", temp_min);
               (lit "wind_speed", wind)]).

Definition get_forecast (location days units : value) : M value :=
  if FALLBACK_MODE then
    base <- lift (get_fallback_weather location units) ;;
    base_temp <- lift (get (PyDict base) "temperature" (PyInt 20)) ;;
    base_wind <- lift (get (PyDict base) "wind_speed" (PyInt 10)) ;;
    m <- lift (min2 days (PyInt 3)) ;;
    n <- lift (range m) ;;
    forecast_data <-
      for_range n 0 (forecast_day base_temp base_wind) ;;
    ret (PyList forecast_data)
  else if negb HAS_REQUESTS then ret (PyList [])
  else api_forecast location days units.

Definition get_alerts (location : value) : M value :=
  if FALLBACK_MODE || negb HAS_REQUESTS then ret (PyList [])
  else api_alerts location.

Definition fallback_air_quality (location : value) : M value :=
  t <- datetime.now ;;
  ret (PyDict [(lit "location", location);
               (lit "aqi", PyInt 2);
               (lit "aqi_quality", PyStr (lit "Fair"));
               (lit "pm25", PyFloat 35.0);
               (lit "pm10", PyFloat 50.0);
               (lit "no2", PyFloat 20.0);
               (lit "so2", PyFloat 10.0);
               (lit "o3", PyFloat 60.0);
               (lit "co", PyFloat 0.5);
               (lit "timestamp", PyStr (isoformat t))]).

Definition get_air_quality (location : value) : M value :=
  if FALLBACK_MODE || negb HAS_REQUESTS then fallback_air_quality location
  else api_air_quality location.

(** The [try] block of [handle_tool_call]. *)
Definition try_body (tool_name arguments : value) : M value :=
  if eq_lit tool_name "get_current_weather" then
    location <- lift (get arguments "location" (PyStr (lit "London"))) ;;
    units <- lift (get arguments "units" (PyStr (lit "metric"))) ;;
    get_current_weather location units
  else if eq_lit tool_name "get_forecast" then
    location <- lift (get arguments "location" (PyStr (lit "London"))) ;;
    days <- lift (get arguments "days" (PyInt 5)) ;;
    units <- lift (get arguments "units" (PyStr (lit "metric"))) ;;
    result <- get_forecast location days units ;;
    ret (if truthy result then result
         else error_dict (lit "No forecast data available"))
  else if eq_lit tool_name "get_alerts" then
    location <- lift (get arguments "location" (PyStr (lit "London"))) ;;
    get_alerts location
  else if eq_lit tool_name "get_air_quality" then
    location <- lift (get arguments "location" (PyStr (lit "London"))) ;;
    get_air_quality location
  else ret (error_dict (lit "Unknown tool: " ++ to_str tool_name)).

(** [handle_tool_call]: its whole body is the [try] statement. *)
Definition handle_tool_call (tool_name arguments : value) : M value :=
  try_except (try_body tool_name arguments)
    (fun e => ret (error_dict (exn_str e))).

Definition list_tools : value :=
  PyList
    [tool "get_current_weather"
       "Get current weather conditions for a location"
       [(lit "location",
         PyDict [(lit "type", PyStr (lit "string"));
                 (lit "description", PyStr (lit "City name"))])];
     tool "get_forecast"
       "Get weather forecast for multiple days"
       [(lit "location", string_schema);
        (lit "days",
         PyDict [(lit "type", PyStr (lit "integer"));
                 (lit "default", PyInt 5)])];
     tool "get_alerts" "Get weather alerts for a location"
       [(lit "location", string_schema)];
     tool "get_air_quality" "Get air quality information"
       [(lit "location", string_schema)]].

(** The dispatch chain of [handle_tool_call] knows these names. *)
Definition registered (tool_name : value) : bool :=
  eq_lit tool_name "get_current_weather" || eq_lit tool_name "get_forecast"
  || eq_lit tool_name "get_alerts" || eq_lit tool_name "get_air_quality".

Definition main : str -> world -> result unit * list str * world :=
  dispatcher.main handle_tool_call list_tools.

(** The response of this server to one line. *)
Definition respond : str -> world -> value * world :=
  dispatcher.respond handle_tool_call list_tools.

End Tools.
End weather_mcp_server.

(** * Properties of the built-ins *)

Module py_facts.
Import py.

Lemma str_eqb_eq a : forall b, str_eqb a b = true <-> a = b.
Proof.
  induction a as [|x a IH]; destruct b as [|y b]; simpl;
    try (split; [discriminate|discriminate]); try tauto.
  rewrite andb_true_iff, N.eqb_eq, IH.
  split; [intros [-> ->]; reflexivity | intros H; inversion H; auto].
Qed.

Lemma str_eqb_refl a : str_eqb a a = true.
Proof. apply str_eqb_eq. reflexivity. Qed.

Lemma str_eqb_neq a b : str_eqb a b = false <-> a <> b.
Proof.
  rewrite <- str_eqb_eq. destruct (str_eqb a b); split; congruence.
Qed.

Lemma eq_lit_true x s : eq_lit x s = true <-> x = PyStr (lit s).
Proof.
  destruct x; simpl; try (split; [discriminate|discriminate]).
  rewrite str_eqb_eq. split; congruence.
Qed.

Lemma eq_lit_lit s t : eq_lit (PyStr (lit s)) t = str_eqb (lit s) (lit t).
Proof. reflexivity. Qed.

End py_facts.

(** * Properties of [json] *)

Module json_facts.
Import py.
Local Open Scope N_scope.

(** ** Induction on values, through their lists *)

Section ValueInduction.
Variable P : value -> Prop.
Hypothesis none_case : P PyNone.
Hypothesis bool_case : forall b, P (PyBool b).
Hypothesis int_case : forall z, P (PyInt z).
Hypothesis float_case : forall f, P (PyFloat f).
Hypothesis str_case : forall s, P (PyStr s).
Hypothesis list_case : forall l, Forall P l -> P (PyList l).
Hypothesis dict_case :
  forall d, Forall (fun kv => P (snd kv)) d -> P (PyDict d).

Fixpoint value_nested_ind (v : value) : P v :=
  match v with
  | PyNone => none_case
  | PyBool b => bool_case b
  | PyInt z => int_case z
  | PyFloat f => float_case f
  | PyStr s => str_case s
  | PyList l =>
      list_case l
        ((fix items (xs : list value) : Forall P xs :=
            match xs with
            | [] => Forall_nil P
            | x :: xs' => Forall_cons x (value_nested_ind x) (items xs')
            end) l)
  | PyDict d =>
      dict_case d
        ((fix members (kvs : list (str * value))
            : Forall (fun kv => P (snd kv)) kvs :=
            match kvs with
            | [] => Forall_nil _
            | kv :: kvs' =>
                Forall_cons kv (value_nested_ind (snd kv)) (members kvs')
            end) d)
  end.

End ValueInduction.

(** ** The output of [dumps] is printable ASCII: it has no newline *)

Definition plain_char (c : N) : bool := (32 <=? c) && (c <=? 126).

Definition plain (s : str) : Prop := forallb plain_char s = true.

Lemma plain_app a b : plain a -> plain b -> plain (a ++ b).
Proof. unfold plain. rewrite forallb_app. intros -> ->. reflexivity. Qed.

Lemma plain_cons c s : plain_char c = true -> plain s -> plain (c :: s).
Proof. unfold plain. simpl. intros -> ->. reflexivity. Qed.

Lemma plain_lit_null : plain (lit "null"). Proof. reflexivity. Qed.

Lemma plain_no_newline s : plain s -> ~ In 10 s.
Proof.
  unfold plain. rewrite forallb_forall. intros H Hin.
  specialize (H _ Hin). discriminate H.
Qed.

Lemma plain_uint_digits u : plain (uint_digits u).
Proof. induction u; simpl; try reflexivity; apply plain_cons; auto. Qed.

Lemma plain_int_str z : plain (int_str z).
Proof.
  destruct z; simpl; [reflexivity| |apply plain_cons; [reflexivity|]];
    apply plain_uint_digits.
Qed.

Lemma plain_repeat c n : plain_char c = true -> plain (repeat c n).
Proof. intros H. induction n; simpl; [reflexivity|apply plain_cons; auto]. Qed.

Lemma plain_firstn n s : plain s -> plain (firstn n s).
Proof.
  revert s; induction n; intros [|c s]; simpl; try reflexivity.
  unfold plain. simpl. rewrite andb_true_iff. intros [Hc Hs].
  apply plain_cons; [exact Hc|]. apply IHn. exact Hs.
Qed.

Lemma plain_skipn n s : plain s -> plain (skipn n s).
Proof.
  revert s; induction n; intros [|c s]; simpl; auto.
  unfold plain. simpl. rewrite andb_true_iff. intros [Hc Hs].
  apply IHn. exact Hs.
Qed.

Lemma plain_exp_str x : plain (exp_str x).
Proof.
  unfold exp_str. repeat apply plain_app.
  - destruct (x <? 0)%Z; reflexivity.
  - destruct (Z.abs x <? 10)%Z; reflexivity.
  - apply plain_int_str.
Qed.

Lemma plain_format_repr ds decpt : plain ds -> plain (format_repr ds decpt).
Proof.
  intros H. unfold format_repr.
  destruct ((decpt <=? -4)%Z || (16 <? decpt)%Z).
  - destruct ds as [|d rest]; [reflexivity|].
    unfold plain in H. simpl in H. apply andb_true_iff in H as [Hd Hr].
    apply plain_cons; [exact Hd|]. apply plain_app.
    + destruct rest; [reflexivity|]. apply plain_cons; [reflexivity|exact Hr].
    + apply plain_app; [reflexivity|apply plain_exp_str].
  - destruct (decpt <=? 0)%Z.
    + apply plain_app; [reflexivity|]. apply plain_app; [|exact H].
      apply plain_repeat. reflexivity.
    + destruct (Z.of_nat (List.length ds) <=? decpt)%Z.
      * apply plain_app; [exact H|]. apply plain_app; [|reflexivity].
        apply plain_repeat. reflexivity.
      * apply plain_app; [apply plain_firstn; exact H|].
        apply plain_app; [reflexivity|apply plain_skipn; exact H].
Qed.

Lemma plain_float_repr x : plain (float_repr x).
Proof.
  unfold float_repr. destruct (Prim2SF x) as [s|s| |s m e].
  - destruct s; reflexivity.
  - destruct s; reflexivity.
  - reflexivity.
  - unfold shortest_digits.
    destruct (shortest_from _ _ _ _ _ _) as [d p].
    destruct (strip_zeros _ d p) as [d' p'].
    apply plain_app; [destruct s; reflexivity|].
    apply plain_format_repr. apply plain_int_str.
Qed.

Lemma plain_float_str f : plain (json.float_str f).
Proof.
  unfold json.float_str.
  destruct (is_nan f); [reflexivity|].
  destruct (PrimFloat.eqb f infinity); [reflexivity|].
  destruct (PrimFloat.eqb f neg_infinity); [reflexivity|].
  apply plain_float_repr.
Qed.

Lemma plain_hex_digit d : d < 16 -> plain_char (hex_digit d) = true.
Proof.
  intros H. unfold hex_digit, plain_char.
  destruct (N.ltb_spec d 10); apply andb_true_iff; split;
    apply N.leb_le; lia.
Qed.

Lemma plain_hex4 c : plain (hex4 c).
Proof.
  unfold hex4.
  repeat (apply plain_cons;
          [apply plain_hex_digit; apply N.mod_lt; discriminate|]).
  reflexivity.
Qed.

Lemma plain_escape_char c : plain (json.escape_char c).
Proof.
  unfold json.escape_char.
  repeat match goal with
    | |- plain (if ?b then _ else _) => destruct b eqn:?; [try reflexivity|]
    end.
  - apply plain_cons; [assumption|reflexivity].
  - apply plain_cons; [reflexivity|]. apply plain_cons; [reflexivity|].
    apply plain_hex4.
  - apply plain_cons; [reflexivity|]. apply plain_cons; [reflexivity|].
    apply plain_app; [apply plain_hex4|].
    apply plain_cons; [reflexivity|]. apply plain_cons; [reflexivity|].
    apply plain_hex4.
Qed.

Lemma plain_encode_str s : plain (json.encode_str s).
Proof.
  unfold json.encode_str. apply plain_cons; [reflexivity|].
  apply plain_app; [|reflexivity].
  induction s as [|c s IH]; simpl; [reflexivity|].
  apply plain_app; [apply plain_escape_char|exact IH].
Qed.

Lemma plain_join sep parts :
  plain sep -> Forall plain parts -> plain (join sep parts).
Proof.
  intros Hsep H. induction H as [|p ps Hp Hps IH]; simpl; [reflexivity|].
  destruct ps as [|q qs]; [exact Hp|].
  apply plain_app; [exact Hp|]. apply plain_app; [exact Hsep|exact IH].
Qed.

Lemma dumps_list l :
  json.dumps (PyList l) =
  lit "[" ++ join (lit ", ") (map json.dumps l) ++ lit "]".
Proof. reflexivity. Qed.

Lemma dumps_dict d :
  json.dumps (PyDict d) =
  lit "{"
    ++ join (lit ", ")
         (map (fun kv => json.encode_str (fst kv) ++ lit ": "
                         ++ json.dumps (snd kv)) d)
    ++ lit "}".
Proof. reflexivity. Qed.

Lemma dumps_plain v : plain (json.dumps v).
Proof.
  induction v using value_nested_ind.
  - reflexivity.
  - destruct b; reflexivity.
  - apply plain_int_str.
  - apply plain_float_str.
  - apply plain_encode_str.
  - rewrite dumps_list.
    apply plain_app; [reflexivity|]. apply plain_app; [|reflexivity].
    apply plain_join; [reflexivity|].
    induction H; simpl; constructor; auto.
  - rewrite dumps_dict.
    apply plain_app; [reflexivity|]. apply plain_app; [|reflexivity].
    apply plain_join; [reflexivity|].
    induction H as [|[k x] kvs Hx Hkvs IH]; [constructor|].
    rewrite map_cons. constructor; [|exact IH].
    apply plain_app; [apply plain_encode_str|].
    apply plain_app; [reflexivity|exact Hx].
Qed.

(** ** Reading back what was written *)

Lemma hex_val_digit d : d < 16 -> json.hex_val (hex_digit d) = Some d.
Proof.
  intros H. unfold json.hex_val, hex_digit.
  destruct (N.ltb_spec d 10).
  - replace ((48 <=? 48 + d) && (48 + d <=? 57)) with true.
    + f_equal. lia.
    + symmetry. apply andb_true_iff. split; apply N.leb_le; lia.
  - replace ((48 <=? 87 + d) && (87 + d <=? 57)) with false.
    + replace ((97 <=? 87 + d) && (87 + d <=? 102)) with true.
      * f_equal. lia.
      * symmetry. apply andb_true_iff. split; apply N.leb_le; lia.
    + symmetry. apply andb_false_iff. right. apply N.leb_gt. lia.
Qed.

Lemma hex4_round_trip c :
  c < 65536 ->
  match hex4 c with
  | [h1; h2; h3; h4] => json.hex4_val h1 h2 h3 h4 = Some c
  | _ => False
  end.
Proof.
  intros H. unfold hex4, json.hex4_val.
  rewrite !hex_val_digit by (apply N.mod_lt; discriminate).
  f_equal.
  replace (c / 4096) with (c / 16 / 16 / 16)
    by (rewrite !N.Div0.div_div; reflexivity).
  replace (c / 256) with (c / 16 / 16)
    by (rewrite !N.Div0.div_div; reflexivity).
  zify. Z.to_euclidean_division_equations. lia.
Qed.
(** ** Strings *)

(** A Unicode scalar value: a code point that is no surrogate. *)
Definition scalar (c : N) : bool :=
  (c <? 1114112) && negb ((55296 <=? c) && (c <=? 57343)).

Definition scalar_text (s : str) : bool := forallb scalar s.

(** What the scanner reads back for one encoded character. *)
Definition units_of (c : N) : list (N * bool) :=
  if (c =? 34) || (c =? 92) || (c =? 10) || (c =? 13) || (c =? 9)
     || (c =? 8) || (c =? 12) || ((32 <=? c) && (c <=? 126))
  then [(c, false)]
  else if c <? 65536 then [(c, true)]
  else [(55296 + (c - 65536) / 1024 mod 1024, true);
        (56320 + (c - 65536) mod 1024, true)].

Lemma scan_units_u c tail :
  c < 65536 ->
  json.scan_units (92 :: 117 :: hex4 c ++ tail) =
  match json.scan_units tail with
  | Some (us, r) => Some ((c, true) :: us, r)
  | None => None
  end.
Proof.
  intros H. pose proof (hex4_round_trip c H) as E.
  unfold hex4 in *. cbn [app json.scan_units].
  change (92 =? 34) with false. change (92 =? 92) with true.
  change (117 =? 117) with true. cbv beta iota. rewrite E.
  reflexivity.
Qed.

Lemma scan_units_escape c tail :
  json.scan_units (json.escape_char c ++ tail) =
  match json.scan_units tail with
  | Some (us, r) => Some (units_of c ++ us, r)
  | None => None
  end.
Proof.
  unfold json.escape_char, units_of.
  destruct (N.eqb_spec c 34) as [->|N34]; [reflexivity|].
  destruct (N.eqb_spec c 92) as [->|N92]; [reflexivity|].
  destruct (N.eqb_spec c 10) as [->|N10]; [reflexivity|].
  destruct (N.eqb_spec c 13) as [->|N13]; [reflexivity|].
  destruct (N.eqb_spec c 9) as [->|N9]; [reflexivity|].
  destruct (N.eqb_spec c 8) as [->|N8]; [reflexivity|].
  destruct (N.eqb_spec c 12) as [->|N12]; [reflexivity|].
  cbn [orb].
  destruct ((32 <=? c) && (c <=? 126)) eqn:Hplain.
  - apply andb_true_iff in Hplain as [H32 H126].
    cbn [app json.scan_units].
    destruct (N.eqb_spec c 34); [contradiction|].
    destruct (N.eqb_spec c 92); [contradiction|].
    replace (c <? 32) with false
      by (symmetry; apply N.ltb_ge; apply N.leb_le; exact H32).
    reflexivity.
  - destruct (N.ltb_spec c 65536) as [Hlt|Hge].
    + apply scan_units_u. exact Hlt.
    + cbn [app]. rewrite <- List.app_assoc. cbn [app].
      rewrite scan_units_u
        by (zify; Z.to_euclidean_division_equations; lia).
      rewrite scan_units_u
        by (zify; Z.to_euclidean_division_equations; lia).
      destruct (json.scan_units tail) as [[us r]|]; reflexivity.
Qed.

Lemma scan_units_encoded s tail :
  json.scan_units (flat_map json.escape_char s ++ 34 :: tail) =
  Some (flat_map units_of s, tail).
Proof.
  induction s as [|c s IH]; [reflexivity|].
  cbn [flat_map]. rewrite <- List.app_assoc, scan_units_escape, IH.
  reflexivity.
Qed.

Lemma join_units c us :
  scalar c = true ->
  json.join_surrogates (units_of c ++ us) = c :: json.join_surrogates us.
Proof.
  intros Hc. unfold scalar in Hc. apply andb_true_iff in Hc as [Hmax Hsur].
  apply N.ltb_lt in Hmax.
  assert (Hhigh : forall esc, esc && json.is_high_surrogate c = false).
  { intros esc. unfold json.is_high_surrogate.
    destruct ((55296 <=? c) && (c <=? 56319)) eqn:E;
      [|apply andb_false_r].
    exfalso. apply andb_true_iff in E as [E1 E2].
    apply N.leb_le in E1, E2.
    apply negb_true_iff, andb_false_iff in Hsur as [Hs|Hs];
      apply N.leb_gt in Hs; lia. }
  assert (Hone : forall esc,
             json.join_surrogates ((c, esc) :: us)
             = c :: json.join_surrogates us).
  { intros esc. cbn [json.join_surrogates].
    destruct us as [|[c2 [|]] us2]; try reflexivity.
    rewrite Hhigh. reflexivity. }
  unfold units_of.
  destruct ((c =? 34) || (c =? 92) || (c =? 10) || (c =? 13) || (c =? 9)
            || (c =? 8) || (c =? 12) || ((32 <=? c) && (c <=? 126)));
    [apply Hone|].
  destruct (N.ltb_spec c 65536) as [Hlt|Hge]; [apply Hone|].
  cbn [app json.join_surrogates].
  replace (json.is_high_surrogate (55296 + (c - 65536) / 1024 mod 1024))
    with true.
  2:{ symmetry. unfold json.is_high_surrogate. apply andb_true_iff.
      split; apply N.leb_le; zify; Z.to_euclidean_division_equations; lia. }
  replace (json.is_low_surrogate (56320 + (c - 65536) mod 1024)) with true.
  2:{ symmetry. unfold json.is_low_surrogate. apply andb_true_iff.
      split; apply N.leb_le; zify; Z.to_euclidean_division_equations; lia. }
  cbn [andb]. f_equal.
  zify; Z.to_euclidean_division_equations; lia.
Qed.

Lemma join_units_of s :
  scalar_text s = true ->
  json.join_surrogates (flat_map units_of s) = s.
Proof.
  induction s as [|c s IH]; [reflexivity|].
  unfold scalar_text. cbn [forallb flat_map].
  rewrite andb_true_iff. intros [Hc Hs].
  rewrite join_units by exact Hc. f_equal. apply IH. exact Hs.
Qed.

(** [scanstring] reads back what [encode_str] wrote. *)
Lemma scanstring_encoded s tail :
  scalar_text s = true ->
  json.scanstring (flat_map json.escape_char s ++ 34 :: tail) = Some (s, tail).
Proof.
  intros H. unfold json.scanstring.
  rewrite scan_units_encoded, join_units_of by exact H. reflexivity.
Qed.

(** ** Numbers *)

(** What may follow a number: the end of the text, or a character that
    continues no number. *)
Definition terminated (rest : str) : bool :=
  match rest with
  | [] => true
  | c :: _ =>
      negb (is_digit c || (c =? 46) || (c =? 101) || (c =? 69)
            || (c =? 43) || (c =? 45))
  end.

Lemma terminated_head c rest :
  terminated (c :: rest) = true ->
  is_digit c = false /\ (c =? 46) = false /\ (c =? 101) = false
  /\ (c =? 69) = false /\ (c =? 43) = false /\ (c =? 45) = false.
Proof.
  unfold terminated. rewrite negb_true_iff, !orb_false_iff. tauto.
Qed.

Lemma span_digits_more s : forall ds r rest,
  json.span_digits s = (ds, r) -> terminated rest = true ->
  json.span_digits (s ++ rest) = (ds, r ++ rest).
Proof.
  induction s as [|c s IH]; intros ds r rest H Ht.
  - inversion H; subst. destruct rest as [|c rest]; [reflexivity|].
    apply terminated_head in Ht as (Hd & _). cbn. rewrite Hd. reflexivity.
  - cbn in *. destruct (is_digit c).
    + destruct (json.span_digits s) as [ds' r'] eqn:E. inversion H; subst.
      rewrite (IH _ _ _ eq_refl Ht). reflexivity.
    + inversion H; subst. reflexivity.
Qed.

Lemma scan_fraction_more s fs r rest :
  json.scan_fraction s = (fs, r) -> terminated rest = true ->
  json.scan_fraction (s ++ rest) = (fs, r ++ rest).
Proof.
  intros H Ht. destruct s as [|c s].
  - inversion H; subst. destruct rest as [|c rest]; [reflexivity|].
    apply terminated_head in Ht as (_ & Hdot & _). cbn. rewrite Hdot.
    reflexivity.
  - cbn in *. destruct (c =? 46); [|inversion H; subst; reflexivity].
    destruct (json.span_digits s) as [ds r'] eqn:E.
    rewrite (span_digits_more _ _ _ _ E Ht).
    destruct ds; inversion H; subst; reflexivity.
Qed.

Lemma scan_exponent_more s x r rest :
  json.scan_exponent s = (x, r) -> terminated rest = true ->
  json.scan_exponent (s ++ rest) = (x, r ++ rest).
Proof.
  intros H Ht. destruct s as [|c s].
  - inversion H; subst. destruct rest as [|c rest]; [reflexivity|].
    apply terminated_head in Ht as (_ & _ & He & HE & _). cbn.
    rewrite He, HE. reflexivity.
  - cbn in *. destruct ((c =? 101) || (c =? 69));
      [|inversion H; subst; reflexivity].
    destruct s as [|g s].
    + cbn in H. inversion H; subst. cbn.
      destruct rest as [|g rest]; [reflexivity|].
      apply terminated_head in Ht as (Hd & _ & _ & _ & Hplus & Hminus).
      rewrite Hminus, Hplus. cbn. rewrite Hd. reflexivity.
    + cbn [app]. destruct (g =? 45).
      * destruct (json.span_digits s) as [ds r'] eqn:E.
        rewrite (span_digits_more _ _ _ _ E Ht).
        destruct ds; inversion H; subst; reflexivity.
      * destruct (g =? 43).
        -- destruct (json.span_digits s) as [ds r'] eqn:E.
           rewrite (span_digits_more _ _ _ _ E Ht).
           destruct ds; inversion H; subst; reflexivity.
        -- destruct (json.span_digits (g :: s)) as [ds r'] eqn:E.
           change (g :: s ++ rest) with ((g :: s) ++ rest).
           rewrite (span_digits_more _ _ _ _ E Ht).
           destruct ds; inversion H; subst; reflexivity.
Qed.

Lemma match_digits_more neg s v r rest :
  json.match_digits neg s = Some (v, r) -> terminated rest = true ->
  json.match_digits neg (s ++ rest) = Some (v, r ++ rest).
Proof.
  intros H Ht. unfold json.match_digits in *.
  destruct s as [|c r0]; [discriminate|]. cbn [app].
  destruct (is_digit c); [|discriminate].
  assert (Hip : forall ip s1,
    (if c =? 48 then ([c], r0)
     else let (ds, r') := json.span_digits r0 in (c :: ds, r')) = (ip, s1) ->
    (if c =? 48 then ([c], r0 ++ rest)
     else let (ds, r') := json.span_digits (r0 ++ rest) in (c :: ds, r'))
    = (ip, s1 ++ rest)).
  { intros ip s1 E. destruct (c =? 48).
    - inversion E; subst. reflexivity.
    - destruct (json.span_digits r0) as [ds r'] eqn:E2.
      rewrite (span_digits_more _ _ _ _ E2 Ht). inversion E; subst.
      reflexivity. }
  destruct (if c =? 48 then ([c], r0)
            else let (ds, r') := json.span_digits r0 in (c :: ds, r'))
    as [ip s1] eqn:E1.
  rewrite (Hip _ _ eq_refl).
  destruct (json.scan_fraction s1) as [frac s2] eqn:E2.
  rewrite (scan_fraction_more _ _ _ _ E2 Ht).
  destruct (json.scan_exponent s2) as [ex s3] eqn:E3.
  rewrite (scan_exponent_more _ _ _ _ E3 Ht).
  destruct frac, ex; inversion H; subst; reflexivity.
Qed.

(** A number that was scanned is scanned the same in front of more text. *)
Lemma match_number_more s v r rest :
  json.match_number s = Some (v, r) -> terminated rest = true ->
  json.match_number (s ++ rest) = Some (v, r ++ rest).
Proof.
  intros H Ht. unfold json.match_number in *.
  destruct s as [|c s]; [discriminate|].
  cbn [app]. destruct (c =? 45).
  - apply match_digits_more; assumption.
  - apply (match_digits_more false (c :: s)); assumption.
Qed.

Lemma strip_prefix_app p : forall s r,
  json.strip_prefix p s = Some r -> s = p ++ r.
Proof.
  induction p as [|a p IH]; intros s r H; cbn in H.
  - inversion H. reflexivity.
  - destruct s as [|b s]; [discriminate|].
    destruct (N.eqb_spec a b) as [->|]; [|discriminate].
    cbn. f_equal. apply IH. exact H.
Qed.

Lemma digit_not c x :
  is_digit c = true -> (x <? 48) || (57 <? x) = true -> (x =? c) = false.
Proof.
  unfold is_digit. rewrite andb_true_iff, orb_true_iff, !N.leb_le, !N.ltb_lt.
  intros [H1 H2] H. apply N.eqb_neq. lia.
Qed.

(** A number starts with a digit, or with a minus sign and a digit. *)
Lemma match_number_head s v r :
  json.match_number s = Some (v, r) ->
  exists c t,
    s = c :: t
    /\ (is_digit c = true
        \/ (c = 45 /\ exists d t', t = d :: t' /\ is_digit d = true)).
Proof.
  unfold json.match_number, json.match_digits.
  destruct s as [|c t]; [discriminate|]. intros H.
  exists c, t. split; [reflexivity|].
  destruct (N.eqb_spec c 45) as [->|].
  - right. split; [reflexivity|]. destruct t as [|d t']; [discriminate|].
    exists d, t'. split; [reflexivity|].
    destruct (is_digit d); [reflexivity|discriminate].
  - left. destruct (is_digit c); [reflexivity|discriminate].
Qed.

Lemma strip_prefix_miss a p c s :
  (a =? c) = false -> json.strip_prefix (a :: p) (c :: s) = None.
Proof. intros H. cbn [json.strip_prefix]. rewrite H. reflexivity. Qed.

Lemma strip_prefix_hit a p s :
  json.strip_prefix (a :: p) (a :: s) = json.strip_prefix p s.
Proof. cbn [json.strip_prefix]. rewrite N.eqb_refl. reflexivity. Qed.

Lemma match_constant_number s v r rest :
  json.match_number s = Some (v, r) ->
  json.match_constant (s ++ rest) = None.
Proof.
  intros H. destruct (match_number_head _ _ _ H) as (c & t & -> & Hc).
  unfold json.match_constant.
  change (lit "null") with (110 :: lit "ull").
  change (lit "true") with (116 :: lit "rue").
  change (lit "false") with (102 :: lit "alse").
  change (lit "NaN") with (78 :: lit "aN").
  change (lit "Infinity") with (73 :: lit "nfinity").
  change (lit "-Infinity") with (45 :: 73 :: lit "nfinity").
  cbn [app].
  destruct Hc as [Hc|(-> & d & t' & -> & Hd)].
  - rewrite !strip_prefix_miss
      by (apply digit_not; [exact Hc|reflexivity]).
    reflexivity.
  - rewrite !strip_prefix_miss by reflexivity.
    rewrite strip_prefix_hit. cbn [app].
    rewrite strip_prefix_miss
      by (apply digit_not; [exact Hd|reflexivity]).
    reflexivity.
Qed.

(** The first character of a value that is no string, object or array:
    it is no blank, and none of the four characters that open a string, an
    object or an array or close an array. *)
Definition atom_start (c : N) : bool :=
  negb (json.is_ws c) && negb (c =? 34) && negb (c =? 123)
  && negb (c =? 91) && negb (c =? 93).

Lemma digit_atom_start c : is_digit c = true -> atom_start c = true.
Proof.
  unfold is_digit, atom_start, json.is_ws.
  rewrite andb_true_iff, !N.leb_le. intros [H1 H2].
  repeat match goal with
    | |- context [c =? ?k] =>
        replace (c =? k) with false by (symmetry; apply N.eqb_neq; lia)
    end.
  reflexivity.
Qed.

(** An atom that was scanned whole is scanned the same in front of what may
    follow a number. *)
Lemma scan_atom_more tok v rest :
  json.scan_atom tok = Some (v, []) -> terminated rest = true ->
  json.scan_atom (tok ++ rest) = Some (v, rest)
  /\ exists c t, tok = c :: t /\ atom_start c = true.
Proof.
  intros H Ht. unfold json.scan_atom in H.
  destruct (json.match_constant tok) as [[v' r']|] eqn:Ec.
  - inversion H; subst v' r'. clear H.
    unfold json.match_constant in Ec.
    repeat match type of Ec with
      | match json.strip_prefix ?p tok with _ => _ end = _ =>
          let E := fresh "E" in
          destruct (json.strip_prefix p tok) as [?|] eqn:E;
          [ inversion Ec; subst; apply strip_prefix_app in E; subst tok;
            split; [reflexivity | do 2 eexists; split; reflexivity]
          | clear E ]
      end.
    discriminate.
  - split.
    + unfold json.scan_atom.
      rewrite (match_constant_number _ _ _ rest H).
      apply (match_number_more _ _ _ _ H Ht).
    + destruct (match_number_head _ _ _ H) as (c & t & -> & Hc).
      exists c, t. split; [reflexivity|].
      destruct Hc as [Hc|(-> & _)]; [|reflexivity].
      apply digit_atom_start. exact Hc.
Qed.

(** [str(z)] reads back as the [int] [z]. *)
Lemma digits_uint_digits u : digits_uint (uint_digits u) = u.
Proof. induction u; cbn; rewrite ?IHu; reflexivity. Qed.

Lemma span_uint_digits u : json.span_digits (uint_digits u) = (uint_digits u, []).
Proof. induction u; cbn; rewrite ?IHu; reflexivity. Qed.

Lemma nzhead_head u :
  Decimal.nzhead u = Decimal.Nil
  \/ exists c t, uint_digits (Decimal.nzhead u) = c :: t
                 /\ is_digit c = true /\ (c =? 48) = false.
Proof.
  induction u; cbn; auto; right; do 2 eexists; repeat split; reflexivity.
Qed.

Lemma to_uint_head p :
  exists c t, uint_digits (Pos.to_uint p) = c :: t
              /\ is_digit c = true /\ (c =? 48) = false.
Proof.
  pose proof (DecimalPos.Unsigned.to_of (Pos.to_uint p)) as H.
  rewrite DecimalPos.Unsigned.of_to in H. cbn in H.
  pose proof (DecimalPos.Unsigned.to_uint_nonzero p) as Hnz.
  unfold Decimal.unorm in H.
  destruct (nzhead_head (Pos.to_uint p)) as [E|(c & t & E & Hc)].
  - rewrite E in H. contradiction.
  - exists c, t. rewrite H.
    destruct (Decimal.nzhead (Pos.to_uint p)) eqn:En;
      try (split; [exact E|exact Hc]).
    cbn in E. discriminate.
Qed.

Lemma match_digits_pos neg p :
  json.match_digits neg (uint_digits (Pos.to_uint p)) =
  Some (PyInt (if neg then Zneg p else Zpos p), []).
Proof.
  destruct (to_uint_head p) as (c & t & E & Hd & H0).
  assert (Hval : digits_Z (uint_digits (Pos.to_uint p)) = Zpos p).
  { unfold digits_Z. rewrite digits_uint_digits. unfold Z.of_uint.
    rewrite DecimalPos.Unsigned.of_to. reflexivity. }
  pose proof (span_uint_digits (Pos.to_uint p)) as Hspan.
  rewrite E in *. unfold json.match_digits. rewrite Hd, H0.
  cbn in Hspan. rewrite Hd in Hspan.
  destruct (json.span_digits t) as [ds r]. inversion Hspan; subst.
  cbn. rewrite Hval. destruct neg; reflexivity.
Qed.

Lemma scan_atom_int z : json.scan_atom (int_str z) = Some (PyInt z, []).
Proof.
  assert (H : json.match_number (int_str z) = Some (PyInt z, [])).
  { destruct z as [|p|p].
    - reflexivity.
    - unfold int_str, json.match_number.
      destruct (to_uint_head p) as (c & t & E & Hd & H0).
      pose proof (match_digits_pos false p) as Hp. rewrite E in *.
      rewrite N.eqb_sym, (digit_not c 45) by (exact Hd || reflexivity).
      exact Hp.
    - unfold int_str, json.match_number. cbn.
      apply (match_digits_pos true p). }
  unfold json.scan_atom.
  rewrite <- (List.app_nil_r (int_str z)) at 1.
  rewrite (match_constant_number _ _ _ [] H). exact H.
Qed.

(** ** Values *)

(** The values [dumps] and [loads] carry back and forth unchanged: texts
    of Unicode scalar values, objects whose keys differ, and floats other
    than NaN whose [repr] reads back as themselves. *)
Fixpoint portable (v : value) : Prop :=
  match v with
  | PyNone | PyBool _ | PyInt _ => True
  | PyFloat f =>
      is_nan f = false
      /\ json.scan_atom (json.float_str f) = Some (PyFloat f, [])
  | PyStr s => scalar_text s = true
  | PyList l =>
      (fix items (xs : list value) : Prop :=
         match xs with
         | [] => True
         | x :: xs' => portable x /\ items xs'
         end) l
  | PyDict d =>
      NoDup (map fst d)
      /\ (fix members (kvs : list (str * value)) : Prop :=
            match kvs with
            | [] => True
            | kv :: kvs' =>
                scalar_text (fst kv) = true /\ portable (snd kv)
                /\ members kvs'
            end) d
  end.

Lemma portable_list l : portable (PyList l) <-> Forall portable l.
Proof.
  induction l as [|x xs IH]; cbn.
  - split; constructor.
  - cbn in IH. rewrite IH. split.
    + intros [H1 H2]. constructor; assumption.
    + intros H. inversion H; auto.
Qed.

Lemma portable_dict d :
  portable (PyDict d) <->
  NoDup (map fst d)
  /\ Forall (fun kv => scalar_text (fst kv) = true /\ portable (snd kv)) d.
Proof.
  cbn. apply and_iff_compat_l.
  induction d as [|kv kvs IH].
  - split; constructor.
  - rewrite IH. split.
    + intros (H1 & H2 & H3). constructor; auto.
    + intros H. inversion H; subst. tauto.
Qed.

(** The fuel [scan_once] needs for the text of a value. *)
Fixpoint weight (v : value) : nat :=
  match v with
  | PyList l => S (fold_right (fun x n => S (weight x + n)) O l)
  | PyDict d => S (fold_right (fun kv n => S (weight (snd kv) + n)) O d)
  | _ => 1
  end.

Lemma dumps_head v :
  portable v ->
  exists c t, json.dumps v = c :: t
              /\ json.is_ws c = false /\ (c =? 93) = false.
Proof.
  assert (Hatom : forall tok x,
             json.scan_atom tok = Some (x, []) ->
             exists c t, tok = c :: t
                         /\ json.is_ws c = false /\ (c =? 93) = false).
  { intros tok x H.
    destruct (scan_atom_more tok x [] H eq_refl) as (_ & c & t & -> & Hc).
    exists c, t. split; [reflexivity|].
    unfold atom_start in Hc. rewrite !andb_true_iff, !negb_true_iff in Hc.
    tauto. }
  destruct v as [|b|z|f|s|l|d]; intros Hv.
  - do 2 eexists. repeat split; reflexivity.
  - destruct b; do 2 eexists; repeat split; reflexivity.
  - apply (Hatom _ (PyInt z)). apply scan_atom_int.
  - apply (Hatom _ (PyFloat f)). apply Hv.
  - do 2 eexists. repeat split; reflexivity.
  - do 2 eexists. repeat split; reflexivity.
  - do 2 eexists. repeat split; reflexivity.
Qed.

Lemma skip_ws_start c t :
  json.is_ws c = false -> json.skip_ws (c :: t) = c :: t.
Proof. intros H. cbn. rewrite H. reflexivity. Qed.



(** ** Lists and dictionaries *)

Lemma scan_atom_once tok v rest fuel :
  json.scan_atom tok = Some (v, []) -> terminated rest = true ->
  json.scan_once (S fuel) (tok ++ rest) = Some (v, rest).
Proof.
  intros H Ht.
  destruct (scan_atom_more tok v rest H Ht) as (E & c & t & -> & Hc).
  unfold atom_start in Hc. rewrite !andb_true_iff, !negb_true_iff in Hc.
  destruct Hc as ((((_ & H34) & H123) & H91) & _).
  cbn [app json.scan_once]. cbn [app] in E. rewrite H34, H123, H91. exact E.
Qed.

(** [", ".join] of a list that is not empty: the first part, then every other
    one after a separator. *)
Lemma join_cons {A} (f : A -> str) sep x xs :
  join sep (map f (x :: xs)) = f x ++ flat_map (fun y => sep ++ f y) xs.
Proof.
  revert x. induction xs as [|y ys IH]; intros x.
  - cbn. now rewrite List.app_nil_r.
  - change (join sep (map f (x :: y :: ys)))
      with (f x ++ sep ++ join sep (map f (y :: ys))).
    rewrite IH. cbn [flat_map]. now rewrite <- List.app_assoc.
Qed.

(** What the induction gives for a value. *)
Definition reads_back (v : value) : Prop :=
  portable v ->
  forall fuel rest,
    (weight v <= fuel)%nat -> terminated rest = true ->
    json.scan_once fuel (json.dumps v ++ rest) = Some (v, rest).

Definition list_weight (l : list value) : nat :=
  fold_right (fun x n => S (weight x + n)) O l.

Lemma skip_space_dumps v t :
  portable v ->
  json.skip_ws (32 :: json.dumps v ++ t) = json.dumps v ++ t.
Proof.
  intros P. destruct (dumps_head v P) as (c & u & E & Hws & _).
  rewrite E. change (json.skip_ws (32 :: ?z)) with (json.skip_ws z).
  cbn [app]. apply skip_ws_start. exact Hws.
Qed.

Lemma parse_array_items xs :
  Forall reads_back xs -> Forall portable xs ->
  forall x, reads_back x -> portable x ->
  forall fuel acc rest,
    (list_weight (x :: xs) <= fuel)%nat ->
    json.parse_array fuel
      (json.dumps x ++ flat_map (fun y => lit ", " ++ json.dumps y) xs
         ++ 93 :: rest) acc
    = Some (PyList (acc ++ x :: xs), rest).
Proof.
  induction xs as [|y ys IH]; intros Hr Hp x Hx Px fuel acc rest Hfuel;
    unfold list_weight in Hfuel; cbn [fold_right] in Hfuel;
    (destruct fuel as [|fuel]; [lia|]); cbn [json.parse_array].
  - cbn [flat_map app].
    rewrite (Hx Px fuel (93 :: rest)) by (lia || reflexivity).
    reflexivity.
  - inversion Hr as [|? ? Hy Hys]; subst. inversion Hp as [|? ? Py Pys]; subst.
    cbn [flat_map]. rewrite <- !List.app_assoc.
    rewrite (Hx Px fuel) by (lia || reflexivity).
    change (lit ", " ++ ?t) with (44 :: 32 :: t).
    change (json.skip_ws (44 :: ?t)) with (44 :: t).
    cbv iota. change (44 =? 93) with false. change (44 =? 44) with true.
    cbv iota.
    rewrite skip_space_dumps by exact Py.
    rewrite (IH Hys Pys y Hy Py fuel (acc ++ [x]) rest)
      by (unfold list_weight; cbn [fold_right]; lia).
    rewrite <- List.app_assoc. reflexivity.
Qed.

(** [d[k] = v] for a key the dictionary does not have yet. *)
Lemma dict_set_new d k v :
  ~ In k (map fst d) -> dict_set d k v = d ++ [(k, v)].
Proof.
  induction d as [|[k' v'] d IH]; intros H; cbn [dict_set app].
  - reflexivity.
  - cbn [map fst In] in H.
    destruct (str_eqb k' k) eqn:E.
    + apply py_facts.str_eqb_eq in E. tauto.
    + rewrite IH by tauto. reflexivity.
Qed.

Definition member_text (kv : str * value) : str :=
  json.encode_str (fst kv) ++ lit ": " ++ json.dumps (snd kv).

Definition dict_weight (d : list (str * value)) : nat :=
  fold_right (fun kv n => S (weight (snd kv) + n)) O d.

Definition member_ok (kv : str * value) : Prop :=
  scalar_text (fst kv) = true /\ portable (snd kv).

Lemma parse_object_members kvs :
  Forall (fun kv => reads_back (snd kv)) kvs -> Forall member_ok kvs ->
  forall kv, reads_back (snd kv) -> member_ok kv ->
  forall fuel acc rest,
    NoDup (map fst (acc ++ kv :: kvs)) ->
    (dict_weight (kv :: kvs) <= fuel)%nat ->
    json.parse_object fuel
      (member_text kv ++ flat_map (fun y => lit ", " ++ member_text y) kvs
         ++ 125 :: rest) acc
    = Some (PyDict (acc ++ kv :: kvs), rest).
Proof.
  induction kvs as [|y ys IH];
    intros Hr Hp [k x] Hx [Sk Px] fuel acc rest Hnd Hfuel;
    unfold dict_weight in Hfuel; cbn [fold_right snd] in Hfuel;
    cbn [fst snd] in *;
    (destruct fuel as [|fuel]; [lia|]);
    unfold member_text at 1; cbn [fst snd]; unfold json.encode_str;
    rewrite <- !List.app_assoc; cbn [app json.parse_object];
    change (34 =? 34) with true; cbv iota;
    rewrite <- !List.app_assoc; cbn [app];
    rewrite (scanstring_encoded k _ Sk);
    change (lit ": " ++ ?t) with (58 :: 32 :: t);
    change (json.skip_ws (58 :: ?t)) with (58 :: t); cbv iota;
    change (58 =? 58) with true; cbv iota;
    rewrite skip_space_dumps by exact Px;
    assert (Hk : ~ In k (map fst acc))
      by (rewrite map_app in Hnd; cbn [map fst] in Hnd;
          apply NoDup_remove_2 in Hnd; rewrite in_app_iff in Hnd; tauto).
  - cbn [flat_map app].
    rewrite (Hx Px fuel (125 :: rest)) by (lia || reflexivity).
    change (json.skip_ws (125 :: ?t)) with (125 :: t); cbv iota.
    change (125 =? 125) with true. cbv iota.
    rewrite dict_set_new by exact Hk. reflexivity.
  - inversion Hr as [|? ? Hy Hys]; subst. inversion Hp as [|? ? Py Pys]; subst.
    cbn [flat_map]. rewrite <- !List.app_assoc.
    rewrite (Hx Px fuel) by (lia || reflexivity).
    change (lit ", " ++ ?t) with (44 :: 32 :: t).
    change (json.skip_ws (44 :: ?t)) with (44 :: t).
    cbv iota. change (44 =? 125) with false. change (44 =? 44) with true.
    cbv iota.
    change (json.skip_ws (32 :: ?t)) with (json.skip_ws t).
    assert (Hq : forall t, json.skip_ws (member_text y ++ t) = member_text y ++ t)
      by (intros t; unfold member_text, json.encode_str; reflexivity).
    rewrite Hq. rewrite dict_set_new by exact Hk.
    rewrite (IH Hys Pys y Hy Py fuel (acc ++ [(k, x)]) rest).
    + rewrite <- List.app_assoc. reflexivity.
    + rewrite <- List.app_assoc. exact Hnd.
    + unfold dict_weight. cbn [fold_right]. lia.
Qed.

(** [scan_once] reads back what [dumps] wrote, and stops where it ends. *)
Lemma scan_once_dumps v : reads_back v.
Proof.
  induction v as [| b | z | f | s | l IH | d IH] using value_nested_ind;
    intros P fuel rest Hfuel Ht; cbn [weight] in Hfuel;
    (destruct fuel as [|fuel]; [lia|]).
  - apply scan_atom_once; [reflexivity | exact Ht].
  - destruct b; (apply scan_atom_once; [reflexivity | exact Ht]).
  - apply scan_atom_once; [apply scan_atom_int | exact Ht].
  - destruct P as [_ P]. apply scan_atom_once; [exact P | exact Ht].
  - cbn [json.dumps]. unfold json.encode_str.
    cbn [app json.scan_once]. rewrite <- List.app_assoc. cbn [app].
    change (34 =? 34) with true. cbv iota.
    rewrite (scanstring_encoded s rest P). reflexivity.
  - apply portable_list in P.
    destruct l as [|x xs].
    + reflexivity.
    + cbn [json.dumps]. rewrite join_cons.
      change (lit "[" ++ ?t) with (91 :: t). cbn [app json.scan_once].
      change (91 =? 34) with false. change (91 =? 123) with false.
      change (91 =? 91) with true. cbv iota.
      inversion IH as [|? ? Hx Hxs]; subst.
      inversion P as [|? ? Px Pxs]; subst.
      destruct (dumps_head x Px) as (c & u & E & Hws & H93).
      rewrite <- !List.app_assoc. rewrite E. cbn [app].
      rewrite skip_ws_start by exact Hws. rewrite H93.
      change (c :: u ++ ?t) with ((c :: u) ++ t). rewrite <- E.
      change (lit "]" ++ rest) with (93 :: rest).
      rewrite (parse_array_items xs Hxs Pxs x Hx Px fuel [] rest)
        by (unfold list_weight; lia).
      reflexivity.
  - apply portable_dict in P. destruct P as [Hnd P].
    destruct d as [|kv kvs].
    + reflexivity.
    + cbn [json.dumps].
      change (fun kv0 : str * value =>
                json.encode_str (fst kv0) ++ lit ": " ++ json.dumps (snd kv0))
        with member_text.
      rewrite join_cons.
      change (lit "{" ++ ?t) with (123 :: t). cbn [app json.scan_once].
      change (123 =? 34) with false. change (123 =? 123) with true.
      cbv iota.
      inversion IH as [|? ? Hx Hxs]; subst.
      inversion P as [|? ? Px Pxs]; subst.
      rewrite <- !List.app_assoc.
      change (lit "}" ++ rest) with (125 :: rest).
      assert (E : forall t, member_text kv ++ t
                            = 34 :: (flat_map json.escape_char (fst kv)
                                       ++ [34] ++ lit ": "
                                       ++ json.dumps (snd kv)) ++ t).
      { intros t. unfold member_text, json.encode_str.
        cbn [app]. now rewrite <- !List.app_assoc. }
      rewrite E. change (json.skip_ws (34 :: ?t)) with (34 :: t).
      cbv iota. change (34 =? 125) with false. cbv iota.
      rewrite <- E.
      apply (parse_object_members kvs Hxs Pxs kv Hx Px fuel [] rest).
      * exact Hnd.
      * unfold dict_weight. lia.
Qed.

(** ** The fuel [loads] gives is enough *)

Lemma weight_tail {A} (f : A -> str) (g : A -> nat) xs :
  Forall (fun x => (g x <= 2 * List.length (f x) + 1)%nat) xs ->
  (fold_right (fun x n => S (g x + n)) O xs
   <= 2 * List.length (flat_map (fun y => lit ", " ++ f y) xs))%nat.
Proof.
  induction 1 as [|x xs Hx _ IH]; cbn [fold_right flat_map]; [lia|].
  rewrite !length_app. change (List.length (lit ", ")) with 2%nat. lia.
Qed.

Lemma weight_join {A} (f : A -> str) (g : A -> nat) l :
  Forall (fun x => (g x <= 2 * List.length (f x) + 1)%nat) l ->
  (fold_right (fun x n => S (g x + n)) O l
   <= 2 * List.length (join (lit ", ") (map f l)) + 2)%nat.
Proof.
  destruct l as [|x xs]; intros H; [cbn; lia|].
  inversion H as [|? ? Hx Hxs]; subst.
  rewrite join_cons, length_app. cbn [fold_right].
  pose proof (weight_tail f g xs Hxs). lia.
Qed.

Lemma weight_dumps v : (weight v <= 2 * List.length (json.dumps v) + 1)%nat.
Proof.
  induction v as [| b | z | f | s | l IH | d IH] using value_nested_ind;
    cbn [weight json.dumps]; try lia.
  - pose proof (weight_join json.dumps weight l IH).
    change (lit "[" ++ ?t) with (91 :: t). cbn [List.length].
    rewrite length_app. lia.
  - pose proof (weight_join member_text (fun kv => weight (snd kv)) d) as H.
    change (lit "{" ++ ?t) with (123 :: t). cbn [List.length].
    rewrite length_app.
    change (fun kv : str * value =>
              json.encode_str (fst kv) ++ lit ": " ++ json.dumps (snd kv))
      with member_text.
    assert (Hd : Forall (fun x => (weight (snd x)
                                   <= 2 * List.length (member_text x) + 1)%nat) d).
    { eapply Forall_impl; [|exact IH]. cbv beta. intros kv Hkv.
      unfold member_text. rewrite !length_app. lia. }
    specialize (H Hd). cbv beta in H.
    match type of H with
    | (_ <= 2 * ?J + 2)%nat =>
        match goal with
        | |- (_ <= 2 * S (?K + _) + 1)%nat => change K with J
        end
    end.
    lia.
Qed.

(** [json.loads(json.dumps(v) + "\n")] is [v]. *)
Lemma loads_dumps v :
  portable v -> json.loads (json.dumps v ++ [10]) = Some v.
Proof.
  intros P. unfold json.loads.
  destruct (dumps_head v P) as (c & t & E & Hws & _).
  assert (Hs : json.skip_ws (json.dumps v ++ [10]) = json.dumps v ++ [10])
    by (rewrite E; cbn [app]; apply skip_ws_start; exact Hws).
  rewrite Hs, (scan_once_dumps v P).
  - reflexivity.
  - pose proof (weight_dumps v). rewrite length_app. lia.
  - reflexivity.
Qed.

(** The round trip fails where it should: a text that holds the two halves
    of a surrogate pair comes back as one character. *)
Example surrogate_pair_is_joined :
  json.loads (json.dumps (PyStr [55357; 56832]) ++ [10])
  = Some (PyStr [128512]).
Proof. reflexivity. Qed.
End json_facts.

(** * Properties of the server loop *)

Module loop_facts.
Import py.

Lemma readline_line body rest :
  ~ In 10%N body ->
  dispatcher.readline (body ++ 10%N :: rest) = (body ++ [10%N], rest).
Proof.
  induction body as [|c b IH]; simpl; intros H.
  - reflexivity.
  - destruct (N.eqb_spec c 10) as [->|Hc]; [tauto|].
    rewrite IH by tauto. reflexivity.
Qed.

Lemma readline_last body :
  ~ In 10%N body -> dispatcher.readline body = (body, []).
Proof.
  induction body as [|c b IH]; simpl; intros H.
  - reflexivity.
  - destruct (N.eqb_spec c 10) as [->|Hc]; [tauto|].
    rewrite IH by tauto. reflexivity.
Qed.

Lemma request_lines_unfold stdin :
  dispatcher.request_lines stdin =
  match dispatcher.readline stdin with
  | ([], _) => []
  | (line, rest) => line :: dispatcher.request_lines rest
  end.
Proof.
  rewrite dispatcher.request_lines_equation_1.
  unfold dispatcher.request_lines_unfold_clause_1. simpl.
  destruct (dispatcher.readline stdin) as [[|c l] r]; reflexivity.
Qed.

(** A line with its newline, in front of what follows it. *)
Lemma request_lines_cons body rest :
  ~ In 10%N body ->
  dispatcher.request_lines (body ++ 10%N :: rest) =
  (body ++ [10%N]) :: dispatcher.request_lines rest.
Proof.
  intros H. rewrite request_lines_unfold, readline_line by assumption.
  destruct body; reflexivity.
Qed.

(** Reading goes on after any number of complete lines. *)
Lemma request_lines_app pre rest :
  (pre = [] \/ exists pre', pre = pre' ++ [10%N]) ->
  dispatcher.request_lines (pre ++ rest) =
  dispatcher.request_lines pre ++ dispatcher.request_lines rest.
Proof.
  induction pre as [pre IH] using (well_founded_induction
    (Wf_nat.well_founded_ltof _ (@List.length N))).
  intros [->|[pre' ->]].
  - rewrite (request_lines_unfold []). reflexivity.
  - (* split the first line off *)
    assert (Hsplit : forall s : str, exists body tail,
               s ++ [10%N] = body ++ 10%N :: tail /\ ~ In 10%N body
               /\ (tail = [] \/ exists t, tail = t ++ [10%N])
               /\ (List.length tail < List.length (s ++ [10%N]))%nat).
    { induction s as [|c s IHs].
      - exists [], []. simpl. repeat split; auto.
      - destruct (N.eqb_spec c 10) as [->|Hc].
        + exists [], (s ++ [10%N]). simpl. repeat split; auto.
          right. now exists s.
        + destruct IHs as (b & t & E & Hb & Ht & Hl).
          exists (c :: b), t. simpl. rewrite E. repeat split; auto.
          * intros [H|H]; [congruence|tauto].
          * rewrite <- E. simpl. rewrite length_app in *. simpl in *. lia. }
    destruct (Hsplit pre') as (body & tail & E & Hb & Ht & Hl).
    rewrite E, <- List.app_assoc.
    change ((10%N :: tail) ++ rest) with (10%N :: tail ++ rest).
    rewrite (request_lines_cons body (tail ++ rest) Hb).
    rewrite (request_lines_cons body tail Hb).
    rewrite (IH tail Hl Ht). reflexivity.
Qed.

Section Loop.
Context {rt : Runtime}.
Variable handle_tool_call : value -> value -> M value.
Variable list_tools : value.

Let answer := dispatcher.answer handle_tool_call list_tools.
Let answers := dispatcher.answers handle_tool_call list_tools.
Let main_loop := dispatcher.main_loop handle_tool_call list_tools.

Lemma main_loop_unfold stdin out w :
  main_loop stdin out w =
  match dispatcher.readline stdin with
  | ([], _) => (out, w)
  | (line, rest) =>
      main_loop rest (out ++ [fst (answer line w)]) (snd (answer line w))
  end.
Proof.
  unfold main_loop. rewrite dispatcher.main_loop_equation_1.
  unfold dispatcher.main_loop_unfold_clause_1. simpl.
  destruct (dispatcher.readline stdin) as [[|c l] r]; reflexivity.
Qed.

(** The loop answers the lines it reads, in order, and nothing else. *)
Lemma main_loop_answers stdin :
  forall out w,
    main_loop stdin out w =
    (out ++ fst (answers (dispatcher.request_lines stdin) w),
     snd (answers (dispatcher.request_lines stdin) w)).
Proof.
  induction stdin as [stdin IH] using (well_founded_induction
    (Wf_nat.well_founded_ltof _ (@List.length N))).
  intros out w. rewrite main_loop_unfold, request_lines_unfold.
  destruct (dispatcher.readline stdin) as [[|c l] r] eqn:E.
  - simpl. rewrite List.app_nil_r. reflexivity.
  - rewrite IH.
    2:{ unfold Wf_nat.ltof.
        eapply dispatcher.readline_shorter; [exact E|discriminate]. }
    unfold answers, answer. simpl.
    destruct (dispatcher.answer _ _ (c :: l) w) as [t w1]. simpl.
    destruct (dispatcher.answers _ _ _ w1) as [ts w2]. simpl.
    rewrite <- List.app_assoc. reflexivity.
Qed.

Lemma main_answers stdin w :
  dispatcher.main handle_tool_call list_tools stdin w =
  (inr tt, fst (answers (dispatcher.request_lines stdin) w),
   snd (answers (dispatcher.request_lines stdin) w)).
Proof.
  unfold dispatcher.main. fold main_loop. rewrite main_loop_answers.
  reflexivity.
Qed.

Lemma answers_length lines : forall w,
  List.length (fst (answers lines w)) = List.length lines.
Proof.
  induction lines as [|l ls IH]; intros w; simpl; [reflexivity|].
  unfold answers in *. simpl.
  destruct (dispatcher.answer _ _ l w) as [t w1].
  specialize (IH w1).
  destruct (dispatcher.answers _ _ ls w1) as [ts w2]. simpl in *. lia.
Qed.

Lemma answers_app l1 : forall l2 w,
  answers (l1 ++ l2) w =
  (fst (answers l1 w) ++ fst (answers l2 (snd (answers l1 w))),
   snd (answers l2 (snd (answers l1 w)))).
Proof.
  induction l1 as [|l ls IH]; intros l2 w; simpl.
  - destruct (answers l2 w); reflexivity.
  - unfold answers in *. simpl.
    destruct (dispatcher.answer _ _ l w) as [t w1].
    rewrite IH.
    destruct (dispatcher.answers _ _ ls w1) as [ts w2]. simpl.
    reflexivity.
Qed.

(** A line in the middle of the stream: the lines before it are answered,
    then the line, then the loop goes on with what follows. *)
Lemma main_through_line pre line rest w :
  (pre = [] \/ exists pre', pre = pre' ++ [10%N]) ->
  line <> [] ->
  dispatcher.readline (line ++ rest) = (line, rest) ->
  dispatcher.main handle_tool_call list_tools (pre ++ line ++ rest) w =
  let '(_, out1, w1) := dispatcher.main handle_tool_call list_tools pre w in
  let (text, w2) := answer line w1 in
  let '(_, out3, w3) := dispatcher.main handle_tool_call list_tools rest w2 in
  (inr tt, out1 ++ text :: out3, w3).
Proof.
  intros Hpre Hne Hline. rewrite !main_answers.
  rewrite request_lines_app by assumption.
  rewrite (request_lines_unfold (line ++ rest)), Hline.
  destruct line as [|c line]; [congruence|].
  rewrite answers_app.
  set (a1 := answers (dispatcher.request_lines pre) w).
  destruct a1 as [out1 w1]. simpl.
  unfold answers, answer at 1. simpl.
  unfold answer.
  destruct (dispatcher.answer handle_tool_call list_tools (c :: line) w1)
    as [text w2].
  rewrite main_answers. fold answers.
  destruct (answers (dispatcher.request_lines rest) w2) as [out3 w3].
  reflexivity.
Qed.

(** What [main] writes once it has read some complete lines is what it
    writes for those lines alone; the rest of the stream adds to it. *)
Lemma main_app pre rest w :
  (pre = [] \/ exists pre', pre = pre' ++ [10%N]) ->
  dispatcher.main handle_tool_call list_tools (pre ++ rest) w =
  let '(_, out1, w1) := dispatcher.main handle_tool_call list_tools pre w in
  let '(_, out2, w2) := dispatcher.main handle_tool_call list_tools rest w1 in
  (inr tt, out1 ++ out2, w2).
Proof.
  intros Hpre. rewrite !main_answers.
  rewrite request_lines_app by assumption.
  rewrite answers_app.
  destruct (answers (dispatcher.request_lines pre) w) as [out1 w1].
  cbn [fst snd].
  destruct (answers (dispatcher.request_lines rest) w1) as [out2 w2].
  reflexivity.
Qed.

(** Every answer is one line: [json.dumps] writes no newline, [print] adds
    the one that ends it. *)
Lemma answers_one_line lines : forall w,
  Forall (fun text => ~ In 10%N text) (fst (answers lines w)).
Proof.
  induction lines as [|l ls IH]; intros w; [constructor|].
  unfold answers in *. cbn [dispatcher.answers].
  unfold dispatcher.answer at 1.
  destruct (dispatcher.respond handle_tool_call list_tools l w)
    as [response w1].
  specialize (IH w1).
  destruct (dispatcher.answers handle_tool_call list_tools ls w1)
    as [ts w2].
  cbn [fst] in *. constructor; [|exact IH].
  apply json_facts.plain_no_newline, json_facts.dumps_plain.
Qed.

End Loop.
End loop_facts.

(** * Properties of one request *)

Module request_facts.
Import py.

(** The fields [main] reads off a decoded request. *)
Definition method_of (request : list (str * value)) : value :=
  match dict_lookup request (lit "method") with
  | Some v => v
  | None => PyNone
  end.

Definition params_of (request : list (str * value)) : value :=
  match dict_lookup request (lit "params") with
  | Some v => v
  | None => PyDict []
  end.

Definition id_of (request : list (str * value)) : value :=
  match dict_lookup request (lit "id") with
  | Some v => v
  | None => PyInt 1
  end.

Definition name_of (params : list (str * value)) : value :=
  match dict_lookup params (lit "name") with
  | Some v => v
  | None => PyNone
  end.

Definition arguments_of (params : list (str * value)) : value :=
  match dict_lookup params (lit "arguments") with
  | Some v => v
  | None => PyDict []
  end.

Definition is_dict (v : value) : bool :=
  match v with
  | PyDict _ => true
  | _ => false
  end.

(** The [id] member of a response. *)
Definition response_id (response : value) : option value :=
  field response "id".

(** The [code] of the [error] member of a response. *)
Definition error_code (response : value) : option value :=
  match field response "error" with
  | Some e => field e "code"
  | None => None
  end.

Ltac run :=
  unfold dispatcher.respond, dispatcher.serve, dispatcher.loads, bind, lift,
    ret, raise, try_except, get in *.

Section Request.
Context {rt : Runtime}.
Variable handle_tool_call : value -> value -> M value.
Variable list_tools : value.

Let respond := dispatcher.respond handle_tool_call list_tools.

Lemma respond_invalid_json line w :
  json.loads line = None ->
  respond line w =
  (dispatcher.error_response (-32700) (lit "Parse error"), w).
Proof.
  intros H. unfold respond. run. rewrite H. reflexivity.
Qed.

Lemma respond_not_object line v w :
  json.loads line = Some v -> is_dict v = false ->
  respond line w =
  (dispatcher.error_response (-32603) (exn_str (AttributeError v "get")), w).
Proof.
  intros H Hd. unfold respond. run. rewrite H.
  destruct v; simpl in Hd; try discriminate; reflexivity.
Qed.

Lemma respond_unknown_method line request w :
  json.loads line = Some (PyDict request) ->
  eq_lit (method_of request) "tools/call" = false ->
  eq_lit (method_of request) "tools/list" = false ->
  respond line w =
  (dispatcher.success_response
     (PyDict [(lit "error",
               PyStr (lit "Unknown method: " ++ to_str (method_of request)))])
     (id_of request), w).
Proof.
  intros H H1 H2. unfold respond. run. rewrite H.
  fold (method_of request). rewrite H1, H2. reflexivity.
Qed.

Lemma respond_tools_list line request w :
  json.loads line = Some (PyDict request) ->
  eq_lit (method_of request) "tools/list" = true ->
  respond line w =
  (dispatcher.success_response (PyDict [(lit "tools", list_tools)])
     (id_of request), w).
Proof.
  intros H H1. unfold respond. run. rewrite H.
  fold (method_of request).
  assert (H2 : eq_lit (method_of request) "tools/call" = false).
  { apply py_facts.eq_lit_true in H1. rewrite H1. reflexivity. }
  rewrite H2, H1. reflexivity.
Qed.

Lemma respond_tools_call line request params w :
  json.loads line = Some (PyDict request) ->
  eq_lit (method_of request) "tools/call" = true ->
  params_of request = PyDict params ->
  respond line w =
  match handle_tool_call (name_of params) (arguments_of params) w with
  | (inr result, w') =>
      (dispatcher.success_response result (id_of request), w')
  | (inl (JSONDecodeError _), w') =>
      (dispatcher.error_response (-32700) (lit "Parse error"), w')
  | (inl (Exception message), w') =>
      (dispatcher.error_response (-32603) message, w')
  end.
Proof.
  intros H H1 H2. unfold respond. run. rewrite H.
  fold (method_of request). rewrite H1.
  fold (params_of request). rewrite H2.
  fold (name_of params). fold (arguments_of params).
  destruct (handle_tool_call _ _ w) as [[e|r] w']; reflexivity.
Qed.

Lemma respond_params_not_dict line request w :
  json.loads line = Some (PyDict request) ->
  eq_lit (method_of request) "tools/call" = true ->
  is_dict (params_of request) = false ->
  respond line w =
  (dispatcher.error_response (-32603)
     (exn_str (AttributeError (params_of request) "get")), w).
Proof.
  intros H H1 H2. unfold respond. run. rewrite H.
  fold (method_of request). rewrite H1.
  fold (params_of request).
  destruct (params_of request); simpl in H2; try discriminate; reflexivity.
Qed.

End Request.
End request_facts.

(** * Properties of the two [handle_tool_call] *)

Module tool_call_facts.
Import py shared request_facts.

Section Handlers.
Context {rt : Runtime}.
Variable HAS_REQUESTS : bool.
Variable api_current_weather : value -> value -> M value.
Variable api_forecast : value -> value -> value -> M value.
Variable api_alerts : value -> M value.
Variable api_air_quality : value -> M value.

Let weather_handle :=
  weather_mcp_server.handle_tool_call HAS_REQUESTS api_current_weather
    api_forecast api_alerts api_air_quality.

(** A [try] whose handler returns never raises. *)
Lemma try_except_returns {A} (body : M A) (handler : exn -> A) w :
  exists r w',
    try_except body (fun e => ret (handler e)) w = (inr r, w').
Proof.
  unfold try_except, ret. destruct (body w) as [[e|a] w']; eauto.
Qed.

Lemma registered_false name :
  mock_weather_server.registered name = false ->
  eq_lit name "get_current_weather" = false
  /\ eq_lit name "get_forecast" = false
  /\ eq_lit name "get_alerts" = false
  /\ eq_lit name "get_air_quality" = false.
Proof.
  unfold mock_weather_server.registered.
  rewrite !orb_false_iff. tauto.
Qed.

Lemma weather_unknown_tool name arguments w :
  weather_mcp_server.registered name = false ->
  weather_handle name arguments w =
  (inr (error_dict (lit "Unknown tool: " ++ to_str name)), w).
Proof.
  intros H. apply registered_false in H. destruct H as (H1 & H2 & H3 & H4).
  unfold weather_handle, weather_mcp_server.handle_tool_call,
    weather_mcp_server.try_body, try_except.
  rewrite H1, H2, H3, H4. reflexivity.
Qed.

Lemma weather_never_raises name arguments w :
  exists r w', weather_handle name arguments w = (inr r, w').
Proof.
  unfold weather_handle, weather_mcp_server.handle_tool_call.
  apply try_except_returns.
Qed.

Lemma mock_unknown_tool name d w :
  mock_weather_server.registered name = false ->
  mock_weather_server.handle_tool_call name (PyDict d) w =
  (inr (error_dict (lit "Unknown tool: " ++ to_str name)), w).
Proof.
  intros H. apply registered_false in H. destruct H as (H1 & H2 & H3 & H4).
  unfold mock_weather_server.handle_tool_call, mock_weather_server.try_body,
    try_except, bind, lift, get.
  rewrite H1, H2, H3, H4. reflexivity.
Qed.

Lemma mock_never_raises_on_dict name d w :
  exists r w',
    mock_weather_server.handle_tool_call name (PyDict d) w = (inr r, w').
Proof.
  unfold mock_weather_server.handle_tool_call, bind, lift, get.
  apply try_except_returns.
Qed.

Lemma mock_arguments_not_dict name arguments w :
  is_dict arguments = false ->
  mock_weather_server.handle_tool_call name arguments w =
  (inl (AttributeError arguments "get"), w).
Proof.
  intros H. unfold mock_weather_server.handle_tool_call, bind, lift, get.
  destruct arguments; simpl in H; try discriminate; reflexivity.
Qed.

End Handlers.
End tool_call_facts.

(** * Properties of the forecast tools *)

Module forecast_facts.
Import py shared.

Lemma lookup_set_same d k v : dict_lookup (dict_set d k v) k = Some v.
Proof.
  induction d as [|[k' v'] d IH]; simpl.
  - rewrite py_facts.str_eqb_refl. reflexivity.
  - destruct (str_eqb k' k) eqn:E; simpl; rewrite E; auto.
Qed.

Lemma lookup_set_other d k v k' :
  k <> k' -> dict_lookup (dict_set d k v) k' = dict_lookup d k'.
Proof.
  intros Hne. induction d as [|[k0 v0] d IH]; simpl.
  - apply py_facts.str_eqb_neq in Hne. rewrite Hne. reflexivity.
  - destruct (str_eqb k0 k) eqn:E; simpl.
    + apply py_facts.str_eqb_eq in E. subst k0.
      apply py_facts.str_eqb_neq in Hne. rewrite Hne. reflexivity.
    + destruct (str_eqb k0 k'); auto.
Qed.

(** The three numeric members the unit conversion touches are floats. *)
Definition floaty (weather : list (str * value)) : bool :=
  match dict_lookup weather (lit "temperature"),
        dict_lookup weather (lit "feels_like"),
        dict_lookup weather (lit "wind_speed") with
  | Some (PyFloat _), Some (PyFloat _), Some (PyFloat _) => true
  | _, _, _ => false
  end.

Lemma floaty_inv weather :
  floaty weather = true ->
  exists t f s,
    dict_lookup weather (lit "temperature") = Some (PyFloat t)
    /\ dict_lookup weather (lit "feels_like") = Some (PyFloat f)
    /\ dict_lookup weather (lit "wind_speed") = Some (PyFloat s).
Proof.
  unfold floaty. intros H.
  destruct (dict_lookup weather (lit "temperature")) as [[]|];
    try discriminate H.
  destruct (dict_lookup weather (lit "feels_like")) as [[]|];
    try discriminate H.
  destruct (dict_lookup weather (lit "wind_speed")) as [[]|];
    try discriminate H.
  do 3 eexists. repeat split; reflexivity.
Qed.

Lemma floaty_intro weather t f s :
  dict_lookup weather (lit "temperature") = Some (PyFloat t) ->
  dict_lookup weather (lit "feels_like") = Some (PyFloat f) ->
  dict_lookup weather (lit "wind_speed") = Some (PyFloat s) ->
  floaty weather = true.
Proof. unfold floaty. intros -> -> ->. reflexivity. Qed.

Section Forecast.
Context {rt : Runtime}.

Lemma update_float weather k x (op : value -> result value) y :
  dict_lookup weather (lit k) = Some (PyFloat x) ->
  op (PyFloat x) = inr (PyFloat y) ->
  update weather k op = inr (dict_set weather (lit k) (PyFloat y)).
Proof.
  intros H Hop. unfold update, getitem. rewrite H, Hop. reflexivity.
Qed.

Lemma convert_units_floaty weather units :
  floaty weather = true ->
  exists weather',
    convert_units weather units = inr weather' /\ floaty weather' = true.
Proof.
  intros H. destruct (floaty_inv _ H) as (t & f & s & Ht & Hf & Hs).
  unfold convert_units.
  assert (Ntf : lit "temperature" <> lit "feels_like") by (vm_compute; discriminate).
  assert (Ntw : lit "temperature" <> lit "wind_speed") by (vm_compute; discriminate).
  assert (Nfw : lit "feels_like" <> lit "wind_speed") by (vm_compute; discriminate).
  destruct (eq_lit units "imperial"); [|destruct (eq_lit units "standard")].
  - erewrite update_float; [| exact Ht | reflexivity].
    erewrite update_float;
      [| rewrite lookup_set_other by assumption; exact Hf | reflexivity].
    erewrite update_float;
      [| rewrite !lookup_set_other by (assumption || congruence); exact Hs
       | reflexivity].
    eexists. split; [reflexivity|].
    eapply floaty_intro.
    + rewrite !lookup_set_other by congruence. apply lookup_set_same.
    + rewrite lookup_set_other by congruence. apply lookup_set_same.
    + apply lookup_set_same.
  - erewrite update_float; [| exact Ht | reflexivity].
    erewrite update_float;
      [| rewrite lookup_set_other by assumption; exact Hf | reflexivity].
    erewrite update_float;
      [| rewrite !lookup_set_other by (assumption || congruence); exact Hs
       | reflexivity].
    eexists. split; [reflexivity|].
    eapply floaty_intro.
    + rewrite !lookup_set_other by congruence. apply lookup_set_same.
    + rewrite lookup_set_other by congruence. apply lookup_set_same.
    + apply lookup_set_same.
  - eauto.
Qed.

(** A computation that returns, whatever the world, a result with the
    property [P]. *)
Definition yields {A} (P : A -> Prop) (m : M A) : Prop :=
  forall w, exists a w', m w = (inr a, w') /\ P a.

Definition anything {A} (a : A) : Prop := True.

Lemma yields_ret {A} (P : A -> Prop) (a : A) : P a -> yields P (ret a).
Proof. intros H w. unfold ret. eauto. Qed.

Lemma yields_bind {A B} (Q : A -> Prop) (P : B -> Prop) (m : M A)
  (k : A -> M B) :
  yields Q m -> (forall a, Q a -> yields P (k a)) -> yields P (bind m k).
Proof.
  intros Hm Hk w. unfold bind. destruct (Hm w) as (a & w1 & -> & Ha).
  apply Hk. exact Ha.
Qed.

Lemma yields_bind_lift {A B} (P : B -> Prop) (r : result A) (k : A -> M B) a :
  r = inr a -> yields P (k a) -> yields P (bind (lift r) k).
Proof. intros -> Hk w. unfold bind, lift. apply Hk. Qed.

Lemma yields_random : yields anything random.random.
Proof.
  intros w. unfold random.random. destruct (stdlib_random w).
  unfold anything. eauto.
Qed.

Lemma yields_uniform a b : yields anything (random.uniform a b).
Proof.
  unfold random.uniform. eapply yields_bind; [apply yields_random|].
  intros r _. apply yields_ret. exact I.
Qed.

Lemma yields_randbelow n : yields anything (random.randbelow n).
Proof.
  intros w. unfold random.randbelow. destruct (stdlib_randbelow n w).
  unfold anything. eauto.
Qed.

Lemma yields_randint a b : yields anything (random.randint a b).
Proof.
  unfold random.randint. eapply yields_bind; [apply yields_randbelow|].
  intros r _. apply yields_ret. exact I.
Qed.

Lemma yields_choice x seq : yields anything (random.choice (x :: seq)).
Proof.
  unfold random.choice. eapply yields_bind; [apply yields_randbelow|].
  intros r _. apply yields_ret. exact I.
Qed.

Lemma yields_now : yields anything datetime.now.
Proof.
  intros w. unfold datetime.now. destruct (stdlib_now w).
  unfold anything. eauto.
Qed.

Ltac yields :=
  repeat first
    [ eapply yields_bind_lift; [reflexivity|cbn beta]
    | eapply yields_bind;
      [ first [ apply yields_uniform | apply yields_randint
              | apply yields_choice | apply yields_now
              | apply yields_random ]
      | intros ? _ ] ].

Lemma mock_forecast_day_returns t s i :
  yields anything (mock_weather_server.forecast_day (PyFloat t) (PyFloat s) i).
Proof.
  unfold mock_weather_server.forecast_day. yields.
  apply yields_ret. exact I.
Qed.

Lemma weather_forecast_day_returns t s i :
  yields anything (weather_mcp_server.forecast_day (PyFloat t) (PyFloat s) i).
Proof.
  unfold weather_mcp_server.forecast_day. yields.
  apply yields_ret. exact I.
Qed.

(** A loop whose body returns makes one item per turn. *)
Lemma for_range_length (body : Z -> M value) n :
  (forall i, yields anything (body i)) ->
  forall i, yields (fun l => List.length l = n) (for_range n i body).
Proof.
  intros Hbody. induction n as [|n IH]; intros i; simpl.
  - apply yields_ret. reflexivity.
  - eapply yields_bind; [apply Hbody|]. intros v _.
    eapply yields_bind; [apply IH|]. intros l Hl.
    apply yields_ret. simpl. congruence.
Qed.

(** The weather a forecast starts from: a [dict] whose temperature and
    wind speed are floats. *)
Definition base_weather (v : value) : Prop :=
  exists weather t s,
    v = PyDict weather
    /\ dict_lookup weather (lit "temperature") = Some (PyFloat t)
    /\ dict_lookup weather (lit "wind_speed") = Some (PyFloat s).

Lemma floaty_base_weather weather :
  floaty weather = true -> base_weather (PyDict weather).
Proof.
  intros H. destruct (floaty_inv _ H) as (t & f & s & Ht & Hf & Hs).
  exists weather, t, s. auto.
Qed.

Lemma table_lookup_in t k r :
  mock_weather_server.table_lookup t k = Some r -> In r (map snd t).
Proof.
  induction t as [|[k' r'] t IH]; simpl; [discriminate|].
  destruct (str_eqb k' k); [intros H; inversion H; auto | auto].
Qed.

Lemma find_row_in t k r :
  weather_mcp_server.find_row t k = Some r -> In r (map snd t).
Proof.
  induction t as [|[k' r'] t IH]; simpl; [discriminate|].
  destruct (str_eqb _ k); [intros H; inversion H; auto | auto].
Qed.

Lemma mock_table_floaty k r :
  mock_weather_server.table_lookup mock_weather_server.MOCK_WEATHER_DATA k
  = Some r -> floaty r = true.
Proof.
  intros H. apply table_lookup_in in H. revert r H.
  apply forallb_forall. vm_compute. reflexivity.
Qed.

Lemma weather_table_floaty k r :
  weather_mcp_server.find_row weather_mcp_server.MOCK_WEATHER_DATA k
  = Some r -> floaty r = true.
Proof.
  intros H. apply find_row_in in H. revert r H.
  apply forallb_forall. vm_compute. reflexivity.
Qed.

Lemma timestamp_keeps_floaty weather ts :
  floaty weather = true ->
  floaty (dict_set weather (lit "timestamp") ts) = true.
Proof.
  intros H. destruct (floaty_inv _ H) as (t & f & s & Ht & Hf & Hs).
  eapply floaty_intro; rewrite lookup_set_other; eauto;
    vm_compute; discriminate.
Qed.

(** [get_current_weather] of the mock server, on a text. *)
Lemma mock_current_weather_returns location units :
  yields base_weather
    (mock_weather_server.get_current_weather (PyStr location) units).
Proof.
  unfold mock_weather_server.get_current_weather.
  eapply yields_bind_lift; [reflexivity|cbn beta].
  eapply (yields_bind (fun weather => floaty weather = true)).
  - destruct (mock_weather_server.table_lookup _ _) as [r|] eqn:E.
    + apply yields_ret. eapply mock_table_floaty. exact E.
    + yields. apply yields_ret. reflexivity.
  - intros weather Hw.
    destruct (convert_units_floaty weather units Hw) as (weather' & E & Hw').
    eapply yields_bind_lift; [exact E|cbn beta].
    eapply yields_bind; [apply yields_now|]. intros t _.
    apply yields_ret. apply floaty_base_weather.
    apply timestamp_keeps_floaty. exact Hw'.
Qed.

(** [get_fallback_weather] of the weather server, on a text. *)
Lemma fallback_weather_floaty location units :
  exists weather,
    weather_mcp_server.get_fallback_weather (PyStr location) units
    = inr weather
    /\ floaty weather = true.
Proof.
  unfold weather_mcp_server.get_fallback_weather. cbn [lower].
  apply convert_units_floaty.
  destruct (weather_mcp_server.find_row _ _) as [r|] eqn:E.
  - eapply weather_table_floaty. exact E.
  - reflexivity.
Qed.

Lemma mock_forecast_length location days units :
  yields (fun v => exists l, v = PyList l /\ List.length l = Z.to_nat days)
    (mock_weather_server.get_forecast (PyStr location) (PyInt days) units).
Proof.
  unfold mock_weather_server.get_forecast.
  eapply yields_bind; [apply mock_current_weather_returns|].
  intros v (weather & t & s & -> & Ht & Hs).
  eapply yields_bind_lift; [unfold get; rewrite Ht; reflexivity|cbn beta].
  eapply yields_bind_lift; [unfold get; rewrite Hs; reflexivity|cbn beta].
  eapply yields_bind_lift; [reflexivity|cbn beta].
  eapply yields_bind.
  - apply for_range_length. intros i. apply mock_forecast_day_returns.
  - intros l Hl. apply yields_ret. eauto.
Qed.

Section Fallback.
Variable HAS_REQUESTS : bool.
Variable api_current_weather : value -> value -> M value.
Variable api_forecast : value -> value -> value -> M value.
Variable api_alerts : value -> M value.
Variable api_air_quality : value -> M value.

Lemma fallback_forecast_length location days units :
  weather_mcp_server.FALLBACK_MODE HAS_REQUESTS = true ->
  yields (fun v => exists l,
              v = PyList l /\ List.length l = Z.to_nat (Z.min days 3))
    (weather_mcp_server.get_forecast HAS_REQUESTS api_forecast
       (PyStr location) (PyInt days) units).
Proof.
  intros Hfb. unfold weather_mcp_server.get_forecast. rewrite Hfb.
  destruct (fallback_weather_floaty location units) as (weather & E & Hw).
  destruct (floaty_inv _ Hw) as (t & f & s & Ht & Hf & Hs).
  eapply yields_bind_lift; [exact E|cbn beta].
  eapply yields_bind_lift; [unfold get; rewrite Ht; reflexivity|cbn beta].
  eapply yields_bind_lift; [unfold get; rewrite Hs; reflexivity|cbn beta].
  assert (Hmin : min2 (PyInt days) (PyInt 3) = inr (PyInt (Z.min days 3))).
  { unfold min2, lt_number, as_number, number_lt.
    destruct (Z.ltb_spec 3 days).
    - rewrite Z.min_r by lia. reflexivity.
    - rewrite Z.min_l by lia. reflexivity. }
  eapply yields_bind_lift; [exact Hmin|cbn beta].
  eapply yields_bind_lift; [reflexivity|cbn beta].
  eapply yields_bind.
  - apply for_range_length. intros i. apply weather_forecast_day_returns.
  - intros l Hl. apply yields_ret. eauto.
Qed.

End Fallback.
End Forecast.
End forecast_facts.

(** * A runtime to run the servers on concrete input

    A deterministic stand-in for the interpreter's surroundings: draws come
    from a counter, the clock ticks once per reading, there is no network
    and no environment variable is set. *)

Module fixture.
Import py.

Definition runtime : Runtime := {|
  isprintable := fun _ => true;
  unicode_lower := fun s => s;
  decode_error := fun _ => lit "Expecting value";
  getenv := fun _ => None;
  world := nat;
  stdlib_random := fun w => (0.75%float, S w);
  stdlib_randbelow := fun _ w => (Z.of_nat w, S w);
  stdlib_now := fun w => (1700000000000000 + Z.of_nat w, S w)%Z;
  isoformat := fun t => int_str t;
  strftime := fun t _ => int_str (t / 86400000000)
|}.

Definition no_network1 : value -> @M runtime value :=
  fun _ => raise (Exception (lit "network is unreachable")).
Definition no_network2 : value -> value -> @M runtime value :=
  fun _ _ => raise (Exception (lit "network is unreachable")).
Definition no_network3 : value -> value -> value -> @M runtime value :=
  fun _ _ _ => raise (Exception (lit "network is unreachable")).

(** The weather server of this runtime: [requests] is installed and no API
    key is set, so it runs in fallback mode. *)
Definition weather_respond : str -> nat -> value * nat :=
  @weather_mcp_server.respond runtime true no_network2 no_network3
    no_network1 no_network1.

Definition weather_main : str -> nat -> result unit * list str * nat :=
  @weather_mcp_server.main runtime true no_network2 no_network3
    no_network1 no_network1.

Definition mock_respond : str -> nat -> value * nat :=
  @mock_weather_server.respond runtime.

Definition mock_main : str -> nat -> result unit * list str * nat :=
  @mock_weather_server.main runtime.

(** A request as a client writes it: one line of JSON and its newline. *)
Definition request_line (method : string) (params : value) (id : Z) : str :=
  json.dumps (PyDict [(lit "jsonrpc", PyStr (lit "2.0"));
                      (lit "method", PyStr (lit method));
                      (lit "params", params);
                      (lit "id", PyInt id)]) ++ [10%N].

Definition tool_call (name : string) (arguments : value) : value :=
  PyDict [(lit "name", PyStr (lit name)); (lit "arguments", arguments)].

End fixture.

(** * The claims about the dispatcher *)

(** The response to a line that is not JSON. *)
Definition parse_error : py.value :=
  dispatcher.error_response (-32700) (py.lit "Parse error").

(** A request of the data model: its [params] is a mapping, and so is the
    [arguments] member of [params] (each defaults to an empty mapping). *)
Definition well_typed (request : list (py.str * py.value)) : bool :=
  match request_facts.params_of request with
  | py.PyDict params => request_facts.is_dict (request_facts.arguments_of params)
  | _ => false
  end.

(** The [name] members of the descriptors of a tool list. *)
Definition tool_names (tools : py.value) : list py.value :=
  match tools with
  | py.PyList l =>
      map (fun t => match py.field t "name" with
                    | Some n => n
                    | None => py.PyNone
                    end) l
  | _ => []
  end.

Section DispatcherClaims.
Import py shared request_facts.
Context {rt : Runtime}.
Variable HAS_REQUESTS : bool.
Variable api_current_weather : value -> value -> M value.
Variable api_forecast : value -> value -> value -> M value.
Variable api_alerts : value -> M value.
Variable api_air_quality : value -> M value.

Let weather_respond : str -> world -> value * world :=
  weather_mcp_server.respond HAS_REQUESTS api_current_weather api_forecast
    api_alerts api_air_quality.

Let weather_main : str -> world -> result unit * list str * world :=
  weather_mcp_server.main HAS_REQUESTS api_current_weather api_forecast
    api_alerts api_air_quality.

Let weather_handle : value -> value -> M value :=
  weather_mcp_server.handle_tool_call HAS_REQUESTS api_current_weather
    api_forecast api_alerts api_air_quality.

Let weather_try_body : value -> value -> M value :=
  weather_mcp_server.try_body HAS_REQUESTS api_current_weather
    api_forecast api_alerts api_air_quality.

Let mock_respond : str -> world -> value * world :=
  mock_weather_server.respond.

Let mock_main : str -> world -> result unit * list str * world :=
  mock_weather_server.main.

Lemma mock_respond_fold :
  dispatcher.respond mock_weather_server.handle_tool_call
    mock_weather_server.list_tools = mock_respond.
Proof. reflexivity. Qed.

Lemma weather_respond_fold :
  dispatcher.respond weather_handle weather_mcp_server.list_tools
  = weather_respond.
Proof. reflexivity. Qed.








(** C10: where the [arguments] mapping of a call to a registered tool has
    no [location], [handle_tool_call] calls the tool with the location
    "London"; the missing member raises nothing and is no error of its
    own.  Both servers, each of the four tools. *)
Theorem missing_location_defaults_to_London d :
  dict_lookup d (lit "location") = None ->
  let London := PyStr (lit "London") in
  let arguments := PyDict d in
  let member k default :=
    match dict_lookup d (lit k) with
    | Some v => v
    | None => default
    end in
  let catching body :=
    try_except body (fun e => ret (error_dict (exn_str e))) in
  let mock_units := member "units" mock_weather_server.WEATHER_UNITS in
  let units := member "units" (PyStr (lit "metric")) in
  let days := member "days" (PyInt 5) in
  (forall w,
      mock_weather_server.handle_tool_call
        (PyStr (lit "get_current_weather")) arguments w
      = catching (mock_weather_server.get_current_weather London mock_units) w
      /\ mock_weather_server.handle_tool_call
           (PyStr (lit "get_forecast")) arguments w
         = catching (mock_weather_server.get_forecast London days mock_units) w
      /\ mock_weather_server.handle_tool_call
           (PyStr (lit "get_alerts")) arguments w
         = catching (mock_weather_server.get_alerts London) w
      /\ mock_weather_server.handle_tool_call
           (PyStr (lit "get_air_quality")) arguments w
         = catching (mock_weather_server.get_air_quality London) w)
  /\
  (forall w,
      weather_handle (PyStr (lit "get_current_weather")) arguments w
      = catching
          (weather_mcp_server.get_current_weather HAS_REQUESTS
             api_current_weather London units) w
      /\ weather_handle (PyStr (lit "get_forecast")) arguments w
         = catching
             (bind (weather_mcp_server.get_forecast HAS_REQUESTS api_forecast
                      London days units)
                (fun result =>
                   ret (if truthy result then result
                        else error_dict (lit "No forecast data available")))) w
      /\ weather_handle (PyStr (lit "get_alerts")) arguments w
         = catching
             (weather_mcp_server.get_alerts HAS_REQUESTS api_alerts London) w
      /\ weather_handle (PyStr (lit "get_air_quality")) arguments w
         = catching
             (weather_mcp_server.get_air_quality HAS_REQUESTS api_air_quality
                London) w).
Proof.
  intros Hloc London arguments member catching mock_units units days.
  split; intros w.
  - unfold mock_weather_server.handle_tool_call, mock_weather_server.try_body,
      catching, try_except, bind, lift, get, arguments.
    rewrite Hloc. cbn [eq_lit]. repeat split.
  - unfold weather_handle, weather_mcp_server.handle_tool_call,
      weather_mcp_server.try_body, catching, try_except, bind, lift, get,
      arguments.
    rewrite Hloc. repeat split.
Qed.



End DispatcherClaims.

(** * The claims on concrete requests

    Each statement below is one of the theorems above at a request written
    out in full, on the servers of [fixture]. *)

Module examples.
Import py shared request_facts.

Definition ping : str := fixture.request_line "ping" (PyDict []) 2.

Definition pong : value :=
  dispatcher.success_response (error_dict (lit "Unknown method: ping"))
    (PyInt 2).

Definition not_json : str := lit "{not json" ++ [10%N].

Definition bare_number : str := lit "5" ++ [10%N].

Definition no_attribute_get : value :=
  dispatcher.error_response (-32603)
    (lit "'int' object has no attribute 'get'").

Definition tides_call : str :=
  fixture.request_line "tools/call"
    (fixture.tool_call "get_tides" (PyDict [])) 8.

Definition forecast_call (days : value) : str :=
  fixture.request_line "tools/call"
    (fixture.tool_call "get_forecast" (PyDict [(lit "days", days)])) 9.

Definition zurich_params : list (str * value) :=
  [(lit "name", PyStr (lit "get_current_weather"));
   (lit "arguments",
    PyDict [(lit "location", PyStr [90; 252; 114; 105; 99; 104]%N);
            (lit "days", PyInt 3);
            (lit "latitude", PyFloat 47.37);
            (lit "tags", PyList [PyBool true; PyNone; PyFloat (-0.5)])])].

End examples.

Import py shared request_facts.

Ltac keys_differ :=
  repeat constructor; cbn [In map fst];
  intros Hin; repeat (destruct Hin as [Hin|Hin]; [discriminate Hin|]);
  exact Hin.

Ltac solve_portable :=
  cbn [fst snd];
  lazymatch goal with
  | |- json_facts.portable (PyDict _) =>
      apply json_facts.portable_dict; split;
      [ keys_differ
      | repeat (apply Forall_cons; [split; [reflexivity | solve_portable]|]);
        apply Forall_nil ]
  | |- json_facts.portable (PyList _) =>
      apply json_facts.portable_list;
      repeat (apply Forall_cons; [solve_portable|]); apply Forall_nil
  | |- json_facts.portable (PyFloat _) =>
      split; [reflexivity | vm_compute; reflexivity]
  | |- json_facts.portable (PyStr _) => reflexivity
  | |- json_facts.portable _ => exact I
  end.








(** C10 on a call of [get_current_weather] with no arguments: both servers
    answer with the weather of London. *)
Lemma current_weather_without_location_is_that_of_London :
  let London := PyStr (lit "London, UK") in
  (exists weather w',
      @mock_weather_server.handle_tool_call fixture.runtime
        (PyStr (lit "get_current_weather")) (PyDict []) 0%nat
      = (inr (PyDict weather), w')
      /\ dict_lookup weather (lit "location") = Some London
      /\ dict_lookup weather (lit "error") = None)
  /\ (exists weather w',
         @weather_mcp_server.handle_tool_call fixture.runtime true
           fixture.no_network2 fixture.no_network3 fixture.no_network1
           fixture.no_network1
           (PyStr (lit "get_current_weather")) (PyDict []) 0%nat
         = (inr (PyDict weather), w')
         /\ dict_lookup weather (lit "location") = Some London
         /\ dict_lookup weather (lit "error") = None).
Proof.
  intros London.
  destruct (missing_location_defaults_to_London
              (rt := fixture.runtime) true fixture.no_network2
              fixture.no_network3 fixture.no_network1 fixture.no_network1
              [] eq_refl) as [Hm Hw].
  split.
  - destruct (Hm 0%nat) as (E & _). rewrite E.
    vm_compute. do 2 eexists. repeat split.
  - destruct (Hw 0%nat) as (E & _).
    unfold weather_mcp_server.handle_tool_call in *. rewrite E.
    vm_compute. do 2 eexists. repeat split.
Defined.




(** * The OpenWeatherMap halves of the weather server

    What [weather_mcp_server.py] does when it has an API key and the
    [requests] library: each tool asks the service, reads the members it
    needs off the decoded reply, and falls back where anything raises.
    First the Python operations these halves use on a reply. *)

Module py_reply.
Import py.

Section Reply.
Context {rt : Runtime}.

Definition not_subscriptable (x : value) : exn :=
  TypeError (lit "'" ++ type_name x ++ lit "' object is not subscriptable").

(** [x["k"]]: a member of a [dict]; no other value takes a text between
    the brackets. *)
Definition getitem_key (x : value) (k : string) : result value :=
  match x with
  | PyDict d => getitem d k
  | PyList _ =>
      inl (TypeError (lit "list indices must be integers or slices, not str"))
  | PyStr _ =>
      inl (TypeError (lit "string indices must be integers, not 'str'"))
  | _ => inl (not_subscriptable x)
  end.

(** [x[0]] *)
Definition getitem_first (x : value) : result value :=
  match x with
  | PyList (v :: _) => inr v
  | PyList [] => inl (Exception (lit "list index out of range"))
  | PyStr (c :: _) => inr (PyStr [c])
  | PyStr [] => inl (Exception (lit "string index out of range"))
  | PyDict _ => inl (Exception (lit "0"))
  | _ => inl (not_subscriptable x)
  end.

(** The items a [for] loop goes through: those of a [list], the keys of a
    [dict], the characters of a text. *)
Definition iterate (x : value) : result (list value) :=
  match x with
  | PyList l => inr l
  | PyDict d => inr (map (fun kv => PyStr (fst kv)) d)
  | PyStr s => inr (map (fun c => PyStr [c]) s)
  | _ =>
      inl (TypeError (lit "'" ++ type_name x ++ lit "' object is not iterable"))
  end.

(** What stands before the first [c] in [s], and what stands after it. *)
Fixpoint break_at (c : N) (s : str) : str * option str :=
  match s with
  | [] => ([], None)
  | x :: s' =>
      if (x =? c)%N then ([], Some s')
      else let (a, b) := break_at c s' in (x :: a, b)
  end.

(** [x.split(" ")[0]]: the text up to the first space.  ([split] with a
    separator always returns a first part.) *)
Definition first_word (x : value) : result str :=
  match x with
  | PyStr s => inr (fst (break_at 32 s))
  | _ => inl (AttributeError x "split")
  end.

(** [l[:n]] for a list [l]: the first [n] items, all but the last [-n]
    for a negative [n], the whole list for [None]. *)
Definition slice_to (l : list value) (n : value) : result (list value) :=
  match n with
  | PyNone => inr l
  | PyBool b => inr (firstn (if b then 1 else 0) l)
  | PyInt z =>
      inr (if (z <? 0)%Z
           then firstn (Z.to_nat (Z.of_nat (List.length l) + z)) l
           else firstn (Z.to_nat z) l)
  | _ =>
      inl (TypeError
             (lit "slice indices must be integers or None or have an __index__ method"))
  end.

(** Whether a number equals the [int] [n]. *)
Definition equals_int (v : value) (n : Z) : bool :=
  match as_number v with
  | Some (NInt z) => (z =? n)%Z
  | Some (NFloat f) =>
      match Z_compare_float n f with Some Eq => true | _ => false end
  | None => false
  end.

(** [{1: a1, 2: a2, ...}.get(v, default)] for a table keyed by [int]s: a
    [list] or a [dict] cannot be looked up. *)
Fixpoint table_get (table : list (Z * value)) (v default : value)
  : value :=
  match table with
  | [] => default
  | (n, a) :: table' =>
      if equals_int v n then a else table_get table' v default
  end.

Definition int_table_get (table : list (Z * value)) (v default : value)
  : result value :=
  match v with
  | PyList _ | PyDict _ =>
      inl (TypeError (lit "unhashable type: '" ++ type_name v ++ lit "'"))
  | _ => inr (table_get table v default)
  end.

End Reply.
End py_reply.

Module weather_api.
Import py shared py_reply.
Local Open Scope py_scope.

Definition OPENWEATHER_BASE_URL : str := lit "https://api.openweathermap.org".

Section Api.
Context {rt : Runtime}.

(** [HAS_REQUESTS] is true here: these halves run only then. *)

(** The [requests] library, as far as the server uses it: a reply is what
    [requests.get(url, params=params, timeout=10)] returns,
    [raise_for_status] and [json] are its two methods.  Each of them may
    raise and may change the world. *)
Variable response : Type.
Variable requests_get : str -> value -> M response.
Variable raise_for_status : response -> M unit.
Variable response_json : response -> M value.

Definition appid : str * value :=
  (lit "appid", PyStr weather_mcp_server.OPENWEATHER_API_KEY).

(** *** get_current_weather *)

(** The [try] block. *)
Definition current_weather_body (location : value) : M value :=
  let url := OPENWEATHER_BASE_URL ++ lit "/data/2.5/weather" in
  let params :=
    PyDict [(lit "q", location); appid; (lit "units", PyStr (lit "metric"))] in
  reply <- requests_get url params ;;
  _ <- raise_for_status reply ;;
  data <- response_json reply ;;
  name <- lift (getitem_key data "name") ;;
  sys <- lift (getitem_key data "sys") ;;
  country <- lift (get sys "country" (PyStr [])) ;;
  main1 <- lift (getitem_key data "main") ;;
  temperature <- lift (getitem_key main1 "temp") ;;
  main2 <- lift (getitem_key data "main") ;;
  feels_like <- lift (getitem_key main2 "feels_like") ;;
  main3 <- lift (getitem_key data "main") ;;
  humidity <- lift (getitem_key main3 "humidity") ;;
  wind <- lift (getitem_key data "wind") ;;
  wind_speed <- lift (getitem_key wind "speed") ;;
  weather1 <- lift (getitem_key data "weather") ;;
  first1 <- lift (getitem_first weather1) ;;
  condition <- lift (getitem_key first1 "main") ;;
  weather2 <- lift (getitem_key data "weather") ;;
  first2 <- lift (getitem_first weather2) ;;
  description <- lift (getitem_key first2 "description") ;;
  main4 <- lift (getitem_key data "main") ;;
  pressure <- lift (getitem_key main4 "pressure") ;;
  clouds <- lift (getitem_key data "clouds") ;;
  cloudiness <- lift (getitem_key clouds "all") ;;
  t <- datetime.now ;;
  ret (PyDict
         [(lit "location", PyStr (to_str name ++ lit ", " ++ to_str country));
          (lit "temperature", temperature);
          (lit "feels_like", feels_like);
          (lit "humidity", humidity);
          (lit "wind_speed", wind_speed);
          (lit "condition", condition);
          (lit "description", description);
          (lit "pressure", pressure);
          (lit "cloudiness", cloudiness);
          (lit "timestamp", PyStr (isoformat t))]).

(** The [except] clause: the fallback weather, in metric units whatever
    units were asked for. *)
Definition current_weather_fallback (location : value) : M value :=
  weather <-
    lift (weather_mcp_server.get_fallback_weather location
            (PyStr (lit "metric"))) ;;
  t <- datetime.now ;;
  ret (PyDict (dict_set weather (lit "timestamp") (PyStr (isoformat t)))).

(** The [try] statement [get_current_weather] ends with; it never reads
    [units]. *)
Definition api_current_weather (location units : value) : M value :=
  try_except (current_weather_body location)
    (fun _ => current_weather_fallback location).

(** *** get_forecast *)

(** [for item in forecast_list]: the first item of each date. *)
Fixpoint group_by_day (items : list value)
  (daily_forecast : list (str * value)) : result (list (str * value)) :=
  match items with
  | [] => inr daily_forecast
  | item :: items' =>
      match getitem_key item "dt_txt" with
      | inl e => inl e
      | inr dt_txt =>
          match first_word dt_txt with
          | inr date =>
              group_by_day items'
                (match dict_lookup daily_forecast date with
                 | Some _ => daily_forecast
                 | None => dict_set daily_forecast date item
                 end)
          | inl e => inl e
          end
      end
  end.

(** The entry of one day. *)
Definition day_entry (date : str) (item : value) : result value :=
  match getitem_key item "main" with inl e => inl e | inr main1 =>
  match getitem_key main1 "temp_max" with inl e => inl e | inr temp_max =>
  match getitem_key item "main" with inl e => inl e | inr main2 =>
  match getitem_key main2 "temp_min" with inl e => inl e | inr temp_min =>
  match getitem_key item "weather" with inl e => inl e | inr weather1 =>
  match getitem_first weather1 with inl e => inl e | inr first1 =>
  match getitem_key first1 "main" with inl e => inl e | inr condition =>
  match getitem_key item "weather" with inl e => inl e | inr weather2 =>
  match getitem_first weather2 with inl e => inl e | inr first2 =>
  match getitem_key first2 "description" with inl e => inl e | inr description =>
  match get item "rain" (PyDict []) with inl e => inl e | inr rain =>
  match get rain "3h" (PyInt 0) with inl e => inl e | inr precipitation =>
  match getitem_key item "wind" with inl e => inl e | inr wind =>
  match getitem_key wind "speed" with inl e => inl e | inr wind_speed =>
  match getitem_key item "main" with inl e => inl e | inr main3 =>
  match getitem_key main3 "humidity" with inl e => inl e | inr humidity =>
    inr (PyDict [(lit "date", PyStr date);
                 (lit "temp_max", temp_max);
                 (lit "temp_min", temp_min);
                 (lit "condition", condition);
                 (lit "description", description);
                 (lit "precipitation", precipitation);
                 (lit "wind_speed", wind_speed);
                 (lit "humidity", humidity)])
  end end end end end end end end end end end end end end end end.

(** [for date, item in daily_forecast.items(): result.append(...)] *)
Fixpoint day_entries (daily_forecast : list (str * value))
  : result (list value) :=
  match daily_forecast with
  | [] => inr []
  | (date, item) :: rest =>
      match day_entry date item with
      | inl e => inl e
      | inr entry =>
          match day_entries rest with
          | inl e => inl e
          | inr entries => inr (entry :: entries)
          end
      end
  end.

(** The [try] block. *)
Definition forecast_body (location days : value) : M value :=
  let url := OPENWEATHER_BASE_URL ++ lit "/data/2.5/forecast" in
  let params :=
    PyDict [(lit "q", location); appid; (lit "units", PyStr (lit "metric"))] in
  reply <- requests_get url params ;;
  _ <- raise_for_status reply ;;
  data <- response_json reply ;;
  forecast_list <- lift (getitem_key data "list") ;;
  items <- lift (iterate forecast_list) ;;
  daily_forecast <- lift (group_by_day items []) ;;
  result <- lift (day_entries daily_forecast) ;;
  sliced <- lift (slice_to result days) ;;
  ret (PyList sliced).

(** One day of the list the [except] clause makes. *)
Definition cloudy_day (i : Z) : M value :=
  t <- datetime.now ;;
  ret (PyDict
         [(lit "date",
           PyStr (strftime (t + datetime.timedelta_days i) (lit "%Y-%m-%d")));
          (lit "condition", PyStr (lit "Cloudy"));
          (lit "temp_max", PyInt 18);
          (lit "temp_min", PyInt 12);
          (lit "wind_speed", PyInt 8)]).

(** The [except] clause. *)
Definition forecast_fallback (days : value) : M value :=
  m <- lift (min2 days (PyInt 3)) ;;
  n <- lift (range m) ;;
  l <- for_range n 0 cloudy_day ;;
  ret (PyList l).

Definition api_forecast (location days units : value) : M value :=
  try_except (forecast_body location days)
    (fun _ => forecast_fallback days).

(** *** get_alerts *)

(** The alert made from one item of the reply. *)
Definition alert_entry (alert : value) : M value :=
  title <- lift (get alert "event" (PyStr (lit "Unknown Alert"))) ;;
  description <- lift (get alert "description" (PyStr [])) ;;
  t1 <- datetime.now ;;
  effective_from <- lift (get alert "start" (PyStr (isoformat t1))) ;;
  t2 <- datetime.now ;;
  expires <-
    lift (get alert "end"
            (PyStr (isoformat (t2 + datetime.timedelta_hours 6)))) ;;
  ret (PyDict [(lit "title", title);
               (lit "severity", PyStr (lit "High"));
               (lit "description", description);
               (lit "effective_from", effective_from);
               (lit "expires", expires)]).

(** [for alert in ...: alerts.append(...)] *)
Fixpoint alert_entries (items : list value) : M (list value) :=
  match items with
  | [] => ret []
  | alert :: items' =>
      entry <- alert_entry alert ;;
      entries <- alert_entries items' ;;
      ret (entry :: entries)
  end.

(** [lat, lon = data[0]["lat"], data[0]["lon"]] *)
Definition coordinates (data : value) : result (value * value) :=
  match getitem_first data with inl e => inl e | inr first1 =>
  match getitem_key first1 "lat" with inl e => inl e | inr lat =>
  match getitem_first data with inl e => inl e | inr first2 =>
  match getitem_key first2 "lon" with inl e => inl e | inr lon =>
    inr (lat, lon)
  end end end end.

(** The first request of [get_alerts] and of [get_air_quality]: where the
    location is.  Its reply is read without [raise_for_status]. *)
Definition geocode (location : value) : M value :=
  let url := OPENWEATHER_BASE_URL ++ lit "/geo/1.0/direct" in
  reply <- requests_get url (PyDict [(lit "q", location); appid]) ;;
  response_json reply.

(** The second request, at the coordinates found. *)
Definition at_coordinates (path : string) (lat lon : value) : M value :=
  let url := OPENWEATHER_BASE_URL ++ lit path in
  reply <-
    requests_get url (PyDict [(lit "lat", lat); (lit "lon", lon); appid]) ;;
  _ <- raise_for_status reply ;;
  response_json reply.

(** The [try] block. *)
Definition alerts_body (location : value) : M value :=
  data <- geocode location ;;
  if negb (truthy data) then ret (PyList [])
  else
    c <- lift (coordinates data) ;;
    alerts_data <- at_coordinates "/data/3.0/alerts" (fst c) (snd c) ;;
    listed <- lift (get alerts_data "alerts" (PyList [])) ;;
    items <- lift (iterate listed) ;;
    alerts <- alert_entries items ;;
    ret (PyList alerts).

Definition api_alerts (location : value) : M value :=
  try_except (alerts_body location) (fun _ => ret (PyList [])).

(** *** get_air_quality *)

Definition quality_map : list (Z * value) :=
  [(1%Z, PyStr (lit "Good")); (2%Z, PyStr (lit "Fair"));
   (3%Z, PyStr (lit "Moderate")); (4%Z, PyStr (lit "Poor"));
   (5%Z, PyStr (lit "Very Poor"))].

(** The [try] block. *)
Definition air_quality_body (location : value) : M value :=
  data <- geocode location ;;
  if negb (truthy data) then
    ret (PyDict [(lit "location", location);
                 (lit "error", PyStr (lit "Location not found"))])
  else
    c <- lift (coordinates data) ;;
    aqi_data <- at_coordinates "/data/3.0/air_pollution" (fst c) (snd c) ;;
    list1 <- lift (getitem_key aqi_data "list") ;;
    first1 <- lift (getitem_first list1) ;;
    main <- lift (getitem_key first1 "main") ;;
    list2 <- lift (getitem_key aqi_data "list") ;;
    first2 <- lift (getitem_first list2) ;;
    components <- lift (getitem_key first2 "components") ;;
    aqi_level <- lift (getitem_key main "aqi") ;;
    aqi_quality <-
      lift (int_table_get quality_map aqi_level (PyStr (lit "Unknown"))) ;;
    pm25 <- lift (get components "pm2_5" (PyInt 0)) ;;
    pm10 <- lift (get components "pm10" (PyInt 0)) ;;
    no2 <- lift (get components "no2" (PyInt 0)) ;;
    so2 <- lift (get components "so2" (PyInt 0)) ;;
    o3 <- lift (get components "o3" (PyInt 0)) ;;
    co <- lift (get components "co" (PyInt 0)) ;;
    t <- datetime.now ;;
    ret (PyDict [(lit "location", location);
                 (lit "aqi", aqi_level);
                 (lit "aqi_quality", aqi_quality);
                 (lit "pm25", pm25);
                 (lit "pm10", pm10);
                 (lit "no2", no2);
                 (lit "so2", so2);
                 (lit "o3", o3);
                 (lit "co", co);
                 (lit "timestamp", PyStr (isoformat t))]).

(** The [except] clause: the reading of the fallback. *)
Definition api_air_quality (location : value) : M value :=
  try_except (air_quality_body location)
    (fun _ => weather_mcp_server.fallback_air_quality location).

(** *** The server with these halves *)

Definition handle_tool_call : value -> value -> M value :=
  weather_mcp_server.handle_tool_call true api_current_weather api_forecast
    api_alerts api_air_quality.

Definition main : str -> world -> result unit * list str * world :=
  weather_mcp_server.main true api_current_weather api_forecast
    api_alerts api_air_quality.

End Api.
End weather_api.

(** * More about the dispatcher and the tools *)

Module dispatch_facts.
Import py shared request_facts.

(** [json.loads] on a text of whitespace only: there is no value to read. *)
Lemma skip_ws_blank line :
  forallb json.is_ws line = true -> json.skip_ws line = [].
Proof.
  induction line as [|c s IH]; cbn [forallb json.skip_ws]; [reflexivity|].
  rewrite andb_true_iff. intros [-> H]. auto.
Qed.

Lemma scan_once_empty fuel : json.scan_once fuel [] = None.
Proof. destruct fuel; reflexivity. Qed.

Lemma loads_blank line :
  forallb json.is_ws line = true -> json.loads line = None.
Proof.
  intros H. unfold json.loads. rewrite skip_ws_blank by exact H.
  rewrite scan_once_empty. reflexivity.
Qed.

Section Dispatch.
Context {rt : Runtime}.
Variable handle_tool_call : value -> value -> M value.
Variable list_tools : value.

Let answers := dispatcher.answers handle_tool_call list_tools.

(** What [main] prints is printable ASCII. *)
Lemma answers_plain lines : forall w,
  Forall json_facts.plain (fst (answers lines w)).
Proof.
  induction lines as [|l ls IH]; intros w; [constructor|].
  unfold answers in *. cbn [dispatcher.answers].
  unfold dispatcher.answer at 1.
  destruct (dispatcher.respond handle_tool_call list_tools l w)
    as [response w1].
  specialize (IH w1).
  destruct (dispatcher.answers handle_tool_call list_tools ls w1)
    as [ts w2].
  cbn [fst] in *. constructor; [|exact IH].
  apply json_facts.dumps_plain.
Qed.

(** A last line that no newline ends. *)
Lemma main_last_line pre body w :
  (pre = [] \/ exists pre', pre = pre' ++ [10%N]) ->
  body <> [] -> ~ In 10%N body ->
  dispatcher.main handle_tool_call list_tools (pre ++ body) w =
  let '(_, out1, w1) := dispatcher.main handle_tool_call list_tools pre w in
  let (text, w2) := dispatcher.answer handle_tool_call list_tools body w1 in
  (inr tt, out1 ++ [text], w2).
Proof.
  intros Hpre Hne Hnl.
  pose proof (loop_facts.main_through_line handle_tool_call list_tools
                pre body [] w Hpre Hne) as H.
  rewrite List.app_nil_r in H. rewrite H.
  2:{ apply loop_facts.readline_last. exact Hnl. }
  destruct (dispatcher.main _ _ pre w) as [[r1 out1] w1].
  destruct (dispatcher.answer _ _ body w1) as [text w2].
  rewrite loop_facts.main_answers.
  rewrite loop_facts.request_lines_unfold. reflexivity.
Qed.

End Dispatch.

Section Extensional.
Context {rt : Runtime}.
Variable h1 h2 : value -> value -> M value.
Variable list_tools : value.
Hypothesis same : forall name arguments w, h1 name arguments w = h2 name arguments w.

(** Two handlers that answer every call alike make the same server. *)
Lemma respond_ext line w :
  dispatcher.respond h1 list_tools line w
  = dispatcher.respond h2 list_tools line w.
Proof.
  unfold dispatcher.respond, dispatcher.serve, bind, lift.
  destruct (dispatcher.loads line) as [e|request]; [reflexivity|].
  destruct (get request "method" PyNone) as [e|method]; [reflexivity|].
  destruct (get request "params" (PyDict [])) as [e|params]; [reflexivity|].
  destruct (get request "id" (PyInt 1)) as [e|request_id]; [reflexivity|].
  destruct (eq_lit method "tools/call"); [|reflexivity].
  destruct (get params "name" PyNone) as [e|tool_name]; [reflexivity|].
  destruct (get params "arguments" (PyDict [])) as [e|arguments];
    [reflexivity|].
  rewrite same. reflexivity.
Qed.

Lemma answers_ext lines : forall w,
  dispatcher.answers h1 list_tools lines w
  = dispatcher.answers h2 list_tools lines w.
Proof.
  induction lines as [|l ls IH]; intros w; [reflexivity|].
  cbn [dispatcher.answers]. unfold dispatcher.answer.
  rewrite respond_ext.
  destruct (dispatcher.respond h2 list_tools l w) as [response w1].
  rewrite IH. reflexivity.
Qed.

Lemma main_ext stdin w :
  dispatcher.main h1 list_tools stdin w
  = dispatcher.main h2 list_tools stdin w.
Proof. rewrite !loop_facts.main_answers, answers_ext. reflexivity. Qed.

End Extensional.
End dispatch_facts.

(** * More about the tools *)

Module tool_facts.
Import py shared forecast_facts.

(** ** Mappings *)

Lemma lookup_keys d k v : dict_lookup d k = Some v -> In k (map fst d).
Proof.
  induction d as [|[k' v'] d IH]; cbn [dict_lookup map fst In]; [discriminate|].
  destruct (str_eqb k' k) eqn:E.
  - apply py_facts.str_eqb_eq in E. auto.
  - auto.
Qed.

(** An assignment to a key that is there keeps the keys and their order. *)
Lemma dict_set_keys d k v :
  In k (map fst d) -> map fst (dict_set d k v) = map fst d.
Proof.
  induction d as [|[k' v'] d IH]; cbn [dict_set map fst In]; [tauto|].
  intros H. destruct (str_eqb k' k) eqn:E; [reflexivity|].
  cbn [map fst]. rewrite IH; [reflexivity|].
  destruct H as [H|H]; [|exact H].
  apply py_facts.str_eqb_neq in E. congruence.
Qed.

Section Tools.
Context {rt : Runtime}.

Lemma update_keys weather k f weather' :
  update weather k f = inr weather' -> map fst weather' = map fst weather.
Proof.
  unfold update, getitem.
  destruct (dict_lookup weather (lit k)) as [v|] eqn:E; [|discriminate].
  destruct (f v) as [e|v']; [discriminate|].
  intros H. inversion H; subst. apply dict_set_keys.
  eapply lookup_keys. exact E.
Qed.

Lemma update_other weather k f weather' k' :
  update weather k f = inr weather' -> k' <> lit k ->
  dict_lookup weather' k' = dict_lookup weather k'.
Proof.
  unfold update, getitem.
  destruct (dict_lookup weather (lit k)) as [v|]; [|discriminate].
  destruct (f v) as [e|v']; [discriminate|].
  intros H Hk. inversion H; subst. apply lookup_set_other. congruence.
Qed.

(** Three updates in a row, as both branches of the conversion make them. *)
Lemma three_updates weather k1 f1 k2 f2 k3 f3 weather' :
  match update weather k1 f1 with
  | inl e => inl e
  | inr w1 =>
      match update w1 k2 f2 with
      | inl e => inl e
      | inr w2 => update w2 k3 f3
      end
  end = inr weather' ->
  map fst weather' = map fst weather
  /\ forall k, k <> lit k1 -> k <> lit k2 -> k <> lit k3 ->
     dict_lookup weather' k = dict_lookup weather k.
Proof.
  destruct (update weather k1 f1) as [e|w1] eqn:E1; [discriminate|].
  destruct (update w1 k2 f2) as [e|w2] eqn:E2; [discriminate|].
  intros E3. split.
  - rewrite (update_keys _ _ _ _ E3), (update_keys _ _ _ _ E2).
    apply (update_keys _ _ _ _ E1).
  - intros k H1 H2 H3.
    rewrite (update_other _ _ _ _ _ E3 H3), (update_other _ _ _ _ _ E2 H2).
    apply (update_other _ _ _ _ _ E1 H1).
Qed.

Lemma convert_units_keeps weather units weather' :
  convert_units weather units = inr weather' ->
  map fst weather' = map fst weather
  /\ (forall k,
         k <> lit "temperature" -> k <> lit "feels_like" ->
         k <> lit "wind_speed" ->
         dict_lookup weather' k = dict_lookup weather k)
  /\ (eq_lit units "imperial" = false -> eq_lit units "standard" = false ->
      weather' = weather).
Proof.
  unfold convert_units.
  destruct (eq_lit units "imperial"); [|destruct (eq_lit units "standard")].
  - intros H. destruct (three_updates _ _ _ _ _ _ _ _ H) as [H1 H2].
    split; [exact H1|]. split; [exact H2|discriminate].
  - intros H. destruct (three_updates _ _ _ _ _ _ _ _ H) as [H1 H2].
    split; [exact H1|]. split; [exact H2|discriminate].
  - intros H. inversion H; subst. auto.
Qed.

(** ** Draws *)

Lemma randbelow_below n :
  (0 < n)%Z -> yields (fun r => (0 <= r < n)%Z) (random.randbelow n).
Proof.
  intros Hn w. unfold random.randbelow. destruct (stdlib_randbelow n w) as [r w'].
  do 2 eexists. split; [reflexivity|]. apply Z.mod_pos_bound. exact Hn.
Qed.

(** [randint(a, b)] stays between its bounds. *)
Lemma randint_between a b :
  (a <= b)%Z -> yields (fun r => (a <= r <= b)%Z) (random.randint a b).
Proof.
  intros H. unfold random.randint.
  eapply yields_bind; [apply randbelow_below; lia|].
  intros r Hr. cbv beta in Hr. apply yields_ret. lia.
Qed.

(** [choice(seq)] is an item of [seq]. *)
Lemma choice_member x seq :
  yields (fun v => In v (x :: seq)) (random.choice (x :: seq)).
Proof.
  unfold random.choice.
  eapply yields_bind; [apply randbelow_below; cbn [List.length]; lia|].
  intros r Hr. cbv beta in Hr. apply yields_ret. apply nth_In.
  cbn [List.length] in *. lia.
Qed.

Lemma yields_weaken {A} (P Q : A -> Prop) (m : M A) :
  yields P m -> (forall a, P a -> Q a) -> yields Q m.
Proof.
  intros H HPQ w. destruct (H w) as (a & w' & E & Ha). eauto.
Qed.

(** ** The wind of a forecast *)

Lemma ltb_leb x y : PrimFloat.ltb x y = true -> PrimFloat.leb x y = true.
Proof.
  rewrite FloatAxioms.ltb_spec, FloatAxioms.leb_spec.
  unfold SFltb, SFleb. destruct (SFcompare _ _) as [[| |]|]; congruence.
Qed.

(** [max(0.0, x)] is a float that is not below zero, whatever float [x]
    is, NaN too. *)
Lemma max_zero_float x :
  exists wind,
    max2 (PyFloat 0) (PyFloat x) = inr (PyFloat wind)
    /\ PrimFloat.leb 0 wind = true.
Proof.
  unfold max2, gt_number, as_number, number_lt.
  destruct (PrimFloat.ltb 0 x) eqn:E.
  - exists x. split; [reflexivity|]. apply ltb_leb. exact E.
  - exists 0%float. split; reflexivity.
Qed.

(** One day of a forecast as the mock server makes it. *)
Definition mock_day (v : value) : Prop :=
  exists date temp_max temp_min condition precipitation wind,
    v = PyDict [(lit "date", PyStr date);
                (lit "temp_max", PyFloat temp_max);
                (lit "temp_min", PyFloat temp_min);
                (lit "condition", condition);
                (lit "precipitation", PyFloat precipitation);
                (lit "wind_speed", PyFloat wind)]
    /\ In condition (strs ["Sunny"; "Cloudy"; "Rainy"; "Partly Cloudy"])
    /\ PrimFloat.leb 0 wind = true.

(** One day of a forecast as the weather server makes it without the
    API. *)
Definition fallback_day (v : value) : Prop :=
  exists date temp_max temp_min wind,
    v = PyDict [(lit "date", PyStr date);
                (lit "condition", PyStr (lit "Sunny"));
                (lit "temp_max", PyFloat temp_max);
                (lit "temp_min", PyFloat temp_min);
                (lit "wind_speed", PyFloat wind)]
    /\ PrimFloat.leb 0 wind = true.

Lemma mock_forecast_day_shape t s i :
  yields mock_day (mock_weather_server.forecast_day (PyFloat t) (PyFloat s) i).
Proof.
  unfold mock_weather_server.forecast_day.
  eapply yields_bind; [apply yields_now|]. intros now _.
  eapply yields_bind; [apply yields_uniform|]. intros a _.
  eapply yields_bind_lift; [reflexivity|cbn beta].
  eapply yields_bind; [apply yields_uniform|]. intros b _.
  eapply yields_bind_lift; [reflexivity|cbn beta].
  eapply yields_bind; [apply yields_uniform|]. intros c _.
  eapply yields_bind_lift; [reflexivity|cbn beta].
  destruct (max_zero_float (s + c)) as (wind & E & Hw).
  eapply yields_bind_lift; [exact E|cbn beta].
  eapply yields_bind; [apply choice_member|]. intros condition Hc.
  eapply yields_bind; [apply yields_uniform|]. intros p _.
  apply yields_ret. do 6 eexists. split; [reflexivity|]. split; assumption.
Qed.

Lemma weather_forecast_day_shape t s i :
  yields fallback_day
    (weather_mcp_server.forecast_day (PyFloat t) (PyFloat s) i).
Proof.
  unfold weather_mcp_server.forecast_day.
  eapply yields_bind; [apply yields_now|]. intros now _.
  eapply yields_bind; [apply yields_uniform|]. intros a _.
  eapply yields_bind_lift; [reflexivity|cbn beta].
  eapply yields_bind; [apply yields_uniform|]. intros b _.
  eapply yields_bind_lift; [reflexivity|cbn beta].
  eapply yields_bind; [apply yields_uniform|]. intros c _.
  eapply yields_bind_lift; [reflexivity|cbn beta].
  destruct (max_zero_float (s + c)) as (wind & E & Hw).
  eapply yields_bind_lift; [exact E|cbn beta].
  apply yields_ret. do 4 eexists. split; [reflexivity|assumption].
Qed.

(** A loop whose body makes items with a property makes a list of them. *)
Lemma for_range_all (P : value -> Prop) (body : Z -> M value) n :
  (forall i, yields P (body i)) ->
  forall i, yields (fun l => List.length l = n /\ Forall P l)
              (for_range n i body).
Proof.
  intros Hbody. induction n as [|n IH]; intros i; cbn [for_range].
  - apply yields_ret. split; [reflexivity|constructor].
  - eapply yields_bind; [apply Hbody|]. intros v Hv.
    eapply yields_bind; [apply IH|]. intros l [Hl Hall].
    apply yields_ret. split; [cbn; congruence|constructor; assumption].
Qed.

(** ** The members of a weather report *)

Definition row_keys : list str :=
  [lit "location"; lit "temperature"; lit "feels_like"; lit "humidity";
   lit "wind_speed"; lit "condition"; lit "description"].

Definition report_keys : list str := row_keys ++ [lit "timestamp"].

Fixpoint same_keys (a b : list str) : bool :=
  match a, b with
  | [], [] => true
  | x :: a', y :: b' => str_eqb x y && same_keys a' b'
  | _, _ => false
  end.

(** A row of weather data: the seven members, three of them floats. *)
Definition is_row (weather : list (str * value)) : bool :=
  same_keys (map fst weather) row_keys && floaty weather.

Lemma same_keys_eq a b : same_keys a b = true -> a = b.
Proof.
  revert b. induction a as [|x a IH]; destruct b as [|y b]; cbn [same_keys];
    try discriminate; [reflexivity|].
  rewrite andb_true_iff. intros [H1 H2].
  apply py_facts.str_eqb_eq in H1. f_equal; auto.
Qed.

Lemma is_row_inv weather :
  is_row weather = true ->
  map fst weather = row_keys /\ floaty weather = true.
Proof.
  unfold is_row. rewrite andb_true_iff. intros [H1 H2].
  split; [apply same_keys_eq; exact H1|exact H2].
Qed.

Lemma mock_table_rows k r :
  mock_weather_server.table_lookup mock_weather_server.MOCK_WEATHER_DATA k
  = Some r -> is_row r = true.
Proof.
  intros H. apply table_lookup_in in H. revert r H.
  apply forallb_forall. vm_compute. reflexivity.
Qed.

Lemma weather_table_rows k r :
  weather_mcp_server.find_row weather_mcp_server.MOCK_WEATHER_DATA k
  = Some r -> is_row r = true.
Proof.
  intros H. apply find_row_in in H. revert r H.
  apply forallb_forall. vm_compute. reflexivity.
Qed.

(** A report: the seven members of a row and the time, in this order. *)
Definition is_report (v : value) : Prop :=
  exists weather,
    v = PyDict weather
    /\ map fst weather = report_keys
    /\ floaty weather = true.

Lemma stamp_report weather ts :
  map fst weather = row_keys -> floaty weather = true ->
  is_report (PyDict (dict_set weather (lit "timestamp") (PyStr ts))).
Proof.
  intros Hk Hf. eexists. split; [reflexivity|]. split.
  - rewrite json_facts.dict_set_new.
    + rewrite map_app, Hk. reflexivity.
    + rewrite Hk. vm_compute.
      intros Hin; repeat (destruct Hin as [Hin|Hin]; [discriminate Hin|]);
        exact Hin.
  - apply timestamp_keeps_floaty. exact Hf.
Qed.

Lemma convert_row weather units :
  map fst weather = row_keys -> floaty weather = true ->
  exists weather',
    convert_units weather units = inr weather'
    /\ map fst weather' = row_keys /\ floaty weather' = true.
Proof.
  intros Hk Hf.
  destruct (convert_units_floaty weather units Hf) as (weather' & E & Hf').
  exists weather'. split; [exact E|]. split; [|exact Hf'].
  destruct (convert_units_keeps _ _ _ E) as [H _]. congruence.
Qed.

(** ** What [handle_tool_call] runs for a forecast *)

Definition member (d : list (str * value)) (k : string) (default : value)
  : value :=
  match dict_lookup d (lit k) with
  | Some v => v
  | None => default
  end.

Definition catching (body : M value) : M value :=
  try_except body (fun e => ret (error_dict (exn_str e))).

Lemma mock_handle_get_forecast d w :
  mock_weather_server.handle_tool_call (PyStr (lit "get_forecast"))
    (PyDict d) w
  = catching
      (mock_weather_server.get_forecast
         (member d "location" (PyStr (lit "London")))
         (member d "days" (PyInt 5))
         (member d "units" mock_weather_server.WEATHER_UNITS)) w.
Proof. reflexivity. Qed.

End Tools.

Section WeatherTools.
Context {rt : Runtime}.
Variable HAS_REQUESTS : bool.
Variable api_current_weather : value -> value -> M value.
Variable api_forecast : value -> value -> value -> M value.
Variable api_alerts : value -> M value.
Variable api_air_quality : value -> M value.

Lemma weather_handle_get_forecast d w :
  weather_mcp_server.handle_tool_call HAS_REQUESTS api_current_weather
    api_forecast api_alerts api_air_quality (PyStr (lit "get_forecast"))
    (PyDict d) w
  = catching
      (bind
         (weather_mcp_server.get_forecast HAS_REQUESTS api_forecast
            (member d "location" (PyStr (lit "London")))
            (member d "days" (PyInt 5))
            (member d "units" (PyStr (lit "metric"))))
         (fun result =>
            ret (if truthy result then result
                 else error_dict (lit "No forecast data available")))) w.
Proof. reflexivity. Qed.

End WeatherTools.
End tool_facts.

(** * Properties of the OpenWeatherMap halves *)

Module api_facts.
Import py shared py_reply forecast_facts tool_facts.

Lemma NoDup_firstn {A} n (l : list A) : NoDup l -> NoDup (firstn n l).
Proof.
  revert n. induction l as [|x l IH]; intros [|n] H; cbn [firstn];
    try constructor.
  - inversion H as [|? ? Hx Hl]; subst. intros Hin.
    apply Hx. rewrite <- (firstn_skipn n l). apply in_or_app. auto.
  - inversion H; subst. auto.
Qed.

Lemma NoDup_snoc {A} (l : list A) x :
  NoDup l -> ~ In x l -> NoDup (l ++ [x]).
Proof.
  induction l as [|y l IH]; intros H Hx; cbn [app].
  - constructor; [intros []|constructor].
  - inversion H as [|? ? Hy Hl]; subst. constructor.
    + rewrite in_app_iff. cbn [In]. intros [Hin|[->|[]]]; [tauto|].
      apply Hx. left. reflexivity.
    + apply IH; [exact Hl|]. intros Hin. apply Hx. right. exact Hin.
Qed.

Lemma lookup_none_keys d k :
  dict_lookup d k = None -> ~ In k (map fst d).
Proof.
  induction d as [|[k' v] d IH]; cbn [dict_lookup map fst In]; [tauto|].
  destruct (str_eqb k' k) eqn:E; [discriminate|].
  intros H [->|Hin]; [|exact (IH H Hin)].
  rewrite py_facts.str_eqb_refl in E. discriminate.
Qed.

Lemma NoDup_map_injective {A B} (f : A -> B) l :
  (forall x y, f x = f y -> x = y) -> NoDup l -> NoDup (map f l).
Proof.
  intros Hf. induction 1 as [|x l Hx Hl IH]; cbn [map]; constructor;
    [|exact IH].
  rewrite in_map_iff. intros (y & Hy & Hin). apply Hf in Hy. congruence.
Qed.

Section Api.
Context {rt : Runtime}.

(** ** Steps that returned *)

Lemma bind_returned {A B} (m : M A) (k : A -> M B) w v w' :
  bind m k w = (inr v, w') ->
  exists a w1, m w = (inr a, w1) /\ k a w1 = (inr v, w').
Proof.
  unfold bind. destruct (m w) as [[e|a] w1]; [discriminate|]. eauto.
Qed.

Lemma lift_returned {A B} (r : result A) (k : A -> M B) w v w' :
  bind (lift r) k w = (inr v, w') ->
  exists a, r = inr a /\ k a w = (inr v, w').
Proof.
  unfold bind, lift. destruct r as [e|a]; [discriminate|]. eauto.
Qed.

Lemma ret_returned {A} (a v : A) (w w' : world) :
  ret a w = (inr v, w') -> v = a /\ w' = w.
Proof. unfold ret. intros H. inversion H. auto. Qed.

(** ** The forecast read off a reply *)

Lemma group_by_day_keys items : forall acc daily,
  weather_api.group_by_day items acc = inr daily ->
  NoDup (map fst acc) -> NoDup (map fst daily).
Proof.
  induction items as [|item items IH]; intros acc daily H Hacc;
    cbn [weather_api.group_by_day] in H.
  - inversion H; subst. exact Hacc.
  - destruct (getitem_key item "dt_txt") as [e|dt_txt]; [discriminate|].
    destruct (first_word dt_txt) as [e|date]; [discriminate|].
    apply IH in H; [exact H|].
    destruct (dict_lookup acc date) as [v|] eqn:E; [exact Hacc|].
    pose proof (lookup_none_keys _ _ E) as Hnew.
    rewrite json_facts.dict_set_new by exact Hnew.
    rewrite map_app. cbn [map fst]. apply NoDup_snoc; assumption.
Qed.

Definition forecast_keys : list str :=
  [lit "date"; lit "temp_max"; lit "temp_min"; lit "condition";
   lit "description"; lit "precipitation"; lit "wind_speed"; lit "humidity"].

(** One day of a forecast read off a reply. *)
Definition api_day (date : str) (entry : value) : Prop :=
  exists fields,
    entry = PyDict fields
    /\ map fst fields = forecast_keys
    /\ dict_lookup fields (lit "date") = Some (PyStr date).

Lemma day_entry_shape date item entry :
  weather_api.day_entry date item = inr entry -> api_day date entry.
Proof.
  unfold weather_api.day_entry.
  repeat match goal with
         | |- context [match ?r with inl _ => _ | inr _ => _ end] =>
             destruct r; [discriminate|]
         end.
  intros H. inversion H; subst. eexists. repeat split.
Qed.

(** The date of an entry. *)
Definition entry_date (entry : value) : option value := field entry "date".

Lemma day_entries_shape daily : forall entries,
  weather_api.day_entries daily = inr entries ->
  Forall2 (fun (kv : str * value) entry => api_day (fst kv) entry)
    daily entries.
Proof.
  induction daily as [|[date item] daily IH]; intros entries H;
    cbn [weather_api.day_entries] in H.
  - inversion H. constructor.
  - destruct (weather_api.day_entry date item) as [e|entry] eqn:E;
      [discriminate|].
    destruct (weather_api.day_entries daily) as [e|rest]; [discriminate|].
    inversion H; subst. constructor; [|apply IH; reflexivity].
    apply day_entry_shape in E. exact E.
Qed.

Lemma entries_dates daily entries :
  Forall2 (fun (kv : str * value) entry => api_day (fst kv) entry)
    daily entries ->
  map entry_date entries
  = map (fun kv : str * value => Some (PyStr (fst kv))) daily.
Proof.
  induction 1 as [|kv entry daily entries (fields & -> & _ & Hd) _ IH];
    cbn [map]; [reflexivity|].
  rewrite IH. unfold entry_date at 1, field. rewrite Hd. reflexivity.
Qed.

Lemma entries_all daily entries :
  Forall2 (fun (kv : str * value) entry => api_day (fst kv) entry)
    daily entries ->
  Forall (fun entry => exists date, api_day date entry) entries.
Proof. induction 1; constructor; eauto. Qed.

(** [result[:days]] for an [int]: it drops items from the end only, and
    keeps [days] of them at most when [days] is not negative. *)
Lemma slice_to_int l days sliced :
  slice_to l (PyInt days) = inr sliced ->
  exists n, sliced = firstn n l /\ ((0 <= days)%Z -> n = Z.to_nat days).
Proof.
  cbn [slice_to]. intros H. inversion H; subst.
  destruct (Z.ltb_spec days 0); eexists; (split; [reflexivity|]); lia.
Qed.

End Api.
End api_facts.

(** * Further properties of the two servers *)

Section ServerProperties.
Import py shared request_facts forecast_facts tool_facts.
Context {rt : Runtime}.
Variable HAS_REQUESTS : bool.
Variable api_current_weather : value -> value -> M value.
Variable api_forecast : value -> value -> value -> M value.
Variable api_alerts : value -> M value.
Variable api_air_quality : value -> M value.

Let weather_respond : str -> world -> value * world :=
  weather_mcp_server.respond HAS_REQUESTS api_current_weather api_forecast
    api_alerts api_air_quality.

Let weather_main : str -> world -> result unit * list str * world :=
  weather_mcp_server.main HAS_REQUESTS api_current_weather api_forecast
    api_alerts api_air_quality.

Let weather_handle : value -> value -> M value :=
  weather_mcp_server.handle_tool_call HAS_REQUESTS api_current_weather
    api_forecast api_alerts api_air_quality.

Let mock_respond : str -> world -> value * world :=
  mock_weather_server.respond.

Let mock_main : str -> world -> result unit * list str * world :=
  mock_weather_server.main.

(** The message of the [AttributeError] that [x.get] raises on a value
    that is no mapping. *)
Definition no_get_message (x : value) : str :=
  lit "'" ++ type_name x ++ lit "' object has no attribute 'get'".

(** X1: a line of whitespace only (an empty line is one: it holds its
    newline) is not skipped: [json.loads] finds no value on it, and both
    servers answer it with the parse error response. *)
Theorem blank_line_gets_parse_error line w :
  forallb json.is_ws line = true ->
  json.loads line = None
  /\ mock_respond line w = (parse_error, w)
  /\ weather_respond line w = (parse_error, w).
Proof.
  intros H. pose proof (dispatch_facts.loads_blank line H) as Hl.
  split; [exact Hl|].
  split; apply respond_invalid_json; exact Hl.
Qed.

(** X2: a tools/call request whose [params] is no mapping is answered by
    both servers with the internal error response: code -32603, the
    message of the [AttributeError] that [params.get] raises, and the id
    null although the request had one; no tool runs (the world is as it
    was). *)
Theorem params_that_are_no_mapping_get_internal_error line request w :
  json.loads line = Some (PyDict request) ->
  eq_lit (method_of request) "tools/call" = true ->
  is_dict (params_of request) = false ->
  let response :=
    dispatcher.error_response (-32603)
      (no_get_message (params_of request)) in
  response_id response = Some PyNone
  /\ mock_respond line w = (response, w)
  /\ weather_respond line w = (response, w).
Proof.
  intros H H1 H2 response. split; [reflexivity|].
  split; apply (respond_params_not_dict _ _ _ _ _ H H1 H2).
Qed.

(** X3: where [arguments] is no mapping the two servers differ.  The mock
    server reads [arguments.get("units", ...)] before its [try], so the
    [AttributeError] reaches [main]: the answer is the internal error
    response, with the id null, whatever the tool name is.  The weather
    server has the same read inside its [try]: for each of its four tools
    the answer is a success envelope with the message as [result.error]
    and the id of the request. *)
Theorem arguments_that_are_no_mapping_divide_the_servers
  line request params w :
  json.loads line = Some (PyDict request) ->
  eq_lit (method_of request) "tools/call" = true ->
  params_of request = PyDict params ->
  is_dict (arguments_of params) = false ->
  let message := no_get_message (arguments_of params) in
  mock_respond line w = (dispatcher.error_response (-32603) message, w)
  /\ (weather_mcp_server.registered (name_of params) = true ->
      weather_respond line w =
      (dispatcher.success_response (error_dict message) (id_of request), w)).
Proof.
  intros H H1 Hp Ha message. split.
  - unfold mock_respond, mock_weather_server.respond.
    rewrite (respond_tools_call _ _ _ _ _ _ H H1 Hp).
    rewrite tool_call_facts.mock_arguments_not_dict by exact Ha.
    reflexivity.
  - intros Hr. unfold weather_respond, weather_mcp_server.respond.
    rewrite (respond_tools_call _ _ _ _ _ _ H H1 Hp).
    unfold weather_mcp_server.handle_tool_call,
      weather_mcp_server.try_body, try_except, bind, lift, get.
    unfold weather_mcp_server.registered in Hr.
    destruct (arguments_of params); try discriminate Ha;
      destruct (eq_lit (name_of params) "get_current_weather");
      try reflexivity;
      destruct (eq_lit (name_of params) "get_forecast"); try reflexivity;
      destruct (eq_lit (name_of params) "get_alerts"); try reflexivity;
      destruct (eq_lit (name_of params) "get_air_quality");
      try reflexivity; discriminate Hr.
Qed.

(** X4: a last line that no newline ends is a request like any other:
    [main] answers the complete lines before it, then this line, and
    returns. *)
Theorem unterminated_last_line_is_answered pre body w :
  (pre = [] \/ exists pre', pre = pre' ++ [10%N]) ->
  body <> [] -> ~ In 10%N body ->
  (let '(_, out1, w1) := mock_main pre w in
   let (response, w2) := mock_respond body w1 in
   mock_main (pre ++ body) w = (inr tt, out1 ++ [json.dumps response], w2))
  /\ (let '(_, out1, w1) := weather_main pre w in
      let (response, w2) := weather_respond body w1 in
      weather_main (pre ++ body) w
      = (inr tt, out1 ++ [json.dumps response], w2)).
Proof.
  intros Hpre Hne Hnl. split.
  - unfold mock_main, mock_weather_server.main.
    rewrite (dispatch_facts.main_last_line _ _ pre body w Hpre Hne Hnl).
    destruct (dispatcher.main _ _ pre w) as [[r1 out1] w1].
    unfold dispatcher.answer, mock_respond, mock_weather_server.respond.
    destruct (dispatcher.respond _ _ body w1) as [response w2]. reflexivity.
  - unfold weather_main, weather_mcp_server.main.
    rewrite (dispatch_facts.main_last_line _ _ pre body w Hpre Hne Hnl).
    destruct (dispatcher.main _ _ pre w) as [[r1 out1] w1].
    unfold dispatcher.answer, weather_respond, weather_mcp_server.respond.
    destruct (dispatcher.respond _ _ body w1) as [response w2]. reflexivity.
Qed.

(** X5: every line either server prints holds printable ASCII characters
    only, from the space to the tilde, whatever the requests and the tool
    results hold: [json.dumps] escapes everything else. *)
Theorem responses_are_printable_ascii stdin w :
  Forall (fun text => forallb json_facts.plain_char text = true)
    (snd (fst (mock_main stdin w)))
  /\ Forall (fun text => forallb json_facts.plain_char text = true)
       (snd (fst (weather_main stdin w))).
Proof.
  split.
  - unfold mock_main, mock_weather_server.main.
    rewrite loop_facts.main_answers. apply dispatch_facts.answers_plain.
  - unfold weather_main, weather_mcp_server.main.
    rewrite loop_facts.main_answers. apply dispatch_facts.answers_plain.
Qed.

(** X6: the units asked for change three members of the fallback weather
    and nothing else: the keys and their order, and every member other
    than [temperature], [feels_like] and [wind_speed], are those of the
    metric answer; and any units other than "imperial" and "standard" (a
    misspelt one, a number) give the metric answer itself. *)
Theorem units_change_three_members_of_the_fallback_weather
  location units weather :
  weather_mcp_server.get_fallback_weather location units = inr weather ->
  exists metric,
    weather_mcp_server.get_fallback_weather location (PyStr (lit "metric"))
    = inr metric
    /\ map fst weather = map fst metric
    /\ (forall k,
           k <> lit "temperature" -> k <> lit "feels_like" ->
           k <> lit "wind_speed" ->
           dict_lookup weather k = dict_lookup metric k)
    /\ (eq_lit units "imperial" = false -> eq_lit units "standard" = false ->
        weather = metric).
Proof.
  unfold weather_mcp_server.get_fallback_weather.
  destruct (lower location) as [e|l]; [discriminate|].
  set (row := match weather_mcp_server.find_row _ _ with
              | Some value => value
              | None => _
              end).
  intros H. exists row. split; [reflexivity|].
  exact (convert_units_keeps _ _ _ H).
Qed.

(** X7: the weather server finds a location in its table whatever its
    case, spaces and commas: where the text, lowered and without spaces
    and commas, is a key of the table treated the same way, the fallback
    weather is the row of that key in the units asked for, and its
    [location] is the name the table has for the place, not the text. *)
Theorem fallback_lookup_ignores_case_spaces_and_commas location units row :
  weather_mcp_server.find_row weather_mcp_server.MOCK_WEATHER_DATA
    (weather_mcp_server.squeeze (str_lower location)) = Some row ->
  weather_mcp_server.get_fallback_weather (PyStr location) units
  = convert_units row units
  /\ exists weather,
       convert_units row units = inr weather
       /\ map fst weather = row_keys
       /\ dict_lookup weather (lit "location")
          = dict_lookup row (lit "location").
Proof.
  intros H. unfold weather_mcp_server.get_fallback_weather. cbn [lower].
  rewrite H. split; [reflexivity|].
  destruct (is_row_inv _ (weather_table_rows _ _ H)) as [Hk Hf].
  destruct (convert_row row units Hk Hf) as (weather & E & Hk' & _).
  exists weather. split; [exact E|]. split; [exact Hk'|].
  apply (proj1 (proj2 (convert_units_keeps _ _ _ E)));
    vm_compute; discriminate.
Qed.

(** X8: for a location of its table, looked up by the lowered text, the
    mock server draws nothing: [get_current_weather] is the row of the
    table in the units asked for, with the time of the one reading of the
    clock as [timestamp]; so two spellings that differ in case only get
    the same weather. *)
Theorem mock_weather_of_a_known_location_is_its_row location units row w :
  mock_weather_server.table_lookup mock_weather_server.MOCK_WEATHER_DATA
    (str_lower location) = Some row ->
  exists weather,
    convert_units row units = inr weather
    /\ map fst weather = row_keys
    /\ mock_weather_server.get_current_weather (PyStr location) units w
       = (inr (PyDict (dict_set weather (lit "timestamp")
                         (PyStr (isoformat (fst (stdlib_now w)))))),
          snd (stdlib_now w)).
Proof.
  intros H.
  destruct (is_row_inv _ (mock_table_rows _ _ H)) as [Hk Hf].
  destruct (convert_row row units Hk Hf) as (weather & E & Hk' & _).
  exists weather. split; [exact E|]. split; [exact Hk'|].
  unfold mock_weather_server.get_current_weather, bind, lift, ret,
    datetime.now.
  cbn [lower]. rewrite H, E.
  destruct (stdlib_now w) as [t w']. reflexivity.
Qed.

(** X9: for any text as location and anything as units,
    [get_current_weather] of the mock server, and that of the weather
    server in fallback mode, return a mapping with the members
    [location], [temperature], [feels_like], [humidity], [wind_speed],
    [condition], [description] and [timestamp], in this order, whose
    temperature, felt temperature and wind speed are floats; they raise
    nothing. *)
Theorem current_weather_is_a_report_of_eight_members location units :
  yields is_report
    (mock_weather_server.get_current_weather (PyStr location) units)
  /\ (weather_mcp_server.FALLBACK_MODE HAS_REQUESTS = true ->
      yields is_report
        (weather_mcp_server.get_current_weather HAS_REQUESTS
           api_current_weather (PyStr location) units)).
Proof.
  split.
  - unfold mock_weather_server.get_current_weather.
    eapply yields_bind_lift; [reflexivity|cbn beta].
    eapply (yields_bind (fun weather => is_row weather = true)).
    + destruct (mock_weather_server.table_lookup _ _) as [r|] eqn:E.
      * apply yields_ret. eapply mock_table_rows. exact E.
      * eapply yields_bind; [apply yields_uniform|]. intros base_temp _.
        eapply yields_bind; [apply yields_uniform|]. intros d _.
        eapply yields_bind; [apply yields_randint|]. intros humidity _.
        eapply yields_bind; [apply yields_uniform|]. intros wind_speed _.
        eapply yields_bind; [apply yields_choice|]. intros condition _.
        apply yields_ret. reflexivity.
    + intros weather Hw. destruct (is_row_inv _ Hw) as [Hk Hf].
      destruct (convert_row weather units Hk Hf) as (weather' & E & Hk' & Hf').
      eapply yields_bind_lift; [exact E|cbn beta].
      eapply yields_bind; [apply yields_now|]. intros t _.
      apply yields_ret. apply stamp_report; assumption.
  - intros Hfb. unfold weather_mcp_server.get_current_weather.
    rewrite Hfb. unfold weather_mcp_server.get_fallback_weather.
    cbn [lower].
    set (row := match weather_mcp_server.find_row _ _ with
                | Some value => value
                | None => _
                end).
    assert (Hrow : is_row row = true).
    { unfold row.
      destruct (weather_mcp_server.find_row _ _) as [r|] eqn:E.
      - eapply weather_table_rows. exact E.
      - reflexivity. }
    destruct (is_row_inv _ Hrow) as [Hk Hf].
    destruct (convert_row row units Hk Hf) as (weather' & E & Hk' & Hf').
    eapply yields_bind_lift; [exact E|cbn beta].
    eapply yields_bind; [apply yields_now|]. intros t _.
    apply yields_ret. apply stamp_report; assumption.
Qed.

(** X10: for a text that is no key of its table once lowered, the mock
    server answers with the text itself as [location] (as it was given,
    not lowered), a humidity drawn from 50 to 85, one of its five
    conditions and its stock description. *)
Theorem mock_weather_of_an_unknown_location_is_drawn location units :
  mock_weather_server.table_lookup mock_weather_server.MOCK_WEATHER_DATA
    (str_lower location) = None ->
  yields
    (fun v =>
       exists weather humidity condition,
         v = PyDict weather
         /\ dict_lookup weather (lit "location") = Some (PyStr location)
         /\ dict_lookup weather (lit "humidity") = Some (PyInt humidity)
         /\ (50 <= humidity <= 85)%Z
         /\ dict_lookup weather (lit "condition") = Some condition
         /\ In condition
              (strs ["Sunny"; "Cloudy"; "Rainy"; "Overcast"; "Partly Cloudy"])
         /\ dict_lookup weather (lit "description")
            = Some (PyStr (lit "Weather conditions for the location")))
    (mock_weather_server.get_current_weather (PyStr location) units).
Proof.
  intros H. unfold mock_weather_server.get_current_weather.
  eapply yields_bind_lift; [reflexivity|cbn beta]. rewrite H.
  eapply (yields_bind
            (fun weather =>
               is_row weather = true
               /\ exists humidity condition,
                    dict_lookup weather (lit "location")
                    = Some (PyStr location)
                    /\ dict_lookup weather (lit "humidity")
                       = Some (PyInt humidity)
                    /\ (50 <= humidity <= 85)%Z
                    /\ dict_lookup weather (lit "condition") = Some condition
                    /\ In condition
                         (strs ["Sunny"; "Cloudy"; "Rainy"; "Overcast";
                                "Partly Cloudy"])
                    /\ dict_lookup weather (lit "description")
                       = Some (PyStr
                                 (lit "Weather conditions for the location")))).
  - eapply yields_bind; [apply yields_uniform|]. intros base_temp _.
    eapply yields_bind; [apply yields_uniform|]. intros d _.
    eapply yields_bind; [apply randint_between; lia|]. intros humidity Hh.
    eapply yields_bind; [apply yields_uniform|]. intros wind_speed _.
    eapply yields_bind; [apply choice_member|]. intros condition Hc.
    apply yields_ret. split; [reflexivity|].
    exists humidity, condition. repeat split; try assumption; apply Hh.
  - intros weather (Hrow & humidity & condition & Hl & Hh & Hb & Hc & Hi & Hd).
    destruct (is_row_inv _ Hrow) as [Hk Hf].
    destruct (convert_row weather units Hk Hf) as (weather' & E & Hk' & Hf').
    destruct (convert_units_keeps _ _ _ E) as (_ & Hother & _).
    eapply yields_bind_lift; [exact E|cbn beta].
    eapply yields_bind; [apply yields_now|]. intros t _.
    assert (Hget : forall k v,
               k <> lit "temperature" -> k <> lit "feels_like" ->
               k <> lit "wind_speed" -> k <> lit "timestamp" ->
               dict_lookup weather k = Some v ->
               dict_lookup
                 (dict_set weather' (lit "timestamp") (PyStr (isoformat t))) k
               = Some v).
    { intros k v H1 H2 H3 H4 Hv.
      rewrite lookup_set_other by congruence.
      rewrite Hother by assumption. exact Hv. }
    apply yields_ret. eexists _, humidity, condition.
    split; [reflexivity|].
    split; [apply Hget; try exact Hl; vm_compute; discriminate|].
    split; [apply Hget; try exact Hh; vm_compute; discriminate|].
    split; [exact Hb|].
    split; [apply Hget; try exact Hc; vm_compute; discriminate|].
    split; [exact Hi|].
    apply Hget; try exact Hd; vm_compute; discriminate.
Qed.


(** X12: in fallback mode the weather server never uses the network: what
    [handle_tool_call] returns, and so every line [main] prints, is the
    same whatever the four OpenWeatherMap halves of the tools would do. *)
Theorem fallback_mode_never_uses_the_api
  (other_current_weather : value -> value -> M value)
  (other_forecast : value -> value -> value -> M value)
  (other_alerts other_air_quality : value -> M value) :
  weather_mcp_server.FALLBACK_MODE HAS_REQUESTS = true ->
  (forall name arguments w,
      weather_handle name arguments w
      = weather_mcp_server.handle_tool_call HAS_REQUESTS
          other_current_weather other_forecast other_alerts
          other_air_quality name arguments w)
  /\ (forall stdin w,
         weather_main stdin w
         = weather_mcp_server.main HAS_REQUESTS other_current_weather
             other_forecast other_alerts other_air_quality stdin w).
Proof.
  intros Hfb.
  assert (H : forall name arguments w,
             weather_handle name arguments w
             = weather_mcp_server.handle_tool_call HAS_REQUESTS
                 other_current_weather other_forecast other_alerts
                 other_air_quality name arguments w).
  { intros name arguments w.
    unfold weather_handle, weather_mcp_server.handle_tool_call,
      weather_mcp_server.try_body, weather_mcp_server.get_current_weather,
      weather_mcp_server.get_forecast, weather_mcp_server.get_alerts,
      weather_mcp_server.get_air_quality.
    revert Hfb.
    destruct (weather_mcp_server.FALLBACK_MODE HAS_REQUESTS);
      [reflexivity|discriminate]. }
  split; [exact H|].
  intros stdin w. unfold weather_main, weather_mcp_server.main.
  apply dispatch_facts.main_ext. exact H.
Qed.

(** X13: a forecast of no days.  Asked for zero days or fewer, the mock
    server returns the empty list; the weather server in fallback mode
    makes the same empty list, takes it for a failure, and answers with
    [{error: "No forecast data available"}]. *)
Theorem forecast_of_no_days_is_empty_or_an_error d location days w :
  dict_lookup d (lit "location") = Some (PyStr location) ->
  dict_lookup d (lit "days") = Some (PyInt days) ->
  (days <= 0)%Z ->
  (exists w',
      mock_weather_server.handle_tool_call (PyStr (lit "get_forecast"))
        (PyDict d) w = (inr (PyList []), w'))
  /\ (weather_mcp_server.FALLBACK_MODE HAS_REQUESTS = true ->
      weather_handle (PyStr (lit "get_forecast")) (PyDict d) w
      = (inr (error_dict (lit "No forecast data available")), w)).
Proof.
  intros Hl Hd Hdays. split.
  - rewrite mock_handle_get_forecast. unfold member. rewrite Hl, Hd.
    destruct (mock_forecast_length location days
                (match dict_lookup d (lit "units") with
                 | Some v => v
                 | None => mock_weather_server.WEATHER_UNITS
                 end) w) as (v & w' & E & l & -> & Hlen).
    exists w'. unfold catching, try_except. rewrite E.
    destruct l; [reflexivity|].
    replace (Z.to_nat days) with O in Hlen by lia. discriminate.
  - intros Hfb. unfold weather_handle.
    rewrite weather_handle_get_forecast. unfold member. rewrite Hl, Hd.
    set (units := match dict_lookup d (lit "units") with
                  | Some v => v
                  | None => PyStr (lit "metric")
                  end).
    unfold weather_mcp_server.get_forecast. rewrite Hfb.
    destruct (fallback_weather_floaty location units) as (weather & E & Hw).
    destruct (floaty_inv _ Hw) as (t & f & s & Ht & Hf & Hs).
    assert (Hmin : min2 (PyInt days) (PyInt 3) = inr (PyInt days)).
    { unfold min2, lt_number, as_number, number_lt.
      destruct (Z.ltb_spec 3 days); [lia|reflexivity]. }
    unfold catching, try_except, bind, lift, get.
    rewrite E, Ht, Hs, Hmin. cbn [range as_index].
    replace (Z.to_nat days) with O by lia. reflexivity.
Qed.

(** One alert of the mock server for [location]. *)
Definition mock_alert (location alert : value) : Prop :=
  exists severity effective_from expires,
    In severity ["Low"; "Medium"; "High"]
    /\ alert =
       PyDict
         [(lit "title", PyStr (lit "Weather Alert for " ++ to_str location));
          (lit "severity", PyStr (lit severity));
          (lit "description",
           PyStr (lit "A " ++ str_lower (lit severity)
                  ++ lit " severity weather alert is in effect."));
          (lit "effective_from", PyStr effective_from);
          (lit "expires", PyStr expires)].

(** X14: [get_alerts] of the mock server returns no alert or one alert,
    never more, for any location (a value that is no text too: it is only
    formatted into the title); the alert has the severity Low, Medium or
    High and names it, lowered, in its description.  In fallback mode the
    weather server returns no alert and leaves the generator and the clock
    alone. *)
Theorem alerts_are_none_or_one location :
  yields (fun v => v = PyList [] \/ exists alert,
                     v = PyList [alert] /\ mock_alert location alert)
    (mock_weather_server.get_alerts location)
  /\ (weather_mcp_server.FALLBACK_MODE HAS_REQUESTS = true ->
      forall w,
        weather_mcp_server.get_alerts HAS_REQUESTS api_alerts location w
        = (inr (PyList []), w)).
Proof.
  split.
  - unfold mock_weather_server.get_alerts.
    eapply yields_bind; [apply yields_random|]. intros r _.
    destruct (PrimFloat.ltb 0.7 r); [|apply yields_ret; left; reflexivity].
    eapply yields_bind; [apply choice_member|]. intros severity Hs.
    cbv beta in Hs.
    assert (Hsev : exists s, In s ["Low"; "Medium"; "High"]
                             /\ severity = PyStr (lit s)).
    { cbn [strs map In] in Hs.
      destruct Hs as [<-|[<-|[<-|[]]]]; eexists; (split; [|reflexivity]);
        cbn [In]; tauto. }
    destruct Hsev as (s & Hin & ->).
    eapply yields_bind_lift; [reflexivity|cbn beta].
    eapply yields_bind; [apply yields_now|]. intros t1 _.
    eapply yields_bind; [apply yields_now|]. intros t2 _.
    apply yields_ret. right. eexists. split; [reflexivity|].
    exists s. do 2 eexists. split; [exact Hin|reflexivity].
  - intros Hfb w. unfold weather_mcp_server.get_alerts. rewrite Hfb.
    reflexivity.
Qed.

(** The air quality the mock server draws for [location]. *)
Definition mock_air_quality (location v : value) : Prop :=
  exists aqi pm25 pm10 no2 so2 o3 quality timestamp,
    v = PyDict [(lit "location", location);
                (lit "aqi", PyInt aqi);
                (lit "pm25", PyFloat pm25);
                (lit "pm10", PyFloat pm10);
                (lit "no2", PyFloat no2);
                (lit "so2", PyFloat so2);
                (lit "o3", PyFloat o3);
                (lit "quality", quality);
                (lit "timestamp", PyStr timestamp)]
    /\ (20 <= aqi <= 150)%Z
    /\ In quality
         (strs ["Good"; "Moderate"; "Unhealthy for Sensitive Groups";
                "Unhealthy"]).

(** X15: [get_air_quality] of the mock server, for any location, is a
    mapping with the location as given, an index drawn from 20 to 150 and
    one of four quality labels, drawn apart from the index: the label need
    not fit the index.  In fallback mode the weather server gives every
    location the same reading, the index 2 with the label "Fair". *)
Theorem air_quality_is_drawn_or_fixed location :
  yields (mock_air_quality location)
    (mock_weather_server.get_air_quality location)
  /\ (weather_mcp_server.FALLBACK_MODE HAS_REQUESTS = true ->
      forall w,
        weather_mcp_server.get_air_quality HAS_REQUESTS api_air_quality
          location w
        = (inr (PyDict
                  [(lit "location", location);
                   (lit "aqi", PyInt 2);
                   (lit "aqi_quality", PyStr (lit "Fair"));
                   (lit "pm25", PyFloat 35.0);
                   (lit "pm10", PyFloat 50.0);
                   (lit "no2", PyFloat 20.0);
                   (lit "so2", PyFloat 10.0);
                   (lit "o3", PyFloat 60.0);
                   (lit "co", PyFloat 0.5);
                   (lit "timestamp",
                    PyStr (isoformat (fst (stdlib_now w))))]),
           snd (stdlib_now w))).
Proof.
  split.
  - unfold mock_weather_server.get_air_quality.
    eapply yields_bind; [apply randint_between; lia|]. intros aqi Ha.
    eapply yields_bind; [apply yields_uniform|]. intros pm25 _.
    eapply yields_bind; [apply yields_uniform|]. intros pm10 _.
    eapply yields_bind; [apply yields_uniform|]. intros no2 _.
    eapply yields_bind; [apply yields_uniform|]. intros so2 _.
    eapply yields_bind; [apply yields_uniform|]. intros o3 _.
    eapply yields_bind; [apply choice_member|]. intros quality Hq.
    eapply yields_bind; [apply yields_now|]. intros t _.
    apply yields_ret. do 8 eexists. split; [reflexivity|]. split; assumption.
  - intros Hfb w. unfold weather_mcp_server.get_air_quality. rewrite Hfb.
    unfold weather_mcp_server.fallback_air_quality, bind, datetime.now, ret.
    cbn [orb]. destruct (stdlib_now w) as [t w']. reflexivity.
Qed.

End ServerProperties.

Section ApiProperties.
Import py shared py_reply forecast_facts tool_facts api_facts.
Context {rt : Runtime}.
Variable response : Type.
Variable requests_get : str -> value -> M response.
Variable raise_for_status : response -> M unit.
Variable response_json : response -> M value.

Let forecast_body :=
  weather_api.forecast_body response requests_get raise_for_status
    response_json.
Let api_forecast :=
  weather_api.api_forecast response requests_get raise_for_status
    response_json.
Let current_weather_body :=
  weather_api.current_weather_body response requests_get raise_for_status
    response_json.
Let api_current_weather :=
  weather_api.api_current_weather response requests_get raise_for_status
    response_json.
Let api_alerts :=
  weather_api.api_alerts response requests_get raise_for_status
    response_json.
Let api_air_quality :=
  weather_api.api_air_quality response requests_get raise_for_status
    response_json.


(** One day of the forecast made where the service fails. *)
Definition cloudy (entry : value) : Prop :=
  exists date,
    entry = PyDict [(lit "date", PyStr date);
                    (lit "condition", PyStr (lit "Cloudy"));
                    (lit "temp_max", PyInt 18);
                    (lit "temp_min", PyInt 12);
                    (lit "wind_speed", PyInt 8)].

(** X17: where anything raises on the way (the request, a bad status, a
    reply that is no JSON or lacks a member), the forecast is the list
    the [except] clause makes: [min(days, 3)] days, each "Cloudy" with the
    temperatures 18 and 12 and the wind 8, whatever the location and the
    units are; for an [int] as days nothing is raised. *)
Theorem api_forecast_failure_gives_cloudy_days location days units w e w1 :
  forecast_body location (PyInt days) w = (inl e, w1) ->
  exists entries w',
    api_forecast location (PyInt days) units w = (inr (PyList entries), w')
    /\ List.length entries = Z.to_nat (Z.min days 3)
    /\ Forall cloudy entries.
Proof.
  intros H. unfold api_forecast, weather_api.api_forecast, try_except.
  fold forecast_body. rewrite H.
  assert (Hy : yields (fun v => exists entries,
                          v = PyList entries
                          /\ List.length entries = Z.to_nat (Z.min days 3)
                          /\ Forall cloudy entries)
                 (weather_api.forecast_fallback (PyInt days))).
  { unfold weather_api.forecast_fallback.
    assert (Hmin : min2 (PyInt days) (PyInt 3) = inr (PyInt (Z.min days 3))).
    { unfold min2, lt_number, as_number, number_lt.
      destruct (Z.ltb_spec 3 days).
      - rewrite Z.min_r by lia. reflexivity.
      - rewrite Z.min_l by lia. reflexivity. }
    eapply yields_bind_lift; [exact Hmin|cbn beta].
    eapply yields_bind_lift; [reflexivity|cbn beta].
    eapply yields_bind.
    - apply (for_range_all cloudy). intros i.
      unfold weather_api.cloudy_day.
      eapply yields_bind; [apply yields_now|]. intros t _.
      apply yields_ret. eexists. reflexivity.
    - intros l [Hl Hall]. apply yields_ret. eauto. }
  destruct (Hy w1) as (v & w' & E & entries & -> & Hl & Hall).
  exists entries, w'. auto.
Qed.

Definition api_report_keys : list str :=
  [lit "location"; lit "temperature"; lit "feels_like"; lit "humidity";
   lit "wind_speed"; lit "condition"; lit "description"; lit "pressure";
   lit "cloudiness"; lit "timestamp"].

(** X18: [get_current_weather] with the service.  Where the reply reads
    well the answer has the ten members [location], [temperature],
    [feels_like], [humidity], [wind_speed], [condition], [description],
    [pressure], [cloudiness], [timestamp].  Where anything raises on the
    way, the answer for a text as location is the fallback weather in
    metric units with the time of the clock read after the failure.  In
    both cases the units asked for are never read: the request says
    "metric", the reply is passed on as it is, and the fallback is the
    metric one. *)
Theorem api_current_weather_reads_the_reply_or_falls_back location units w :
  (forall v w',
      current_weather_body location w = (inr v, w') ->
      api_current_weather location units w = (inr v, w')
      /\ exists fields, v = PyDict fields /\ map fst fields = api_report_keys)
  /\ (forall text e w1,
         location = PyStr text ->
         current_weather_body location w = (inl e, w1) ->
         exists weather,
           weather_mcp_server.get_fallback_weather location
             (PyStr (lit "metric")) = inr weather
           /\ map fst weather = row_keys
           /\ api_current_weather location units w
              = (inr (PyDict (dict_set weather (lit "timestamp")
                                (PyStr (isoformat (fst (stdlib_now w1)))))),
                 snd (stdlib_now w1))).
Proof.
  split.
  - intros v w' H. split.
    + unfold api_current_weather, weather_api.api_current_weather,
        try_except.
      fold current_weather_body. rewrite H. reflexivity.
    + unfold current_weather_body, weather_api.current_weather_body in H.
      apply bind_returned in H. destruct H as (reply & w1 & _ & H).
      apply bind_returned in H. destruct H as (u & w2 & _ & H).
      apply bind_returned in H. destruct H as (data & w3 & _ & H).
      repeat (apply lift_returned in H; destruct H as (? & _ & H)).
      apply bind_returned in H. destruct H as (t & w4 & _ & H).
      apply ret_returned in H. destruct H as [-> _].
      eexists. split; reflexivity.
  - intros text e w1 -> H.
    unfold api_current_weather, weather_api.api_current_weather,
      try_except.
    fold current_weather_body. rewrite H.
    unfold weather_api.current_weather_fallback.
    unfold weather_mcp_server.get_fallback_weather. cbn [lower].
    set (row := match weather_mcp_server.find_row _ _ with
                | Some value => value
                | None => _
                end).
    assert (Hrow : is_row row = true).
    { unfold row.
      destruct (weather_mcp_server.find_row _ _) as [r|] eqn:E.
      - eapply weather_table_rows. exact E.
      - reflexivity. }
    destruct (is_row_inv _ Hrow) as [Hk Hf].
    exists row. split; [reflexivity|]. split; [exact Hk|].
    unfold bind, lift, datetime.now, ret.
    change (convert_units row (PyStr (lit "metric"))) with (@inr exn _ row).
    cbv iota. destruct (stdlib_now w1) as [t w']. reflexivity.
Qed.

(** One alert read off a reply. *)
Definition api_alert (entry : value) : Prop :=
  exists title description effective_from expires,
    entry = PyDict [(lit "title", title);
                    (lit "severity", PyStr (lit "High"));
                    (lit "description", description);
                    (lit "effective_from", effective_from);
                    (lit "expires", expires)].

Lemma alert_entries_shape items : forall w entries w',
  weather_api.alert_entries items w = (inr entries, w') ->
  Forall api_alert entries.
Proof.
  induction items as [|alert items IH]; intros w entries w' H;
    cbn [weather_api.alert_entries] in H.
  - apply ret_returned in H. destruct H as [-> _]. constructor.
  - apply bind_returned in H. destruct H as (entry & w1 & He & H).
    apply bind_returned in H. destruct H as (rest & w2 & Hr & H).
    apply ret_returned in H. destruct H as [-> _].
    constructor; [|eapply IH; exact Hr].
    unfold weather_api.alert_entry in He.
    apply lift_returned in He. destruct He as (title & _ & He).
    apply lift_returned in He. destruct He as (description & _ & He).
    apply bind_returned in He. destruct He as (t1 & w3 & _ & He).
    apply lift_returned in He. destruct He as (effective_from & _ & He).
    apply bind_returned in He. destruct He as (t2 & w4 & _ & He).
    apply lift_returned in He. destruct He as (expires & _ & He).
    apply ret_returned in He. destruct He as [-> _].
    do 4 eexists. reflexivity.
Qed.

(** X19: [get_alerts] with the service returns a list whatever happens:
    for any location, any reply and any failure of the network it raises
    nothing; every alert in the list has the severity "High", whatever
    the service said; and a failure anywhere gives the empty list, as if
    there were no alert. *)
Theorem api_alerts_always_returns_a_list location w :
  exists entries w',
    api_alerts location w = (inr (PyList entries), w')
    /\ Forall api_alert entries
    /\ (forall e w1,
           weather_api.alerts_body response requests_get raise_for_status
             response_json location w = (inl e, w1) ->
           entries = [] /\ w' = w1).
Proof.
  unfold api_alerts, weather_api.api_alerts, try_except.
  destruct (weather_api.alerts_body _ _ _ _ location w) as [[e|v] w1] eqn:H.
  - exists [], w1. split; [reflexivity|]. split; [constructor|].
    intros e' w2 H'. inversion H'. auto.
  - unfold weather_api.alerts_body in H.
    apply bind_returned in H. destruct H as (data & w2 & _ & H).
    destruct (negb (truthy data)).
    + apply ret_returned in H. destruct H as [-> ->].
      exists [], w2. split; [reflexivity|]. split; [constructor|].
      intros e' w3 H'. discriminate H'.
    + apply lift_returned in H. destruct H as (c & _ & H).
      apply bind_returned in H. destruct H as (alerts_data & w3 & _ & H).
      apply lift_returned in H. destruct H as (listed & _ & H).
      apply lift_returned in H. destruct H as (items & _ & H).
      apply bind_returned in H. destruct H as (alerts & w4 & Ha & H).
      apply ret_returned in H. destruct H as [-> ->].
      exists alerts, w4. split; [reflexivity|].
      split; [eapply alert_entries_shape; exact Ha|].
      intros e' w5 H'. discriminate H'.
Qed.

Definition air_quality_keys : list str :=
  [lit "location"; lit "aqi"; lit "aqi_quality"; lit "pm25"; lit "pm10";
   lit "no2"; lit "so2"; lit "o3"; lit "co"; lit "timestamp"].

(** X20: [get_air_quality] with the service returns a mapping whatever
    happens: for any location, any reply and any failure it raises
    nothing, and the mapping starts with the location as given.  It is
    either the pair of the location and the error "Location not found"
    (the service knows no such place), or a reading of ten members whose
    label is the one the table of the function gives for its index: Good,
    Fair, Moderate, Poor, Very Poor for 1 to 5, Unknown for anything
    else.  The reading made where something fails has the index 2 and the
    label Fair. *)
Theorem api_air_quality_always_returns_a_reading location w :
  exists fields w',
    api_air_quality location w = (inr (PyDict fields), w')
    /\ dict_lookup fields (lit "location") = Some location
    /\ (fields = [(lit "location", location);
                  (lit "error", PyStr (lit "Location not found"))]
        \/ map fst fields = air_quality_keys
           /\ exists aqi,
                dict_lookup fields (lit "aqi") = Some aqi
                /\ dict_lookup fields (lit "aqi_quality")
                   = Some (table_get weather_api.quality_map aqi
                             (PyStr (lit "Unknown"))))
    /\ (forall e w1,
           weather_api.air_quality_body response requests_get
             raise_for_status response_json location w = (inl e, w1) ->
           dict_lookup fields (lit "aqi") = Some (PyInt 2)).
Proof.
  unfold api_air_quality, weather_api.api_air_quality, try_except.
  destruct (weather_api.air_quality_body _ _ _ _ location w)
    as [[e|v] w1] eqn:H.
  - unfold weather_mcp_server.fallback_air_quality, bind, datetime.now, ret.
    destruct (stdlib_now w1) as [t w2].
    do 2 eexists. split; [reflexivity|]. split; [reflexivity|].
    split; [right; split; [reflexivity|eexists; split; reflexivity]|].
    intros; reflexivity.
  - unfold weather_api.air_quality_body in H.
    apply bind_returned in H. destruct H as (data & w2 & _ & H).
    destruct (negb (truthy data)).
    + apply ret_returned in H. destruct H as [-> ->].
      do 2 eexists. split; [reflexivity|]. split; [reflexivity|].
      split; [left; reflexivity|]. intros e' w3 H'. discriminate H'.
    + apply lift_returned in H. destruct H as (c & _ & H).
      apply bind_returned in H. destruct H as (aqi_data & w3 & _ & H).
      do 7 (apply lift_returned in H; destruct H as (? & _ & H)).
      apply lift_returned in H. destruct H as (aqi_quality & Hq & H).
      do 6 (apply lift_returned in H; destruct H as (? & _ & H)).
      apply bind_returned in H. destruct H as (t & w4 & _ & H).
      apply ret_returned in H. destruct H as [-> ->].
      do 2 eexists. split; [reflexivity|]. split; [reflexivity|].
      split; [|intros e' w5 H'; discriminate H'].
      right. split; [reflexivity|]. eexists. split; [reflexivity|].
      cbn [dict_lookup str_eqb lit]. 
      unfold int_table_get in Hq.
      match type of Hq with
      | match ?a with _ => _ end = _ =>
          destruct a; try discriminate Hq; inversion Hq; reflexivity
      end.
Qed.

End ApiProperties.

(** * The further properties on concrete input *)

(** A service for the weather server of [fixture]: it knows the forecast
    of one place and fails on every other request. *)
Module canned.
Import py shared.

Definition three_hours (dt_txt : string) (temp_max : float) : value :=
  PyDict
    [(lit "dt_txt", PyStr (lit dt_txt));
     (lit "main",
      PyDict [(lit "temp_max", PyFloat temp_max);
              (lit "temp_min", PyFloat 4.5);
              (lit "humidity", PyInt 80)]);
     (lit "weather",
      PyList [PyDict [(lit "main", PyStr (lit "Rain"));
                      (lit "description", PyStr (lit "light rain"))]]);
     (lit "wind", PyDict [(lit "speed", PyFloat 3.5)])].

Definition forecast_reply : value :=
  PyDict
    [(lit "list",
      PyList [three_hours "2024-05-01 09:00:00" 9.5;
              three_hours "2024-05-01 12:00:00" 11.0;
              three_hours "2024-05-02 09:00:00" 8.0;
              three_hours "2024-05-03 09:00:00" 7.0])].

Definition requests_get (url : str) (params : value)
  : @M fixture.runtime value :=
  if str_eqb url (weather_api.OPENWEATHER_BASE_URL ++ lit "/data/2.5/forecast")
  then ret forecast_reply
  else raise (Exception (lit "503 Server Error")).

Definition raise_for_status (reply : value) : @M fixture.runtime unit :=
  ret tt.

Definition response_json (reply : value) : @M fixture.runtime value :=
  ret reply.

Definition api_forecast : value -> value -> value -> @M fixture.runtime value :=
  weather_api.api_forecast value requests_get raise_for_status response_json.

Definition day (date : string) (temp_max : float) : value :=
  PyDict [(lit "date", PyStr (lit date));
          (lit "temp_max", PyFloat temp_max);
          (lit "temp_min", PyFloat 4.5);
          (lit "condition", PyStr (lit "Rain"));
          (lit "description", PyStr (lit "light rain"));
          (lit "precipitation", PyInt 0);
          (lit "wind_speed", PyFloat 3.5);
          (lit "humidity", PyInt 80)].

End canned.

Section OnTheFixture.
Import py shared request_facts forecast_facts tool_facts api_facts.

(** X1 on the empty line. *)
Lemma empty_line_gets_parse_error :
  fixture.mock_respond [10%N] 0%nat = (parse_error, 0%nat)
  /\ fixture.weather_respond [10%N] 0%nat = (parse_error, 0%nat).
Proof.
  exact (proj2 (blank_line_gets_parse_error (rt := fixture.runtime) true
                  fixture.no_network2 fixture.no_network3
                  fixture.no_network1 fixture.no_network1
                  [10%N] 0%nat eq_refl)).
Defined.

(** X2 on a call whose [params] is a list. *)
Lemma params_that_are_a_list_get_internal_error :
  let line := fixture.request_line "tools/call" (PyList []) 5 in
  let response :=
    dispatcher.error_response (-32603)
      (lit "'list' object has no attribute 'get'") in
  fixture.mock_respond line 0%nat = (response, 0%nat)
  /\ fixture.weather_respond line 0%nat = (response, 0%nat).
Proof.
  intros line response.
  pose (request := [(lit "jsonrpc", PyStr (lit "2.0"));
                    (lit "method", PyStr (lit "tools/call"));
                    (lit "params", PyList []);
                    (lit "id", PyInt 5)]).
  assert (Hline : json.loads line = Some (PyDict request))
    by (vm_compute; reflexivity).
  exact (proj2 (params_that_are_no_mapping_get_internal_error
                  (rt := fixture.runtime) true fixture.no_network2
                  fixture.no_network3 fixture.no_network1
                  fixture.no_network1 line request 0%nat Hline eq_refl
                  eq_refl)).
Defined.

(** X3 on a call of [get_alerts] whose [arguments] is the number 3. *)
Lemma arguments_that_are_a_number_divide_the_servers :
  let line :=
    fixture.request_line "tools/call"
      (fixture.tool_call "get_alerts" (PyInt 3)) 6 in
  let message := lit "'int' object has no attribute 'get'" in
  fixture.mock_respond line 0%nat
  = (dispatcher.error_response (-32603) message, 0%nat)
  /\ fixture.weather_respond line 0%nat
     = (dispatcher.success_response (error_dict message) (PyInt 6), 0%nat).
Proof.
  intros line message.
  pose (params := [(lit "name", PyStr (lit "get_alerts"));
                   (lit "arguments", PyInt 3)]).
  pose (request := [(lit "jsonrpc", PyStr (lit "2.0"));
                    (lit "method", PyStr (lit "tools/call"));
                    (lit "params", PyDict params);
                    (lit "id", PyInt 6)]).
  assert (Hline : json.loads line = Some (PyDict request))
    by (vm_compute; reflexivity).
  destruct (arguments_that_are_no_mapping_divide_the_servers
              (rt := fixture.runtime) true fixture.no_network2
              fixture.no_network3 fixture.no_network1 fixture.no_network1
              line request params 0%nat Hline eq_refl eq_refl eq_refl)
    as [Hm Hw].
  split; [exact Hm|exact (Hw eq_refl)].
Defined.

(** X4 on a stream that ends in the middle of a line. *)
Lemma stream_that_ends_without_newline :
  let stdin := examples.ping ++ lit "5" in
  let out :=
    [json.dumps examples.pong; json.dumps examples.no_attribute_get] in
  fixture.mock_main stdin 0%nat = (inr tt, out, 0%nat)
  /\ fixture.weather_main stdin 0%nat = (inr tt, out, 0%nat).
Proof.
  intros stdin out.
  assert (Hpre : examples.ping = []
                 \/ exists pre', examples.ping = pre' ++ [10%N])
    by (right; eexists; reflexivity).
  assert (Hne : lit "5" <> []) by discriminate.
  assert (Hnl : ~ In 10%N (lit "5"))
    by (cbn; intros [H|[]]; discriminate H).
  destruct (unterminated_last_line_is_answered
              (rt := fixture.runtime) true fixture.no_network2
              fixture.no_network3 fixture.no_network1 fixture.no_network1
              examples.ping (lit "5") 0%nat Hpre Hne Hnl) as [Hm Hw].
  assert (E1 : @mock_weather_server.main fixture.runtime examples.ping 0%nat
               = (inr tt, [json.dumps examples.pong], 0%nat))
    by (vm_compute; reflexivity).
  assert (E2 : @weather_mcp_server.main fixture.runtime true
                 fixture.no_network2 fixture.no_network3 fixture.no_network1
                 fixture.no_network1 examples.ping 0%nat
               = (inr tt, [json.dumps examples.pong], 0%nat))
    by (vm_compute; reflexivity).
  rewrite E1 in Hm. rewrite E2 in Hw.
  split; [exact Hm|exact Hw].
Defined.

(** X6 on London in imperial units. *)
Lemma london_in_imperial_units_keeps_its_humidity :
  exists weather metric,
    @weather_mcp_server.get_fallback_weather fixture.runtime
      (PyStr (lit "London")) (PyStr (lit "imperial")) = inr weather
    /\ @weather_mcp_server.get_fallback_weather fixture.runtime
         (PyStr (lit "London")) (PyStr (lit "metric")) = inr metric
    /\ map fst weather = map fst metric
    /\ dict_lookup weather (lit "humidity") = Some (PyInt 72)
    /\ dict_lookup weather (lit "temperature") = Some (PyFloat 54.5)
    /\ dict_lookup metric (lit "temperature") = Some (PyFloat 12.5).
Proof.
  destruct (@weather_mcp_server.get_fallback_weather fixture.runtime
              (PyStr (lit "London")) (PyStr (lit "imperial")))
    as [e|weather] eqn:E; [vm_compute in E; discriminate E|].
  destruct (units_change_three_members_of_the_fallback_weather
              (rt := fixture.runtime) _ _ _ E)
    as (metric & Em & Hk & Hother & _).
  exists weather, metric. split; [reflexivity|]. split; [exact Em|].
  split; [exact Hk|].
  assert (Hh : dict_lookup metric (lit "humidity") = Some (PyInt 72)
               /\ dict_lookup metric (lit "temperature")
                  = Some (PyFloat 12.5)).
  { vm_compute in Em. inversion Em. split; reflexivity. }
  split; [|split; [|exact (proj2 Hh)]].
  - rewrite Hother by (vm_compute; discriminate). exact (proj1 Hh).
  - vm_compute in E. inversion E. reflexivity.
Defined.

(** X7 on a spelling of Dunedin in capitals and without its comma. *)
Lemma dunedin_is_found_without_its_comma :
  exists weather,
    @weather_mcp_server.get_fallback_weather fixture.runtime
      (PyStr (lit "DUNEDIN FL")) (PyStr (lit "metric")) = inr weather
    /\ dict_lookup weather (lit "location")
       = Some (PyStr (lit "Dunedin, FL USA")).
Proof.
  pose (row := row "Dunedin, FL USA" 21.1 20.5 65 12.9 "Sunny" "Sunny skies").
  destruct (fallback_lookup_ignores_case_spaces_and_commas
              (rt := fixture.runtime) (lit "DUNEDIN FL")
              (PyStr (lit "metric")) row eq_refl)
    as (E & weather & Ec & _ & Hl).
  exists weather. split; [rewrite E; exact Ec|].
  rewrite Hl. reflexivity.
Defined.

(** X8 on London in capitals. *)
Lemma mock_weather_of_london_in_capitals :
  exists weather,
    fst (@mock_weather_server.get_current_weather fixture.runtime
           (PyStr (lit "LONDON")) (PyStr (lit "metric")) 0%nat)
    = inr (PyDict weather)
    /\ dict_lookup weather (lit "location") = Some (PyStr (lit "London, UK"))
    /\ snd (@mock_weather_server.get_current_weather fixture.runtime
              (PyStr (lit "LONDON")) (PyStr (lit "metric")) 0%nat) = 1%nat.
Proof.
  pose (row := row "London, UK" 12.5 11.2 72 15.3 "Partly Cloudy"
                 "Partly cloudy skies with occasional sun").
  destruct (mock_weather_of_a_known_location_is_its_row
              (rt := fixture.runtime) (lit "LONDON") (PyStr (lit "metric"))
              row 0%nat eq_refl) as (weather & Ec & _ & E).
  rewrite E. eexists. split; [reflexivity|].
  vm_compute in Ec. inversion Ec. split; reflexivity.
Defined.

(** X10 on a place the mock server does not know. *)
Lemma mock_weather_of_atlantis_is_drawn :
  exists weather humidity,
    fst (@mock_weather_server.get_current_weather fixture.runtime
           (PyStr (lit "Atlantis")) (PyStr (lit "metric")) 0%nat)
    = inr (PyDict weather)
    /\ dict_lookup weather (lit "location") = Some (PyStr (lit "Atlantis"))
    /\ dict_lookup weather (lit "humidity") = Some (PyInt humidity)
    /\ (50 <= humidity <= 85)%Z.
Proof.
  destruct (mock_weather_of_an_unknown_location_is_drawn
              (rt := fixture.runtime) (lit "Atlantis")
              (PyStr (lit "metric")) eq_refl 0%nat)
    as (v & w' & E & weather & humidity & condition & -> & Hl & Hh & Hb & _).
  exists weather, humidity. rewrite E. auto.
Defined.

(** X12 on the weather server of [fixture], which has no API key: its
    answers are those of a server whose service would answer. *)
Lemma server_without_a_key_ignores_the_service :
  let line :=
    fixture.request_line "tools/call"
      (fixture.tool_call "get_forecast" (PyDict [(lit "days", PyInt 2)])) 9 in
  fixture.weather_main line 0%nat
  = @weather_mcp_server.main fixture.runtime true fixture.no_network2
      canned.api_forecast fixture.no_network1 fixture.no_network1 line 0%nat.
Proof.
  intros line.
  exact (proj2 (fallback_mode_never_uses_the_api
                  (rt := fixture.runtime) true fixture.no_network2
                  fixture.no_network3 fixture.no_network1
                  fixture.no_network1 fixture.no_network2
                  canned.api_forecast fixture.no_network1
                  fixture.no_network1 eq_refl) line 0%nat).
Defined.

(** X13 on a forecast of zero days for London. *)
Lemma forecast_of_zero_days_for_london :
  let arguments :=
    PyDict [(lit "location", PyStr (lit "London")); (lit "days", PyInt 0)] in
  (exists w',
      @mock_weather_server.handle_tool_call fixture.runtime
        (PyStr (lit "get_forecast")) arguments 0%nat = (inr (PyList []), w'))
  /\ @weather_mcp_server.handle_tool_call fixture.runtime true
       fixture.no_network2 fixture.no_network3 fixture.no_network1
       fixture.no_network1 (PyStr (lit "get_forecast")) arguments 0%nat
     = (inr (error_dict (lit "No forecast data available")), 0%nat).
Proof.
  intros arguments.
  assert (Hdays : (0 <= 0)%Z) by lia.
  destruct (forecast_of_no_days_is_empty_or_an_error
              (rt := fixture.runtime) true fixture.no_network2
              fixture.no_network3 fixture.no_network1 fixture.no_network1
              [(lit "location", PyStr (lit "London")); (lit "days", PyInt 0)]
              (lit "London") 0 0%nat eq_refl eq_refl Hdays) as [Hm Hw].
  split; [exact Hm|exact (Hw eq_refl)].
Defined.


(** X17 on a service that is down, asked for seven days. *)
Lemma forecast_of_seven_days_from_a_service_that_is_down :
  exists entries w',
    weather_api.api_forecast value
      (fun _ _ => raise (Exception (lit "connection refused")))
      canned.raise_for_status canned.response_json
      (PyStr (lit "Oslo")) (PyInt 7) (PyStr (lit "metric")) 0%nat
    = (inr (PyList entries), w')
    /\ List.length entries = 3%nat.
Proof.
  assert (H : weather_api.forecast_body value
                (fun _ _ => raise (Exception (lit "connection refused")))
                canned.raise_for_status canned.response_json
                (PyStr (lit "Oslo")) (PyInt 7) 0%nat
              = (inl (Exception (lit "connection refused")), 0%nat))
    by reflexivity.
  destruct (api_forecast_failure_gives_cloudy_days
              (rt := fixture.runtime) value _ _ _
              (PyStr (lit "Oslo")) 7 (PyStr (lit "metric")) 0%nat _ _ H)
    as (entries & w' & E & Hl & _).
  exists entries, w'. split; [exact E|exact Hl].
Defined.

End OnTheFixture.

(** * Whitespace around a JSON text *)

Module whitespace_facts.
Import py json_facts.
Local Open Scope N_scope.

(** What follows a text without changing how it is scanned: nothing, or
    something that starts with whitespace. *)
Definition blank (s : str) : Prop := forallb json.is_ws s = true.

Lemma blank_terminated rest : blank rest -> terminated rest = true.
Proof.
  destruct rest as [|c rest]; [reflexivity|].
  unfold blank. cbn [forallb]. rewrite andb_true_iff. intros [Hc _].
  unfold terminated, is_digit. unfold json.is_ws in Hc.
  rewrite !orb_true_iff, !N.eqb_eq in Hc.
  destruct Hc as [[[-> | ->] | ->] | ->]; reflexivity.
Qed.

Lemma skip_ws_blank_prefix before s :
  blank before -> json.skip_ws (before ++ s) = json.skip_ws s.
Proof.
  unfold blank. induction before as [|c b IH]; cbn [forallb app json.skip_ws];
    [reflexivity|].
  rewrite andb_true_iff. intros [-> H]. auto.
Qed.

Lemma skip_ws_more s c r rest :
  json.skip_ws s = c :: r -> json.skip_ws (s ++ rest) = c :: r ++ rest.
Proof.
  induction s as [|x s IH]; cbn [json.skip_ws app]; [discriminate|].
  destruct (json.is_ws x); [exact IH|].
  intros H. inversion H; subst. reflexivity.
Qed.

Lemma skip_ws_blank_suffix s rest :
  json.skip_ws s = [] -> blank rest -> json.skip_ws (s ++ rest) = [].
Proof.
  induction s as [|x s IH]; cbn [json.skip_ws app].
  - intros _ H. apply dispatch_facts.skip_ws_blank. exact H.
  - destruct (json.is_ws x); [exact IH|discriminate].
Qed.

(** ** Scanning a prefix *)

Lemma strip_prefix_more p : forall s r rest,
  json.strip_prefix p s = Some r ->
  json.strip_prefix p (s ++ rest) = Some (r ++ rest).
Proof.
  induction p as [|a p IH]; intros s r rest H; cbn [json.strip_prefix] in *.
  - inversion H. reflexivity.
  - destruct s as [|b s]; [discriminate|]. cbn [app].
    destruct (a =? b); [auto|discriminate].
Qed.

Lemma scan_atom_ext s v r rest :
  json.scan_atom s = Some (v, r) -> terminated rest = true ->
  json.scan_atom (s ++ rest) = Some (v, r ++ rest).
Proof.
  intros H Ht. unfold json.scan_atom in H.
  destruct (json.match_constant s) as [[v' r']|] eqn:Ec.
  - inversion H; subst v' r'. clear H.
    unfold json.match_constant in Ec.
    repeat match type of Ec with
      | match json.strip_prefix ?p s with _ => _ end = _ =>
          let E := fresh "E" in
          destruct (json.strip_prefix p s) as [?|] eqn:E;
          [ inversion Ec; subst; apply strip_prefix_app in E; subst s;
            rewrite <- List.app_assoc; reflexivity
          | clear E ]
      end.
    discriminate.
  - unfold json.scan_atom.
    rewrite (match_constant_number _ _ _ rest H).
    apply (match_number_more _ _ _ _ H Ht).
Qed.

Lemma scan_units_ext n : forall s us r rest,
  (List.length s <= n)%nat ->
  json.scan_units s = Some (us, r) ->
  json.scan_units (s ++ rest) = Some (us, r ++ rest).
Proof.
  induction n as [|n IH]; intros s us r rest Hn H.
  - destruct s; [discriminate|cbn in Hn; lia].
  - destruct s as [|c s1]; [discriminate|].
    cbn [json.scan_units app] in *.
    destruct (c =? 34); [inversion H; reflexivity|].
    destruct (c =? 92).
    + destruct s1 as [|e s2]; [discriminate|]. cbn [app].
      destruct (e =? 117).
      * destruct s2 as [|h1 [|h2 [|h3 [|h4 s6]]]]; try discriminate.
        cbn [app].
        destruct (json.hex4_val h1 h2 h3 h4); [|discriminate].
        destruct (json.scan_units s6) as [[us' r']|] eqn:E; [|discriminate].
        inversion H; subst.
        rewrite (IH s6 us' r rest); [reflexivity|cbn in Hn; lia|exact E].
      * destruct (json.unescape e); [|discriminate].
        destruct (json.scan_units s2) as [[us' r']|] eqn:E; [|discriminate].
        inversion H; subst.
        rewrite (IH s2 us' r rest); [reflexivity|cbn in Hn; lia|exact E].
    + destruct (c <? 32); [discriminate|].
      destruct (json.scan_units s1) as [[us' r']|] eqn:E; [|discriminate].
      inversion H; subst.
      rewrite (IH s1 us' r rest); [reflexivity|cbn in Hn; lia|exact E].
Qed.

Lemma scanstring_ext s t r rest :
  json.scanstring s = Some (t, r) ->
  json.scanstring (s ++ rest) = Some (t, r ++ rest).
Proof.
  unfold json.scanstring.
  destruct (json.scan_units s) as [[us r']|] eqn:E; [|discriminate].
  intros H. inversion H; subst.
  rewrite (scan_units_ext _ s us r rest (le_n _) E). reflexivity.
Qed.

Lemma parse_array_empty fuel acc : json.parse_array fuel [] acc = None.
Proof.
  destruct fuel as [|f]; [reflexivity|]. cbn [json.parse_array].
  rewrite dispatch_facts.scan_once_empty. reflexivity.
Qed.

Lemma parse_object_empty fuel acc : json.parse_object fuel [] acc = None.
Proof. destruct fuel; reflexivity. Qed.

Section Extension.
Variable rest : str.
Hypothesis rest_terminated : terminated rest = true.

(** A value that was read is read the same with [rest] after the text. *)
Lemma scan_ext fuel :
  (forall s v r,
      json.scan_once fuel s = Some (v, r) ->
      json.scan_once fuel (s ++ rest) = Some (v, r ++ rest))
  /\ (forall s acc v r,
         json.parse_array fuel s acc = Some (v, r) ->
         json.parse_array fuel (s ++ rest) acc = Some (v, r ++ rest))
  /\ (forall s acc v r,
         json.parse_object fuel s acc = Some (v, r) ->
         json.parse_object fuel (s ++ rest) acc = Some (v, r ++ rest)).
Proof.
  induction fuel as [|f (IHs & IHa & IHo)];
    [repeat split; intros; discriminate|].
  split; [|split].
  - intros s v r H. cbn [json.scan_once] in *.
    destruct s as [|c s1]; [discriminate|]. cbn [app].
    destruct (c =? 34).
    { destruct (json.scanstring s1) as [[t r']|] eqn:E; [|discriminate].
      inversion H; subst.
      rewrite (scanstring_ext _ _ _ rest E). reflexivity. }
    destruct (c =? 123).
    { destruct (json.skip_ws s1) as [|c' r0] eqn:E; [discriminate|].
      rewrite (skip_ws_more _ _ _ rest E).
      destruct (c' =? 125); [inversion H; reflexivity|].
      apply (IHo (c' :: r0)). exact H. }
    destruct (c =? 91).
    { destruct (json.skip_ws s1) as [|c' r0] eqn:E; [discriminate|].
      rewrite (skip_ws_more _ _ _ rest E).
      destruct (c' =? 93); [inversion H; reflexivity|].
      apply (IHa (c' :: r0)). exact H. }
    apply (scan_atom_ext (c :: s1) v r rest H rest_terminated).
  - intros s acc v r H. cbn [json.parse_array] in *.
    destruct (json.scan_once f s) as [[x s']|] eqn:E; [|discriminate].
    rewrite (IHs _ _ _ E).
    destruct (json.skip_ws s') as [|c r0] eqn:E2; [discriminate|].
    rewrite (skip_ws_more _ _ _ rest E2).
    destruct (c =? 93); [inversion H; reflexivity|].
    destruct (c =? 44); [|discriminate].
    destruct (json.skip_ws r0) as [|c2 r2] eqn:E3;
      [rewrite parse_array_empty in H; discriminate|].
    rewrite (skip_ws_more _ _ _ rest E3).
    apply (IHa (c2 :: r2)). exact H.
  - intros s acc v r H. cbn [json.parse_object] in *.
    destruct s as [|c s1]; [discriminate|]. cbn [app].
    destruct (c =? 34); [|discriminate].
    destruct (json.scanstring s1) as [[k s2]|] eqn:E; [|discriminate].
    rewrite (scanstring_ext _ _ _ rest E).
    destruct (json.skip_ws s2) as [|c2 s3] eqn:E2; [discriminate|].
    rewrite (skip_ws_more _ _ _ rest E2).
    destruct (c2 =? 58); [|discriminate].
    destruct (json.skip_ws s3) as [|c4 s5] eqn:E3;
      [rewrite dispatch_facts.scan_once_empty in H; discriminate|].
    rewrite (skip_ws_more _ _ _ rest E3).
    destruct (json.scan_once f (c4 :: s5)) as [[x s4]|] eqn:E4;
      [|discriminate].
    change (c4 :: s5 ++ rest) with ((c4 :: s5) ++ rest).
    rewrite (IHs (c4 :: s5) _ _ E4).
    destruct (json.skip_ws s4) as [|c3 r0] eqn:E5; [discriminate|].
    rewrite (skip_ws_more _ _ _ rest E5).
    destruct (c3 =? 125); [inversion H; reflexivity|].
    destruct (c3 =? 44); [|discriminate].
    destruct (json.skip_ws r0) as [|c6 r6] eqn:E6;
      [rewrite parse_object_empty in H; discriminate|].
    rewrite (skip_ws_more _ _ _ rest E6).
    apply (IHo (c6 :: r6)). exact H.
Qed.

End Extension.

(** More fuel reads the same value. *)
Lemma scan_fuel fuel :
  (forall s x, json.scan_once fuel s = Some x ->
               json.scan_once (S fuel) s = Some x)
  /\ (forall s acc x, json.parse_array fuel s acc = Some x ->
                      json.parse_array (S fuel) s acc = Some x)
  /\ (forall s acc x, json.parse_object fuel s acc = Some x ->
                      json.parse_object (S fuel) s acc = Some x).
Proof.
  induction fuel as [|f (IHs & IHa & IHo)];
    [repeat split; intros; discriminate|].
  split; [|split].
  - intros s x H.
    change (json.scan_once (S f) s) with
      (match s with
       | [] => None
       | c :: s1 =>
           if c =? 34 then
             match json.scanstring s1 with
             | Some (t, r) => Some (PyStr t, r)
             | None => None
             end
           else if c =? 123 then
             match json.skip_ws s1 with
             | c' :: r =>
                 if c' =? 125 then Some (PyDict [], r)
                 else json.parse_object f (c' :: r) []
             | [] => None
             end
           else if c =? 91 then
             match json.skip_ws s1 with
             | c' :: r =>
                 if c' =? 93 then Some (PyList [], r)
                 else json.parse_array f (c' :: r) []
             | [] => None
             end
           else json.scan_atom s
       end) in H.
    change (json.scan_once (S (S f)) s) with
      (match s with
       | [] => None
       | c :: s1 =>
           if c =? 34 then
             match json.scanstring s1 with
             | Some (t, r) => Some (PyStr t, r)
             | None => None
             end
           else if c =? 123 then
             match json.skip_ws s1 with
             | c' :: r =>
                 if c' =? 125 then Some (PyDict [], r)
                 else json.parse_object (S f) (c' :: r) []
             | [] => None
             end
           else if c =? 91 then
             match json.skip_ws s1 with
             | c' :: r =>
                 if c' =? 93 then Some (PyList [], r)
                 else json.parse_array (S f) (c' :: r) []
             | [] => None
             end
           else json.scan_atom s
       end).
    destruct s as [|c s1]; [discriminate|].
    destruct (c =? 34); [exact H|].
    destruct (c =? 123).
    { destruct (json.skip_ws s1) as [|c' r0]; [discriminate|].
      destruct (c' =? 125); [exact H|]. apply IHo. exact H. }
    destruct (c =? 91); [|exact H].
    destruct (json.skip_ws s1) as [|c' r0]; [discriminate|].
    destruct (c' =? 93); [exact H|]. apply IHa. exact H.
  - intros s acc x H.
    change (json.parse_array (S f) s acc) with
      (match json.scan_once f s with
       | Some (v, s') =>
           match json.skip_ws s' with
           | c :: r =>
               if c =? 93 then Some (PyList (acc ++ [v]), r)
               else if c =? 44
               then json.parse_array f (json.skip_ws r) (acc ++ [v])
               else None
           | [] => None
           end
       | None => None
       end) in H.
    change (json.parse_array (S (S f)) s acc) with
      (match json.scan_once (S f) s with
       | Some (v, s') =>
           match json.skip_ws s' with
           | c :: r =>
               if c =? 93 then Some (PyList (acc ++ [v]), r)
               else if c =? 44
               then json.parse_array (S f) (json.skip_ws r) (acc ++ [v])
               else None
           | [] => None
           end
       | None => None
       end).
    destruct (json.scan_once f s) as [[v s']|] eqn:E; [|discriminate].
    rewrite (IHs _ _ E).
    destruct (json.skip_ws s') as [|c r0]; [discriminate|].
    destruct (c =? 93); [exact H|].
    destruct (c =? 44); [|discriminate]. apply IHa. exact H.
  - intros s acc x H.
    change (json.parse_object (S f) s acc) with
      (match s with
       | c :: s1 =>
           if c =? 34 then
             match json.scanstring s1 with
             | Some (k, s2) =>
                 match json.skip_ws s2 with
                 | c2 :: s3 =>
                     if c2 =? 58 then
                       match json.scan_once f (json.skip_ws s3) with
                       | Some (v, s4) =>
                           match json.skip_ws s4 with
                           | c3 :: r =>
                               if c3 =? 125
                               then Some (PyDict (dict_set acc k v), r)
                               else if c3 =? 44
                               then json.parse_object f (json.skip_ws r)
                                      (dict_set acc k v)
                               else None
                           | [] => None
                           end
                       | None => None
                       end
                     else None
                 | [] => None
                 end
             | None => None
             end
           else None
       | [] => None
       end) in H.
    change (json.parse_object (S (S f)) s acc) with
      (match s with
       | c :: s1 =>
           if c =? 34 then
             match json.scanstring s1 with
             | Some (k, s2) =>
                 match json.skip_ws s2 with
                 | c2 :: s3 =>
                     if c2 =? 58 then
                       match json.scan_once (S f) (json.skip_ws s3) with
                       | Some (v, s4) =>
                           match json.skip_ws s4 with
                           | c3 :: r =>
                               if c3 =? 125
                               then Some (PyDict (dict_set acc k v), r)
                               else if c3 =? 44
                               then json.parse_object (S f) (json.skip_ws r)
                                      (dict_set acc k v)
                               else None
                           | [] => None
                           end
                       | None => None
                       end
                     else None
                 | [] => None
                 end
             | None => None
             end
           else None
       | [] => None
       end).
    destruct s as [|c s1]; [discriminate|].
    destruct (c =? 34); [|discriminate].
    destruct (json.scanstring s1) as [[k s2]|]; [|discriminate].
    destruct (json.skip_ws s2) as [|c2 s3]; [discriminate|].
    destruct (c2 =? 58); [|discriminate].
    destruct (json.scan_once f (json.skip_ws s3)) as [[v s4]|] eqn:E;
      [|discriminate].
    rewrite (IHs _ _ E).
    destruct (json.skip_ws s4) as [|c3 r0]; [discriminate|].
    destruct (c3 =? 125); [exact H|].
    destruct (c3 =? 44); [|discriminate]. apply IHo. exact H.
Qed.

Lemma scan_once_le f f' s x :
  (f <= f')%nat -> json.scan_once f s = Some x ->
  json.scan_once f' s = Some x.
Proof.
  induction 1 as [|f' _ IH]; [auto|].
  intros H. apply (proj1 (scan_fuel f')). auto.
Qed.

(** [json.loads] ignores whitespace around a text it can read. *)
Lemma loads_padded before s after v :
  blank before -> blank after ->
  json.loads s = Some v ->
  json.loads (before ++ s ++ after) = Some v.
Proof.
  intros Hb Ha H. unfold json.loads in *.
  rewrite skip_ws_blank_prefix by exact Hb.
  destruct (json.scan_once (2 * List.length s + 2) (json.skip_ws s))
    as [[v' r]|] eqn:E; [|discriminate].
  destruct (json.skip_ws r) as [|c r'] eqn:Er; [|discriminate].
  inversion H; subst v'.
  destruct (json.skip_ws s) as [|c t] eqn:Es;
    [rewrite dispatch_facts.scan_once_empty in E; discriminate|].
  rewrite (skip_ws_more _ _ _ after Es).
  pose proof (proj1 (scan_ext after (blank_terminated _ Ha) _) _ _ _ E) as E'.
  assert (Hfuel : (2 * List.length s + 2
                   <= 2 * List.length (before ++ s ++ after) + 2)%nat).
  { rewrite !length_app. lia. }
  change (c :: t ++ after) with ((c :: t) ++ after).
  rewrite (scan_once_le _ _ _ _ Hfuel E').
  rewrite (skip_ws_blank_suffix _ _ Er Ha). reflexivity.
Qed.

End whitespace_facts.

Module more_api_facts.
Import py shared py_reply api_facts.

Section FirstItem.
Context {rt : Runtime}.

(** The date of an item of the reply: [item["dt_txt"].split(" ")[0]]. *)
Definition date_of (item : value) : result str :=
  match getitem_key item "dt_txt" with
  | inl e => inl e
  | inr dt_txt => first_word dt_txt
  end.

Lemma lookup_app_none a b k :
  dict_lookup (a ++ b) k = None -> dict_lookup a k = None.
Proof.
  induction a as [|[k' v] a IH]; cbn [app dict_lookup]; [reflexivity|].
  destruct (str_eqb k' k); [discriminate|exact IH].
Qed.

Lemma lookup_snoc_same a k v : dict_lookup (a ++ [(k, v)]) k <> None.
Proof.
  induction a as [|[k' v'] a IH]; cbn [app dict_lookup].
  - rewrite py_facts.str_eqb_refl. discriminate.
  - destruct (str_eqb k' k); [discriminate|exact IH].
Qed.

(** Where an entry of the grouping comes from: it was there before the
    loop, or it is the first item of its date. *)
Lemma group_by_day_first items : forall acc daily,
  weather_api.group_by_day items acc = inr daily ->
  forall date item,
    In (date, item) daily ->
    In (date, item) acc
    \/ (dict_lookup acc date = None
        /\ exists before after,
             items = before ++ item :: after
             /\ date_of item = inr date
             /\ Forall (fun x => date_of x <> inr date) before).
Proof.
  induction items as [|item0 items IH]; intros acc daily H date item Hin;
    cbn [weather_api.group_by_day] in H.
  - inversion H; subst. left. exact Hin.
  - destruct (getitem_key item0 "dt_txt") as [e|dt_txt] eqn:E1;
      [discriminate|].
    destruct (first_word dt_txt) as [e|date0] eqn:E2; [discriminate|].
    assert (Hd0 : date_of item0 = inr date0)
      by (unfold date_of; rewrite E1; exact E2).
    destruct (dict_lookup acc date0) as [v0|] eqn:E3.
    + destruct (IH _ _ H date item Hin)
        as [Hacc|(Hnone & before & after & -> & Hd & Hall)];
        [left; exact Hacc|].
      right. split; [exact Hnone|].
      exists (item0 :: before), after. split; [reflexivity|].
      split; [exact Hd|]. constructor; [|exact Hall].
      rewrite Hd0. intros Heq. inversion Heq; subst. congruence.
    + rewrite json_facts.dict_set_new in H
        by (apply lookup_none_keys; exact E3).
      destruct (IH _ _ H date item Hin)
        as [Hacc|(Hnone & before & after & -> & Hd & Hall)].
      * apply in_app_or in Hacc. destruct Hacc as [Hacc|[Heq|[]]];
          [left; exact Hacc|].
        inversion Heq; subst. right. split; [exact E3|].
        exists [], items. split; [reflexivity|].
        split; [exact Hd0|constructor].
      * right. split; [eapply lookup_app_none; exact Hnone|].
        exists (item0 :: before), after. split; [reflexivity|].
        split; [exact Hd|]. constructor; [|exact Hall].
        rewrite Hd0. intros Heq. inversion Heq; subst.
        exact (lookup_snoc_same _ _ _ Hnone).
Qed.

End FirstItem.
End more_api_facts.

Section MoreProperties.
Import py shared request_facts forecast_facts tool_facts py_reply api_facts
  more_api_facts.
Context {rt : Runtime}.
Variable HAS_REQUESTS : bool.
Variable api_current_weather : value -> value -> M value.
Variable api_forecast : value -> value -> value -> M value.
Variable api_alerts : value -> M value.
Variable api_air_quality : value -> M value.

Let weather_respond : str -> world -> value * world :=
  weather_mcp_server.respond HAS_REQUESTS api_current_weather api_forecast
    api_alerts api_air_quality.

Let mock_respond : str -> world -> value * world :=
  mock_weather_server.respond.

(** X21: whitespace before and after a request changes nothing: a line
    that [json.loads] can read is read as the same value with spaces,
    tabs, carriage returns or newlines around it, and both servers answer
    the padded line as they answer the line itself. *)
Theorem whitespace_around_a_request_is_ignored before line after v w :
  forallb json.is_ws before = true ->
  forallb json.is_ws after = true ->
  json.loads line = Some v ->
  json.loads (before ++ line ++ after) = Some v
  /\ mock_respond (before ++ line ++ after) w = mock_respond line w
  /\ weather_respond (before ++ line ++ after) w = weather_respond line w.
Proof.
  intros Hb Ha H.
  pose proof (whitespace_facts.loads_padded before line after v Hb Ha H)
    as H'.
  split; [exact H'|].
  split;
    unfold mock_respond, mock_weather_server.respond, weather_respond,
      weather_mcp_server.respond, dispatcher.respond, dispatcher.serve,
      dispatcher.loads;
    rewrite H, H'; reflexivity.
Qed.

(** X22: what the conversion computes, in float arithmetic, from a
    weather whose temperature [t], felt temperature [f] and wind speed [s]
    are floats: for "imperial" [t * 9 / 5 + 32], [f * 9 / 5 + 32] and
    [s * 0.621371]; for "standard" [t + 273.15], [f + 273.15] and
    [s / 3.6]. *)
Theorem converted_units_follow_the_formulas weather t f s :
  dict_lookup weather (lit "temperature") = Some (PyFloat t) ->
  dict_lookup weather (lit "feels_like") = Some (PyFloat f) ->
  dict_lookup weather (lit "wind_speed") = Some (PyFloat s) ->
  (exists imperial,
      convert_units weather (PyStr (lit "imperial")) = inr imperial
      /\ dict_lookup imperial (lit "temperature")
         = Some (PyFloat (t * 9 / 5 + 32))
      /\ dict_lookup imperial (lit "feels_like")
         = Some (PyFloat (f * 9 / 5 + 32))
      /\ dict_lookup imperial (lit "wind_speed")
         = Some (PyFloat (s * 0.621371)))
  /\ (exists standard,
         convert_units weather (PyStr (lit "standard")) = inr standard
         /\ dict_lookup standard (lit "temperature")
            = Some (PyFloat (t + 273.15))
         /\ dict_lookup standard (lit "feels_like")
            = Some (PyFloat (f + 273.15))
         /\ dict_lookup standard (lit "wind_speed")
            = Some (PyFloat (s / 3.6))).
Proof.
  intros Ht Hf Hs.
  assert (Ntf : lit "temperature" <> lit "feels_like")
    by (vm_compute; discriminate).
  assert (Ntw : lit "temperature" <> lit "wind_speed")
    by (vm_compute; discriminate).
  assert (Nfw : lit "feels_like" <> lit "wind_speed")
    by (vm_compute; discriminate).
  split.
  - unfold convert_units.
    change (eq_lit (PyStr (lit "imperial")) "imperial") with true. cbv iota.
    erewrite update_float; [| exact Ht | reflexivity].
    erewrite update_float;
      [| rewrite lookup_set_other by assumption; exact Hf | reflexivity].
    erewrite update_float;
      [| rewrite !lookup_set_other by (assumption || congruence); exact Hs
       | reflexivity].
    eexists. split; [reflexivity|]. split; [|split].
    + rewrite !lookup_set_other by congruence. apply lookup_set_same.
    + rewrite lookup_set_other by congruence. apply lookup_set_same.
    + apply lookup_set_same.
  - unfold convert_units.
    change (eq_lit (PyStr (lit "standard")) "imperial") with false.
    change (eq_lit (PyStr (lit "standard")) "standard") with true. cbv iota.
    erewrite update_float; [| exact Ht | reflexivity].
    erewrite update_float;
      [| rewrite lookup_set_other by assumption; exact Hf | reflexivity].
    erewrite update_float;
      [| rewrite !lookup_set_other by (assumption || congruence); exact Hs
       | reflexivity].
    eexists. split; [reflexivity|]. split; [|split].
    + rewrite !lookup_set_other by congruence. apply lookup_set_same.
    + rewrite lookup_set_other by congruence. apply lookup_set_same.
    + apply lookup_set_same.
Qed.


(** What a response is, for the line it answers. *)
Definition well_formed (line : str) (response : value) : Prop :=
  (json.loads line = None /\ response = parse_error)
  \/ (exists v,
         json.loads line = Some v
         /\ ((exists request result,
                 v = PyDict request
                 /\ response
                    = dispatcher.success_response result (id_of request))
             \/ exists message,
                  response = dispatcher.error_response (-32603) message)).

Lemma respond_well_formed (handle_tool_call : value -> value -> M value)
  list_tools line w :
  (forall name arguments w0 e w1,
      handle_tool_call name arguments w0 = (inl e, w1) ->
      exists message, e = Exception message) ->
  well_formed line (fst (dispatcher.respond handle_tool_call list_tools line w)).
Proof.
  intros Hh. unfold well_formed.
  destruct (json.loads line) as [v|] eqn:H.
  - right. exists v. split; [reflexivity|].
    destruct (is_dict v) eqn:Hd.
    + destruct v as [| | | | | |request]; try discriminate Hd.
      destruct (eq_lit (method_of request) "tools/call") eqn:H1.
      * destruct (is_dict (params_of request)) eqn:Hp.
        -- destruct (params_of request) as [| | | | | |params] eqn:Ep;
             try discriminate Hp.
           rewrite (respond_tools_call _ _ _ _ _ _ H H1 Ep).
           destruct (handle_tool_call _ _ w) as [[e|result] w'] eqn:E.
           ++ destruct (Hh _ _ _ _ _ E) as [message ->].
              right. eexists. reflexivity.
           ++ left. do 2 eexists. split; reflexivity.
        -- rewrite (respond_params_not_dict _ _ _ _ _ H H1 Hp).
           right. eexists. reflexivity.
      * destruct (eq_lit (method_of request) "tools/list") eqn:H2.
        -- rewrite (respond_tools_list _ _ _ _ _ H H2).
           left. do 2 eexists. split; reflexivity.
        -- rewrite (respond_unknown_method _ _ _ _ _ H H1 H2).
           left. do 2 eexists. split; reflexivity.
    + rewrite (respond_not_object _ _ _ _ _ H Hd).
      right. eexists. reflexivity.
  - left. split; [reflexivity|].
    rewrite (respond_invalid_json _ _ _ _ H). reflexivity.
Qed.


Let weather_main : str -> world -> result unit * list str * world :=
  weather_mcp_server.main HAS_REQUESTS api_current_weather api_forecast
    api_alerts api_air_quality.

Let mock_main : str -> world -> result unit * list str * world :=
  mock_weather_server.main.

(** X25: the servers keep nothing from one request to the next.  A stream
    cut after any of its newlines is answered as its two parts are, one
    after the other: the output is the output for the first part followed
    by that for the second, and all the second run takes over from the
    first is the state of the random generator and the clock. *)
Theorem a_stream_is_answered_part_by_part pre rest w :
  (pre = [] \/ exists pre', pre = pre' ++ [10%N]) ->
  (let '(_, out1, w1) := mock_main pre w in
   let '(_, out2, w2) := mock_main rest w1 in
   mock_main (pre ++ rest) w = (inr tt, out1 ++ out2, w2))
  /\ (let '(_, out1, w1) := weather_main pre w in
      let '(_, out2, w2) := weather_main rest w1 in
      weather_main (pre ++ rest) w = (inr tt, out1 ++ out2, w2)).
Proof.
  intros Hpre. split.
  - unfold mock_main, mock_weather_server.main.
    rewrite (loop_facts.main_app _ _ pre rest w Hpre).
    destruct (dispatcher.main _ _ pre w) as [[r1 out1] w1].
    destruct (dispatcher.main _ _ rest w1) as [[r2 out2] w2]. reflexivity.
  - unfold weather_main, weather_mcp_server.main.
    rewrite (loop_facts.main_app _ _ pre rest w Hpre).
    destruct (dispatcher.main _ _ pre w) as [[r1 out1] w1].
    destruct (dispatcher.main _ _ rest w1) as [[r2 out2] w2]. reflexivity.
Qed.

End MoreProperties.

Section MoreOnTheFixture.
Import py shared request_facts forecast_facts tool_facts py_reply api_facts
  more_api_facts.

(** X21 on a ping with a space and a tab before it and a space, a
    carriage return and a newline after it. *)
Lemma indented_ping_is_answered_as_ping :
  let request := [(lit "method", PyStr (lit "ping")); (lit "id", PyInt 2)] in
  let line := json.dumps (PyDict request) in
  let padded := ([32; 9] ++ line ++ [32; 13; 10])%N in
  json.loads padded = Some (PyDict request)
  /\ fixture.mock_respond padded 0%nat = fixture.mock_respond line 0%nat
  /\ fixture.weather_respond padded 0%nat
     = fixture.weather_respond line 0%nat.
Proof.
  intros request line padded.
  assert (Hline : json.loads line = Some (PyDict request))
    by (vm_compute; reflexivity).
  exact (whitespace_around_a_request_is_ignored (rt := fixture.runtime)
           true fixture.no_network2 fixture.no_network3
           fixture.no_network1 fixture.no_network1
           [32; 9]%N line [32; 13; 10]%N (PyDict request) 0%nat
           eq_refl eq_refl Hline).
Defined.

(** X22 on ten degrees, felt as eight, in a wind of 36 km/h. *)
Lemma ten_degrees_are_fifty_fahrenheit :
  let weather := [(lit "temperature", PyFloat 10);
                  (lit "feels_like", PyFloat 8);
                  (lit "humidity", PyInt 72);
                  (lit "wind_speed", PyFloat 36)] in
  (exists imperial,
      convert_units (rt := fixture.runtime) weather (PyStr (lit "imperial"))
      = inr imperial
      /\ dict_lookup imperial (lit "temperature") = Some (PyFloat 50))
  /\ (exists standard,
         convert_units (rt := fixture.runtime) weather
           (PyStr (lit "standard")) = inr standard
         /\ dict_lookup standard (lit "wind_speed") = Some (PyFloat 10)).
Proof.
  intros weather.
  destruct (converted_units_follow_the_formulas (rt := fixture.runtime)
              weather 10 8 36
              eq_refl eq_refl eq_refl)
    as [(imperial & Ei & Ht & _) (standard & Es & _ & _ & Hs)].
  split.
  - exists imperial. split; [exact Ei|exact Ht].
  - exists standard. split; [exact Es|exact Hs].
Defined.


(** X25 on a ping and a line that is no request. *)
Lemma ping_and_then_a_bare_number :
  let out :=
    [json.dumps examples.pong; json.dumps examples.no_attribute_get] in
  fixture.mock_main (examples.ping ++ examples.bare_number) 0%nat
  = (inr tt, out, 0%nat)
  /\ fixture.weather_main (examples.ping ++ examples.bare_number) 0%nat
     = (inr tt, out, 0%nat).
Proof.
  intros out.
  assert (Hpre : examples.ping = []
                 \/ exists pre', examples.ping = pre' ++ [10%N])
    by (right; eexists; reflexivity).
  destruct (a_stream_is_answered_part_by_part
              (rt := fixture.runtime) true fixture.no_network2
              fixture.no_network3 fixture.no_network1 fixture.no_network1
              examples.ping examples.bare_number 0%nat Hpre) as [Hm Hw].
  assert (E1 : @mock_weather_server.main fixture.runtime examples.ping 0%nat
               = (inr tt, [json.dumps examples.pong], 0%nat))
    by (vm_compute; reflexivity).
  assert (E2 : @mock_weather_server.main fixture.runtime
                 examples.bare_number 0%nat
               = (inr tt, [json.dumps examples.no_attribute_get], 0%nat))
    by (vm_compute; reflexivity).
  assert (E3 : @weather_mcp_server.main fixture.runtime true
                 fixture.no_network2 fixture.no_network3 fixture.no_network1
                 fixture.no_network1 examples.ping 0%nat
               = (inr tt, [json.dumps examples.pong], 0%nat))
    by (vm_compute; reflexivity).
  assert (E4 : @weather_mcp_server.main fixture.runtime true
                 fixture.no_network2 fixture.no_network3 fixture.no_network1
                 fixture.no_network1 examples.bare_number 0%nat
               = (inr tt, [json.dumps examples.no_attribute_get], 0%nat))
    by (vm_compute; reflexivity).
  rewrite E1, E2 in Hm. rewrite E3, E4 in Hw.
  split; [exact Hm|exact Hw].
Defined.

End MoreOnTheFixture.
